(** * go-vnc: a shallow embedding of the RFB protocol engine

    The development follows the Go sources of the client library:
    the error taxonomy, the input validator, the pixel-format wire codec,
    the pixel reader, the Hextile decoder, the DES challenge response, the
    client messages CutText and SetPixelFormat, the FramebufferUpdate
    parser and the ServerInit part of the handshake.

    Conventions.
    - Go's fixed-width unsigned integers are [Z] values; every operation
      that can wrap is written with an explicit [u8], [u16] or [u32].
    - A byte is a [Z] in [0, 255]; a Go string or [[]byte] is a [list Z].
    - An [io.Reader] is the list of bytes that are still unread.
    - A Go [error] result is an [option error] ([None] is [nil]); a call
      returning [(value, error)] is an [outcome], which also records a
      run-time panic (index or slice bound out of range).
    - Loggers, metrics, mutexes and context cancellation are left out:
      they never change a returned value or a written byte. *)

From Stdlib Require Import ZArith List Lia Bool String.
From stdpp Require Import base list gmap.
Import ListNotations.

Local Open Scope Z_scope.

(* ===================================================================== *)
(** * Part I: definitions                                                 *)
(* ===================================================================== *)

(** ** Fixed-width arithmetic *)

Definition u8 (x : Z) : Z := x mod 256.
Definition u16 (x : Z) : Z := x mod 65536.
Definition u32 (x : Z) : Z := x mod 4294967296.

Definition is_u8 (x : Z) : Prop := 0 <= x < 256.
Definition is_u16 (x : Z) : Prop := 0 <= x < 65536.
Definition is_u32 (x : Z) : Prop := 0 <= x < 4294967296.

(** ** Errors (the error taxonomy: [ErrorCode], [VNCError] and its
       constructors) *)

Inductive ErrorCode : Set :=
| ErrProtocol
| ErrAuthentication
| ErrEncoding
| ErrNetwork
| ErrConfiguration
| ErrTimeout
| ErrValidation
| ErrUnsupported.

(** [VNCError] keeps the operation tag, the category, the message and the
    wrapped cause.  Messages built with [fmt.Sprintf] are kept as their
    format text.  [EOF] and [ErrUnexpectedEOF] are the two errors of
    [io.ReadFull]; [KeySizeError] is the error of [des.NewCipher];
    [PixelFormatValidationError] is the separate error type
    of [PixelFormat.Validate]. *)
#[warnings="-register-all"]
Inductive error : Type :=
| EOF
| ErrUnexpectedEOF
| KeySizeError
| PixelFormatValidationError (Field Rule : string)
| VNCError (Op : string) (Code : ErrorCode) (Message : string) (Err : option error).

Definition protocolError op msg err := VNCError op ErrProtocol msg err.
Definition authenticationError op msg err := VNCError op ErrAuthentication msg err.
Definition encodingError op msg err := VNCError op ErrEncoding msg err.
Definition networkError op msg err := VNCError op ErrNetwork msg err.
Definition validationError op msg err := VNCError op ErrValidation msg err.
Definition unsupportedError op msg err := VNCError op ErrUnsupported msg err.
Arguments PixelFormatValidationError Field%_string Rule%_string.
Arguments protocolError op%_string msg%_string err.
Arguments authenticationError op%_string msg%_string err.
Arguments encodingError op%_string msg%_string err.
Arguments networkError op%_string msg%_string err.
Arguments validationError op%_string msg%_string err.
Arguments unsupportedError op%_string msg%_string err.

(** [GetErrorCode] for the outermost error of a chain. *)
Definition GetErrorCode (e : error) : option ErrorCode :=
  match e with
  | VNCError _ c _ _ => Some c
  | _ => None
  end.

(** ** Results of calls *)

Inductive outcome (A : Type) : Type :=
| Ok (a : A)
| Fail (e : error)
| Panic.
Arguments Ok {A} a.
Arguments Fail {A} e.
Arguments Panic {A}.

Definition obind {A B} (m : outcome A) (k : A -> outcome B) : outcome B :=
  match m with
  | Ok a => k a
  | Fail e => Fail e
  | Panic => Panic
  end.

(** [wrap f m] is the Go idiom [if err != nil { return nil, f(err) }]. *)
Definition wrap {A} (f : option error -> error) (m : outcome A) : outcome A :=
  match m with
  | Ok a => Ok a
  | Fail e => Fail (f (Some e))
  | Panic => Panic
  end.

Declare Scope go_scope.
Delimit Scope go_scope with go.
Notation "'let!' x ':=' m 'in' k" := (obind m (fun x => k))
  (at level 10, x pattern, m at level 100, k at level 200) : go_scope.
Local Open Scope go_scope.

(** ** Readers and byte order (io, encoding/binary) *)

Definition Reader := list Z.

(** [io.ReadFull(r, buf)] with [len(buf) = n]. *)
Definition ReadFull (n : nat) (r : Reader) : outcome (list Z * Reader) :=
  if (n <=? List.length r)%nat then Ok (firstn n r, skipn n r)
  else match r with
       | [] => Fail EOF
       | _ => Fail ErrUnexpectedEOF
       end.

Definition BigEndian_Uint16 (b : list Z) : Z :=
  Z.lor (nth 1 b 0) (Z.shiftl (nth 0 b 0) 8).
Definition LittleEndian_Uint16 (b : list Z) : Z :=
  Z.lor (nth 0 b 0) (Z.shiftl (nth 1 b 0) 8).
Definition BigEndian_Uint32 (b : list Z) : Z :=
  Z.lor (Z.lor (Z.lor (nth 3 b 0) (Z.shiftl (nth 2 b 0) 8))
               (Z.shiftl (nth 1 b 0) 16))
        (Z.shiftl (nth 0 b 0) 24).
Definition LittleEndian_Uint32 (b : list Z) : Z :=
  Z.lor (Z.lor (Z.lor (nth 0 b 0) (Z.shiftl (nth 1 b 0) 8))
               (Z.shiftl (nth 2 b 0) 16))
        (Z.shiftl (nth 3 b 0) 24).

Definition BigEndian_PutUint16 (v : Z) : list Z :=
  [u8 (Z.shiftr v 8); u8 v].
Definition BigEndian_PutUint32 (v : Z) : list Z :=
  [u8 (Z.shiftr v 24); u8 (Z.shiftr v 16); u8 (Z.shiftr v 8); u8 v].

(** [binary.Read(r, binary.BigEndian, &x)] for [x] of type uint8, uint16,
    uint32 and int32. *)
Definition read_u8 (r : Reader) : outcome (Z * Reader) :=
  let! (b, r') := ReadFull 1 r in Ok (nth 0 b 0, r').
Definition read_u16 (r : Reader) : outcome (Z * Reader) :=
  let! (b, r') := ReadFull 2 r in Ok (BigEndian_Uint16 b, r').
Definition read_u32 (r : Reader) : outcome (Z * Reader) :=
  let! (b, r') := ReadFull 4 r in Ok (BigEndian_Uint32 b, r').
Definition int32_of_u32 (v : Z) : Z :=
  if v <? 2147483648 then v else v - 4294967296.
Definition read_i32 (r : Reader) : outcome (Z * Reader) :=
  let! (v, r') := read_u32 r in Ok (int32_of_u32 v, r').

(** ** bytes.Buffer
    A buffer is the list of bytes written so far.  [buf.Bytes()[0:n]]
    re-slices the backing array: within the written length it is a prefix,
    between the length and the capacity it exposes the zero bytes of the
    spare capacity, and beyond the capacity it panics.  The first write of
    a [bytes.Buffer] allocates [smallBufferSize = 64] bytes. *)
Definition smallBufferSize : nat := 64.

Definition Bytes_slice_to (cap : nat) (written : list Z) (n : nat) : outcome (list Z) :=
  if (n <=? List.length written)%nat then Ok (firstn n written)
  else if (n <=? cap)%nat then Ok (written ++ repeat 0 (n - List.length written))
  else Panic.

(** ** Colours and pixel formats (color.go, pixel_format.go) *)

Record Color : Set := mkColor { R : Z; G : Z; B : Z }.

Definition zeroColor : Color := mkColor 0 0 0.

Definition ColorMapSize : nat := 256.

Record PixelFormat : Set := mkPixelFormat {
  BPP : Z;
  Depth : Z;
  BigEndian : bool;
  TrueColor : bool;
  RedMax : Z;
  GreenMax : Z;
  BlueMax : Z;
  RedShift : Z;
  GreenShift : Z;
  BlueShift : Z
}.

(** The Go zero value [PixelFormat{}]. *)
Definition zeroPixelFormat : PixelFormat :=
  mkPixelFormat 0 0 false false 0 0 0 0 0 0.

(** The values the Go struct type can hold. *)
Definition PixelFormat_wf (p : PixelFormat) : Prop :=
  is_u8 (BPP p) /\ is_u8 (Depth p) /\
  is_u16 (RedMax p) /\ is_u16 (GreenMax p) /\ is_u16 (BlueMax p) /\
  is_u8 (RedShift p) /\ is_u8 (GreenShift p) /\ is_u8 (BlueShift p).

(** ** Input validator ([InputValidator] and its methods) *)

Module InputValidator.

(** [ValidateFramebufferDimensions]: the area is computed in uint64. *)
Definition ValidateFramebufferDimensions (width height : Z) : option error :=
  if (width =? 0) || (height =? 0) then
    Some (validationError "InputValidator.ValidateFramebufferDimensions"
            "framebuffer dimensions cannot be zero" None)
  else if (width >? 32768) || (height >? 32768) then
    Some (validationError "InputValidator.ValidateFramebufferDimensions"
            "framebuffer dimensions too large: %dx%d (max %d)" None)
  else if width * height >? 1024 * 1024 * 1024 then
    Some (validationError "InputValidator.ValidateFramebufferDimensions"
            "framebuffer area too large: %d pixels (max %d)" None)
  else None.

(** [ValidateRectangle]: all six arguments are uint16, so [x+width] and
    [y+height] are computed modulo 2^16. *)
Definition ValidateRectangle (x y width height fbWidth fbHeight : Z) : option error :=
  if (width =? 0) || (height =? 0) then
    Some (validationError "InputValidator.ValidateRectangle"
            "rectangle dimensions cannot be zero" None)
  else if (x >? u16 (65535 - width)) || (y >? u16 (65535 - height)) then
    Some (validationError "InputValidator.ValidateRectangle"
            "rectangle coordinates would cause integer overflow" None)
  else if (u16 (x + width) >? fbWidth) || (u16 (y + height) >? fbHeight) then
    Some (validationError "InputValidator.ValidateRectangle"
            "rectangle (%d,%d,%d,%d) exceeds framebuffer bounds (%d,%d)" None)
  else None.

(** [countBits]: Kernighan's loop [value &= value - 1] on a uint32; each
    round clears one set bit, so 32 rounds always reach zero. *)
Fixpoint countBits_loop (fuel : nat) (value count : Z) : Z :=
  match fuel with
  | O => count
  | S fuel' =>
      if value =? 0 then count
      else countBits_loop fuel' (Z.land value (u32 (value - 1))) (count + 1)
  end.

Definition countBits (value : Z) : Z := countBits_loop 32 value 0.

(** [ValidatePixelFormat]; the argument is a pointer, [None] is [nil]. *)
Definition ValidatePixelFormat (pf : option PixelFormat) : option error :=
  match pf with
  | None =>
      Some (validationError "InputValidator.ValidatePixelFormat"
              "pixel format cannot be nil" None)
  | Some pf =>
      let bppValid := existsb (fun valid => BPP pf =? valid) [8; 16; 32] in
      if negb bppValid then
        Some (validationError "InputValidator.ValidatePixelFormat"
                "invalid bits per pixel: %d (must be 8, 16, or 32)" None)
      else if (Depth pf =? 0) || (Depth pf >? BPP pf) then
        Some (validationError "InputValidator.ValidatePixelFormat"
                "invalid depth: %d (must be 1-%d for %d BPP)" None)
      else if TrueColor pf then
        if (RedMax pf =? 0) || (GreenMax pf =? 0) || (BlueMax pf =? 0) then
          Some (validationError "InputValidator.ValidatePixelFormat"
                  "color component maximums cannot be zero in true color format" None)
        else
          let maxShift := u8 (BPP pf - 1) in
          if (RedShift pf >=? maxShift) || (GreenShift pf >=? maxShift)
             || (BlueShift pf >=? maxShift) then
            Some (validationError "InputValidator.ValidatePixelFormat"
                    "color shifts too large for %d BPP format" None)
          else
            let redBits := countBits (RedMax pf) in
            let greenBits := countBits (GreenMax pf) in
            let blueBits := countBits (BlueMax pf) in
            if redBits + greenBits + blueBits >? Depth pf then
              Some (validationError "InputValidator.ValidatePixelFormat"
                      "color component bits exceed pixel depth" None)
            else None
      else None
  end.

(** [ValidateEncodingType] on an int32. *)
Definition ValidateEncodingType (encodingType : Z) : option error :=
  if encodingType >=? 0 then
    if existsb (Z.eqb encodingType) [0; 1; 2; 4; 5; 15; 16] then None
    else if encodingType >? 1000000 then
      Some (validationError "InputValidator.ValidateEncodingType"
              "encoding type too large: %d" None)
    else None
  else
    if existsb (Z.eqb encodingType)
         [-1; -2; -223; -224; -232; -239; -240; -247; -314] then None
    else if encodingType <? -1000000 then
      Some (validationError "InputValidator.ValidateEncodingType"
              "pseudo-encoding type too negative: %d" None)
    else None.

(** [ValidateMessageLength] on uint32 values. *)
Definition ValidateMessageLength (length maxLength : Z) : option error :=
  if length =? 0 then
    Some (validationError "InputValidator.ValidateMessageLength"
            "message length cannot be zero" None)
  else if length >? maxLength then
    Some (validationError "InputValidator.ValidateMessageLength"
            "message length %d exceeds maximum %d" None)
  else None.

End InputValidator.

(** ** Pixel-format wire codec (pixel_format.go) *)

(** [readPixelFormat(r, result)]: 16 bytes are read from [r]; the fields
    are then taken from a reader over those 16 bytes.  [result] is updated
    in place: [BigEndian] and [TrueColor] are only ever set to [true], and
    the maxima and shifts are read only when the true-colour byte is
    non-zero. *)
Definition readPixelFormat (r : Reader) (result : PixelFormat)
  : outcome (PixelFormat * Reader) :=
  let! (rawPixelFormat, r') :=
    wrap (networkError "readPixelFormat" "failed to read pixel format data")
         (ReadFull 16 r) in
  let brPF := rawPixelFormat in
  let! (bpp, brPF) :=
    wrap (protocolError "readPixelFormat" "failed to read BPP field") (read_u8 brPF) in
  let! (depth, brPF) :=
    wrap (protocolError "readPixelFormat" "failed to read depth field") (read_u8 brPF) in
  let! (pfBoolByte, brPF) :=
    wrap (protocolError "readPixelFormat" "failed to read big endian flag") (read_u8 brPF) in
  let bigEndian := if negb (pfBoolByte =? 0) then true else BigEndian result in
  let! (pfBoolByte, brPF) :=
    wrap (protocolError "readPixelFormat" "failed to read true color flag") (read_u8 brPF) in
  if negb (pfBoolByte =? 0) then
    let! (redMax, brPF) :=
      wrap (protocolError "readPixelFormat" "failed to read red max value") (read_u16 brPF) in
    let! (greenMax, brPF) :=
      wrap (protocolError "readPixelFormat" "failed to read green max value") (read_u16 brPF) in
    let! (blueMax, brPF) :=
      wrap (protocolError "readPixelFormat" "failed to read blue max value") (read_u16 brPF) in
    let! (redShift, brPF) :=
      wrap (protocolError "readPixelFormat" "failed to read red shift value") (read_u8 brPF) in
    let! (greenShift, brPF) :=
      wrap (protocolError "readPixelFormat" "failed to read green shift value") (read_u8 brPF) in
    let! (blueShift, brPF) :=
      wrap (protocolError "readPixelFormat" "failed to read blue shift value") (read_u8 brPF) in
    Ok (mkPixelFormat bpp depth bigEndian true
          redMax greenMax blueMax redShift greenShift blueShift, r')
  else
    Ok (mkPixelFormat bpp depth bigEndian (TrueColor result)
          (RedMax result) (GreenMax result) (BlueMax result)
          (RedShift result) (GreenShift result) (BlueShift result), r').

(** [writePixelFormat(format)]: the fields are appended to a fresh
    [bytes.Buffer] (writes to it cannot fail), the maxima and shifts only
    when [TrueColor] is set, and the result is [buf.Bytes()[0:16]].  At
    most 13 bytes are written, so the buffer still has its first
    allocation of [smallBufferSize] bytes. *)
Definition writePixelFormat (format : PixelFormat) : outcome (list Z) :=
  let buf := [u8 (BPP format)] in
  let buf := buf ++ [u8 (Depth format)] in
  let boolByte := if BigEndian format then 1 else 0 in
  let buf := buf ++ [boolByte] in
  let boolByte := if TrueColor format then 1 else 0 in
  let buf := buf ++ [boolByte] in
  let buf :=
    if TrueColor format then
      buf ++ BigEndian_PutUint16 (RedMax format)
          ++ BigEndian_PutUint16 (GreenMax format)
          ++ BigEndian_PutUint16 (BlueMax format)
          ++ [u8 (RedShift format)] ++ [u8 (GreenShift format)]
          ++ [u8 (BlueShift format)]
    else buf in
  Bytes_slice_to smallBufferSize buf 16.

(** [countBits] of pixel_format.go: the position of the highest set bit
    plus one, by shifting a uint16 right until it is zero. *)
Fixpoint countBits_loop (fuel : nat) (maxVal bits : Z) : Z :=
  match fuel with
  | O => bits
  | S fuel' =>
      if maxVal >? 0 then countBits_loop fuel' (Z.shiftr maxVal 1) (u8 (bits + 1))
      else bits
  end.

Definition countBits (maxVal : Z) : Z :=
  if maxVal =? 0 then 0 else countBits_loop 16 maxVal 0.

(** [PixelFormat.Validate], the second validator of the repository. *)
Definition Validate (pf : PixelFormat) : option error :=
  if BPP pf =? 0 then
    Some (PixelFormatValidationError "BPP" "BPP must be greater than 0")
  else if negb (BPP pf =? 8) && negb (BPP pf =? 16) && negb (BPP pf =? 32) then
    Some (PixelFormatValidationError "BPP" "BPP must be 8, 16, or 32")
  else if Depth pf =? 0 then
    Some (PixelFormatValidationError "Depth" "Depth must be greater than 0")
  else if Depth pf >? BPP pf then
    Some (PixelFormatValidationError "Depth" "Depth cannot exceed BPP")
  else if TrueColor pf then
    if (RedMax pf =? 0) && (GreenMax pf =? 0) && (BlueMax pf =? 0) then
      Some (PixelFormatValidationError "ColorMax"
              "At least one color component must have non-zero maximum in TrueColor mode")
    else
      let maxShift := u8 (BPP pf - 1) in
      if RedShift pf >? maxShift then
        Some (PixelFormatValidationError "RedShift" "RedShift cannot exceed %d for %d-bit pixels")
      else if GreenShift pf >? maxShift then
        Some (PixelFormatValidationError "GreenShift" "GreenShift cannot exceed %d for %d-bit pixels")
      else if BlueShift pf >? maxShift then
        Some (PixelFormatValidationError "BlueShift" "BlueShift cannot exceed %d for %d-bit pixels")
      else
        let redBits := countBits (RedMax pf) in
        let greenBits := countBits (GreenMax pf) in
        let blueBits := countBits (BlueMax pf) in
        if u8 (redBits + greenBits + blueBits) >? Depth pf then
          Some (PixelFormatValidationError "ColorBits" "Total color bits cannot exceed depth (%d)")
        else None
  else None.

(** ** Pixel reader (pixel_utils.go) *)

Record PixelReader : Type := mkPixelReader {
  pixelFormat : PixelFormat;
  colorMap : list Color;
  byteOrderBig : bool
}.

Definition NewPixelReader (pixelFormat : PixelFormat) (colorMap : list Color) : PixelReader :=
  let byteOrder := if BigEndian pixelFormat then true else false in
  mkPixelReader pixelFormat colorMap byteOrder.

(** [BytesPerPixel]: [int(pr.pixelFormat.BPP / 8)], a uint8 division. *)
Definition BytesPerPixel (pr : PixelReader) : nat :=
  Z.to_nat (BPP (pixelFormat pr) / 8).

Definition byteOrder_Uint16 (big : bool) (b : list Z) : Z :=
  if big then BigEndian_Uint16 b else LittleEndian_Uint16 b.
Definition byteOrder_Uint32 (big : bool) (b : list Z) : Z :=
  if big then BigEndian_Uint32 b else LittleEndian_Uint32 b.

Definition bytesToPixel (pr : PixelReader) (pixelBytes : list Z) : Z :=
  if BPP (pixelFormat pr) =? 8 then nth 0 pixelBytes 0
  else if BPP (pixelFormat pr) =? 16 then byteOrder_Uint16 (byteOrderBig pr) pixelBytes
  else if BPP (pixelFormat pr) =? 32 then byteOrder_Uint32 (byteOrderBig pr) pixelBytes
  else 0.

(** [pixelToColor]: the shift count is a uint8 and the pixel a uint32, so
    a count of 32 or more gives 0, as [Z.shiftr] does on a value below
    2^32.  Indexing the 256-entry colour map out of range panics. *)
Definition pixelToColor (pr : PixelReader) (rawPixel : Z) : outcome Color :=
  if TrueColor (pixelFormat pr) then
    Ok (mkColor
          (u16 (Z.land (Z.shiftr rawPixel (RedShift (pixelFormat pr))) (RedMax (pixelFormat pr))))
          (u16 (Z.land (Z.shiftr rawPixel (GreenShift (pixelFormat pr))) (GreenMax (pixelFormat pr))))
          (u16 (Z.land (Z.shiftr rawPixel (BlueShift (pixelFormat pr))) (BlueMax (pixelFormat pr)))))
  else
    match colorMap pr !! Z.to_nat rawPixel with
    | Some c => Ok c
    | None => Panic
    end.

Definition ReadPixelColor (pr : PixelReader) (r : Reader) : outcome (Color * Reader) :=
  let bytesPerPixel := BytesPerPixel pr in
  let! (pixelBytes, r') := ReadFull bytesPerPixel r in
  let rawPixel := bytesToPixel pr pixelBytes in
  let! c := pixelToColor pr rawPixel in
  Ok (c, r').

(** [ReadPixelData]: [size] raw bytes. *)
Definition ReadPixelData (r : Reader) (size : nat) : outcome (list Z * Reader) :=
  ReadFull size r.

Definition readPixelColor (r : Reader) (pixelFormat : PixelFormat) (colorMap : list Color)
  : outcome (Color * Reader) :=
  ReadPixelColor (NewPixelReader pixelFormat colorMap) r.

Definition calculatePixelDataSize (width height : Z) (pixelFormat : PixelFormat) : nat :=
  let bytesPerPixel := BPP pixelFormat / 8 in
  Z.to_nat (width * height * bytesPerPixel).

(** [calculateMaskDataSize]: [(width + 7) / 8] is computed in uint16. *)
Definition calculateMaskDataSize (width height : Z) : nat :=
  let bytesPerRow := u16 (width + 7) / 8 in
  Z.to_nat (bytesPerRow * height).

(** ** Connection state and rectangles (client.go, server_messages.go) *)

(** The fields of [ClientConn] that the decoders read.  The colour map is
    the array [[256]Color], kept as a list of length 256. *)
Record ClientState : Type := mkClientState {
  ColorMap : list Color;
  FrameBufferWidth : Z;
  FrameBufferHeight : Z;
  DesktopName : list Z;
  PixelFormat_ : PixelFormat
}.

(** [for i := 0; i < n; i++] with a counter that cannot wrap before it
    reaches [n]: the body runs for [i = start, start+1, ...], [n] times,
    and stops at the first error. *)
Fixpoint for_loop {St : Type} (n : nat) (i : Z) (body : Z -> St -> outcome St) (s : St)
  : outcome St :=
  match n with
  | O => Ok s
  | S n' => let! s' := body i s in for_loop n' (i + 1) body s'
  end.

(** ** Hextile ([HextileEncoding] and its [Read]) *)

Module Hextile.

Record HextileSubrectangle : Type := mkSubrect {
  Sub_Color : Color;
  Sub_X : Z;
  Sub_Y : Z;
  Sub_Width : Z;
  Sub_Height : Z
}.

Record HextileTile : Type := mkTile {
  Tile_Width : Z;
  Tile_Height : Z;
  Tile_Background : Color;
  Tile_Foreground : Color;
  Tile_Colors : list Color;
  Tile_Subrectangles : list HextileSubrectangle
}.

(** The zero value of a tile, as [make([]HextileTile, n)] fills it. *)
Definition zeroTile : HextileTile := mkTile 0 0 zeroColor zeroColor [] [].

Definition HextileRaw : Z := 1.
Definition HextileBackgroundSpecified : Z := 2.
Definition HextileForegroundSpecified : Z := 4.
Definition HextileAnySubrects : Z := 8.
Definition HextileSubrectsColoured : Z := 16.
Definition HextileTileSize : Z := 16.
Definition MaxSubrectsPerTile : Z := 255.
Definition maxTiles : Z := 100000.

(** [tilesX := (rect.Width + HextileTileSize - 1) / HextileTileSize] in
    uint16 arithmetic, and likewise [tilesY]. *)
Definition tilesAcross (extent : Z) : Z :=
  u16 (u16 (extent + HextileTileSize) - 1) / HextileTileSize.

(** [totalTiles := int(tilesX * tilesY)]: the product is a uint16. *)
Definition totalTiles (width height : Z) : Z :=
  u16 (tilesAcross width * tilesAcross height).

(** [n] pixels read one after the other. *)
Fixpoint read_pixels (n : nat) (pf : PixelFormat) (cm : list Color) (r : Reader)
  (op msg : string) : outcome (list Color * Reader) :=
  match n with
  | O => Ok ([], r)
  | S n' =>
      let! (color, r) := wrap (encodingError op msg) (readPixelColor r pf cm) in
      let! (colors, r) := read_pixels n' pf cm r op msg in
      Ok (color :: colors, r)
  end.

(** One round of the sub-rectangle loop: the state is the list of
    sub-rectangles decoded so far and the reader. *)
Definition read_subrect (c : ClientState) (subencoding tileWidth tileHeight : Z)
  (foreground : Color) (_ : Z) (s : list HextileSubrectangle * Reader)
  : outcome (list HextileSubrectangle * Reader) :=
  let '(subs, r) := s in
  let! (color, r) :=
    if negb (Z.land subencoding HextileSubrectsColoured =? 0) then
      wrap (encodingError "HextileEncoding.Read" "failed to read subrectangle color")
           (readPixelColor r (PixelFormat_ c) (ColorMap c))
    else Ok (foreground, r) in
  let! (xyData, r) :=
    wrap (encodingError "HextileEncoding.Read" "failed to read subrectangle position")
         (read_u8 r) in
  let! (whData, r) :=
    wrap (encodingError "HextileEncoding.Read" "failed to read subrectangle dimensions")
         (read_u8 r) in
  let sx := Z.land (Z.shiftr xyData 4) 15 in
  let sy := Z.land xyData 15 in
  let sw := u8 (Z.land (Z.shiftr whData 4) 15 + 1) in
  let sh := u8 (Z.land whData 15 + 1) in
  let tileWidthU8 := u8 tileWidth in
  let tileHeightU8 := u8 tileHeight in
  if (sx >=? tileWidthU8) || (sy >=? tileHeightU8) then
    Fail (encodingError "HextileEncoding.Read"
            "subrectangle position outside tile bounds" None)
  else if (u16 (sx + sw) >? tileWidth) || (u16 (sy + sh) >? tileHeight) then
    Fail (encodingError "HextileEncoding.Read"
            "subrectangle extends outside tile bounds" None)
  else Ok (subs ++ [mkSubrect color sx sy sw sh], r).

(** The state carried from tile to tile. *)
Record TileLoop : Type := mkTileLoop {
  tiles : list HextileTile;
  tileIndex : nat;
  background : Color;
  foreground : Color;
  rd : Reader
}.

(** [tileWidth] and [tileHeight]: 16, or what is left of the rectangle
    for a tile on its right or bottom edge; uint16 arithmetic. *)
Definition tileExtent (rectExtent tileCoord : Z) : Z :=
  if u16 (u16 (tileCoord * HextileTileSize) + HextileTileSize) >? rectExtent
  then u16 (rectExtent - u16 (tileCoord * HextileTileSize)) else HextileTileSize.

(** The body of the inner loop, for the tile at column [tileX] of row
    [tileY].  [tile := &tiles[tileIndex]] panics when the index is out
    of range. *)
Definition read_tile (c : ClientState) (rectWidth rectHeight tileY tileX : Z)
  (s : TileLoop) : outcome TileLoop :=
  let tileWidth := tileExtent rectWidth tileX in
  let tileHeight := tileExtent rectHeight tileY in
  match tiles s !! tileIndex s with
  | None => Panic
  | Some tile =>
      let tile := mkTile tileWidth tileHeight (Tile_Background tile) (Tile_Foreground tile)
                    (Tile_Colors tile) (Tile_Subrectangles tile) in
      let! (subencoding, r) :=
        wrap (encodingError "HextileEncoding.Read" "failed to read tile subencoding")
             (read_u8 (rd s)) in
      if negb (Z.land subencoding HextileRaw =? 0) then
        let pixelCount := Z.to_nat (u16 (tileWidth * tileHeight)) in
        let! (colors, r) :=
          read_pixels pixelCount (PixelFormat_ c) (ColorMap c) r
            "HextileEncoding.Read" "failed to read raw tile pixel" in
        let tile := mkTile tileWidth tileHeight (Tile_Background tile) (Tile_Foreground tile)
                      colors (Tile_Subrectangles tile) in
        Ok (mkTileLoop (<[tileIndex s := tile]> (tiles s)) (S (tileIndex s))
              (background s) (foreground s) r)
      else
        let! (background, r) :=
          if negb (Z.land subencoding HextileBackgroundSpecified =? 0) then
            wrap (encodingError "HextileEncoding.Read" "failed to read background color")
                 (readPixelColor r (PixelFormat_ c) (ColorMap c))
          else Ok (background s, r) in
        let! (foreground, r) :=
          if negb (Z.land subencoding HextileForegroundSpecified =? 0) then
            wrap (encodingError "HextileEncoding.Read" "failed to read foreground color")
                 (readPixelColor r (PixelFormat_ c) (ColorMap c))
          else Ok (foreground s, r) in
        let! (subrects, r) :=
          if negb (Z.land subencoding HextileAnySubrects =? 0) then
            let! (numSubrects, r) :=
              wrap (encodingError "HextileEncoding.Read" "failed to read subrectangle count")
                   (read_u8 r) in
            if numSubrects >? MaxSubrectsPerTile then
              Fail (encodingError "HextileEncoding.Read"
                      "too many subrectangles in tile" None)
            else
              for_loop (Z.to_nat numSubrects) 0
                (read_subrect c subencoding tileWidth tileHeight foreground) ([], r)
          else Ok (Tile_Subrectangles tile, r) in
        let tile := mkTile tileWidth tileHeight background foreground
                      (Tile_Colors tile) subrects in
        Ok (mkTileLoop (<[tileIndex s := tile]> (tiles s)) (S (tileIndex s))
              background foreground r)
  end.

(** [HextileEncoding.Read]: the rectangle is checked against the
    framebuffer when both its dimensions are known, the tile count is
    capped, and the tiles are decoded row by row. *)
Definition Read (c : ClientState) (X Y Width Height : Z) (r : Reader)
  : outcome (list HextileTile * Reader) :=
  let! _ :=
    if (FrameBufferWidth c >? 0) && (FrameBufferHeight c >? 0) then
      match InputValidator.ValidateRectangle X Y Width Height
              (FrameBufferWidth c) (FrameBufferHeight c) with
      | Some err =>
          Fail (encodingError "HextileEncoding.Read" "invalid rectangle dimensions" (Some err))
      | None => Ok tt
      end
    else Ok tt in
  let tilesX := tilesAcross Width in
  let tilesY := tilesAcross Height in
  let total := totalTiles Width Height in
  if total >? maxTiles then
    Fail (encodingError "HextileEncoding.Read" "too many tiles for rectangle" None)
  else
    let tiles := repeat zeroTile (Z.to_nat total) in
    let! s :=
      for_loop (Z.to_nat tilesY) 0
        (fun tileY s =>
           for_loop (Z.to_nat tilesX) 0 (read_tile c Width Height tileY) s)
        (mkTileLoop tiles 0 zeroColor zeroColor r) in
    Ok (Hextile.tiles s, rd s).

End Hextile.

(** ** DES challenge response ([SecureDESCipher]) *)

Definition VNCChallengeSize : nat := 16.
Definition DESKeySize : nat := 8.
Definition VNCMaxPasswordLength : nat := 8.

(** The 256-entry table of [reverseBitsSecure]. *)
Definition reverseLookup : list Z := [
    0x00; 0x80; 0x40; 0xc0; 0x20; 0xa0; 0x60; 0xe0;
    0x10; 0x90; 0x50; 0xd0; 0x30; 0xb0; 0x70; 0xf0;
    0x08; 0x88; 0x48; 0xc8; 0x28; 0xa8; 0x68; 0xe8;
    0x18; 0x98; 0x58; 0xd8; 0x38; 0xb8; 0x78; 0xf8;
    0x04; 0x84; 0x44; 0xc4; 0x24; 0xa4; 0x64; 0xe4;
    0x14; 0x94; 0x54; 0xd4; 0x34; 0xb4; 0x74; 0xf4;
    0x0c; 0x8c; 0x4c; 0xcc; 0x2c; 0xac; 0x6c; 0xec;
    0x1c; 0x9c; 0x5c; 0xdc; 0x3c; 0xbc; 0x7c; 0xfc;
    0x02; 0x82; 0x42; 0xc2; 0x22; 0xa2; 0x62; 0xe2;
    0x12; 0x92; 0x52; 0xd2; 0x32; 0xb2; 0x72; 0xf2;
    0x0a; 0x8a; 0x4a; 0xca; 0x2a; 0xaa; 0x6a; 0xea;
    0x1a; 0x9a; 0x5a; 0xda; 0x3a; 0xba; 0x7a; 0xfa;
    0x06; 0x86; 0x46; 0xc6; 0x26; 0xa6; 0x66; 0xe6;
    0x16; 0x96; 0x56; 0xd6; 0x36; 0xb6; 0x76; 0xf6;
    0x0e; 0x8e; 0x4e; 0xce; 0x2e; 0xae; 0x6e; 0xee;
    0x1e; 0x9e; 0x5e; 0xde; 0x3e; 0xbe; 0x7e; 0xfe;
    0x01; 0x81; 0x41; 0xc1; 0x21; 0xa1; 0x61; 0xe1;
    0x11; 0x91; 0x51; 0xd1; 0x31; 0xb1; 0x71; 0xf1;
    0x09; 0x89; 0x49; 0xc9; 0x29; 0xa9; 0x69; 0xe9;
    0x19; 0x99; 0x59; 0xd9; 0x39; 0xb9; 0x79; 0xf9;
    0x05; 0x85; 0x45; 0xc5; 0x25; 0xa5; 0x65; 0xe5;
    0x15; 0x95; 0x55; 0xd5; 0x35; 0xb5; 0x75; 0xf5;
    0x0d; 0x8d; 0x4d; 0xcd; 0x2d; 0xad; 0x6d; 0xed;
    0x1d; 0x9d; 0x5d; 0xdd; 0x3d; 0xbd; 0x7d; 0xfd;
    0x03; 0x83; 0x43; 0xc3; 0x23; 0xa3; 0x63; 0xe3;
    0x13; 0x93; 0x53; 0xd3; 0x33; 0xb3; 0x73; 0xf3;
    0x0b; 0x8b; 0x4b; 0xcb; 0x2b; 0xab; 0x6b; 0xeb;
    0x1b; 0x9b; 0x5b; 0xdb; 0x3b; 0xbb; 0x7b; 0xfb;
    0x07; 0x87; 0x47; 0xc7; 0x27; 0xa7; 0x67; 0xe7;
    0x17; 0x97; 0x57; 0xd7; 0x37; 0xb7; 0x77; 0xf7;
    0x0f; 0x8f; 0x4f; 0xcf; 0x2f; 0xaf; 0x6f; 0xef;
    0x1f; 0x9f; 0x5f; 0xdf; 0x3f; 0xbf; 0x7f; 0xff
  ].

Definition reverseBitsSecure (b : Z) : Z := nth (Z.to_nat b) reverseLookup 0.

(** [binary.BigEndian.Uint64] and [PutUint64], which crypto/des uses to
    load and store a block. *)
Definition BigEndian_Uint64 (b : list Z) : Z :=
  fold_left (fun acc x => Z.lor (Z.shiftl acc 8) x) (firstn 8 b) 0.
Definition BigEndian_PutUint64 (v : Z) : list Z :=
  map (fun i => u8 (Z.shiftr v (8 * i))) [7; 6; 5; 4; 3; 2; 1; 0].

Section DES.

(** The block function of crypto/des (standard library): the 64-bit
    block encrypted under the 8-byte key. *)
Variable cryptBlock : list Z -> Z -> Z.

(** [des.NewCipher(key)]: the key must have 8 bytes. *)
Definition NewCipher (key : list Z) : outcome (list Z) :=
  if (List.length key =? 8)%nat then Ok key else Fail KeySizeError.

(** [block.Encrypt(dst, src)] with an 8-byte [dst]: it panics on a short
    source block and stores the encrypted block big-endian. *)
Definition Encrypt (block : list Z) (src : list Z) : outcome (list Z) :=
  if (List.length src <? 8)%nat then Panic
  else Ok (BigEndian_PutUint64 (cryptBlock block (BigEndian_Uint64 src))).

(** The key loop of [EncryptVNCChallenge]. *)
Definition prepareKey (passwordBytes : list Z) : list Z :=
  let keyLen :=
    if (VNCMaxPasswordLength <? List.length passwordBytes)%nat
    then VNCMaxPasswordLength else List.length passwordBytes in
  map (fun i => if (i <? keyLen)%nat
                then reverseBitsSecure (nth i passwordBytes 0) else 0)
      (seq 0 DESKeySize).

(** [EncryptVNCChallenge(password, challenge)].  The deferred
    [ClearBytes] calls overwrite local copies only. *)
Definition EncryptVNCChallenge (password : list Z) (challenge : list Z)
  : outcome (list Z) :=
  if negb (List.length challenge =? VNCChallengeSize)%nat then
    Fail (validationError "SecureDESCipher.EncryptVNCChallenge"
            "challenge must be exactly %d bytes" None)
  else
    let keyBytes := prepareKey password in
    let! block :=
      wrap (authenticationError "SecureDESCipher.EncryptVNCChallenge"
              "failed to create DES cipher") (NewCipher keyBytes) in
    if negb (List.length challenge =? VNCChallengeSize)%nat then
      Fail (authenticationError "SecureDESCipher.EncryptVNCChallenge"
              "invalid challenge size: expected %d, got %d" None)
    else
      let! first := Encrypt block (firstn DESKeySize challenge) in
      let! second :=
        Encrypt block (skipn DESKeySize (firstn VNCChallengeSize challenge)) in
      Ok (first ++ second).

End DES.

(** ** Strings and runes (Go standard library: unicode/utf8, unicode) *)

Definition RuneError : Z := 0xFFFD.

(** The table [first] of unicode/utf8 for a leading byte of a multi-byte
    sequence: the length of the sequence and the range accepted for its
    second byte. *)
Definition utf8_first (p0 : Z) : option (nat * Z * Z) :=
  if (0xC2 <=? p0) && (p0 <=? 0xDF) then Some (2%nat, 0x80, 0xBF)
  else if p0 =? 0xE0 then Some (3%nat, 0xA0, 0xBF)
  else if ((0xE1 <=? p0) && (p0 <=? 0xEC)) || ((0xEE <=? p0) && (p0 <=? 0xEF))
       then Some (3%nat, 0x80, 0xBF)
  else if p0 =? 0xED then Some (3%nat, 0x80, 0x9F)
  else if p0 =? 0xF0 then Some (4%nat, 0x90, 0xBF)
  else if (0xF1 <=? p0) && (p0 <=? 0xF3) then Some (4%nat, 0x80, 0xBF)
  else if p0 =? 0xF4 then Some (4%nat, 0x80, 0x8F)
  else None.

Definition utf8_cont (b : Z) : bool := (0x80 <=? b) && (b <=? 0xBF).

(** The runes of a string as a [for range] loop and [[]rune(s)] see them,
    each with a flag telling whether it came from a well-formed sequence.
    A byte that starts no well-formed sequence gives [RuneError] and is
    skipped alone. *)
Fixpoint utf8_scan (s : list Z) : list (Z * bool) :=
  match s with
  | [] => []
  | p0 :: t1 =>
      if p0 <? 0x80 then (p0, true) :: utf8_scan t1
      else
        let bad := (RuneError, false) :: utf8_scan t1 in
        match utf8_first p0, t1 with
        | Some (sz, lo, hi), b1 :: t2 =>
            if (b1 <? lo) || (hi <? b1) then bad
            else if (sz =? 2)%nat then
              (Z.lor (Z.shiftl (Z.land p0 0x1F) 6) (Z.land b1 0x3F), true) :: utf8_scan t2
            else
              match t2 with
              | b2 :: t3 =>
                  if negb (utf8_cont b2) then bad
                  else if (sz =? 3)%nat then
                    (Z.lor (Z.lor (Z.shiftl (Z.land p0 0x0F) 12)
                                  (Z.shiftl (Z.land b1 0x3F) 6))
                           (Z.land b2 0x3F), true) :: utf8_scan t3
                  else
                    match t3 with
                    | b3 :: t4 =>
                        if negb (utf8_cont b3) then bad
                        else
                          (Z.lor (Z.lor (Z.lor (Z.shiftl (Z.land p0 0x07) 18)
                                               (Z.shiftl (Z.land b1 0x3F) 12))
                                        (Z.shiftl (Z.land b2 0x3F) 6))
                                 (Z.land b3 0x3F), true) :: utf8_scan t4
                    | [] => bad
                    end
              | [] => bad
              end
        | _, _ => bad
        end
  end.

Definition runes (s : list Z) : list Z := map fst (utf8_scan s).
Definition ValidString (s : list Z) : bool := forallb snd (utf8_scan s).

(** [utf8.EncodeRune], as [string(runes)] applies it to every rune. *)
Definition EncodeRune (r : Z) : list Z :=
  if (0 <=? r) && (r <=? 0x7F) then [r]
  else if (0 <=? r) && (r <=? 0x7FF) then
    [Z.lor 0xC0 (Z.shiftr r 6); Z.lor 0x80 (Z.land r 0x3F)]
  else if (r <? 0) || (0x10FFFF <? r) || ((0xD800 <=? r) && (r <=? 0xDFFF)) then
    [0xEF; 0xBF; 0xBD]
  else if r <=? 0xFFFF then
    [Z.lor 0xE0 (Z.shiftr r 12); Z.lor 0x80 (Z.land (Z.shiftr r 6) 0x3F);
     Z.lor 0x80 (Z.land r 0x3F)]
  else
    [Z.lor 0xF0 (Z.shiftr r 18); Z.lor 0x80 (Z.land (Z.shiftr r 12) 0x3F);
     Z.lor 0x80 (Z.land (Z.shiftr r 6) 0x3F); Z.lor 0x80 (Z.land r 0x3F)].

Definition string_of_runes (rs : list Z) : list Z := flat_map EncodeRune rs.

(** [unicode.IsPrint] on Latin-1, from the [properties] table of the
    unicode package: the printable code points up to 255 are 0x20-0x7E
    and 0xA1-0xFF without the soft hyphen 0xAD. *)
Definition IsPrint_Latin1 (r : Z) : bool :=
  ((0x20 <=? r) && (r <=? 0x7E))
  || ((0xA1 <=? r) && (r <=? 0xFF) && negb (r =? 0xAD)).

(** ** Decoded encodings, rectangles and the connection *)

(** The data a decoder returns. *)
Inductive EncodingData : Type :=
| RawData (Colors : list Color)
| HextileData (Tiles : list Hextile.HextileTile)
| CursorData (CWidth CHeight HotspotX HotspotY : Z) (PixelData MaskData : list Z)
| DesktopSizeData (DWidth DHeight : Z)
| OtherData (payload : list Z).

(** The value stored in [Rectangle.Enc]: its type code, its data and its
    [Handle] method when it implements [PseudoEncoding]. *)
Record DecodedEncoding : Type := mkDecoded {
  dec_Type : Z;
  dec_data : EncodingData;
  dec_Handle : option (ClientState -> ClientState)
}.

Record Rectangle : Type := mkRectangle {
  X : Z;
  Y : Z;
  Width : Z;
  Height : Z;
  Enc : option DecodedEncoding
}.

(** The [Encoding] interface as the client uses it for decoding. *)
Record Encoding : Type := mkEncoding {
  Type_ : Z;
  Read : ClientState -> Rectangle -> Reader -> outcome (DecodedEncoding * Reader)
}.

(** [ClientConn]: the session fields, the configured encodings and the
    bytes written to the underlying connection so far. *)
Record ClientConn : Type := mkClientConn {
  state : ClientState;
  Encs : list Encoding;
  sent : list Z
}.

(** What the network does with one [Write]: it takes all the bytes, or it
    fails after taking the first [n]. *)
Inductive WriteResult : Type :=
| WriteOk
| WriteFail (n : nat) (e : error).

Definition writeWithContext (c : ClientConn) (data : list Z) (w : WriteResult)
  : ClientConn * option error :=
  match w with
  | WriteOk => (mkClientConn (state c) (Encs c) (sent c ++ data), None)
  | WriteFail n e => (mkClientConn (state c) (Encs c) (sent c ++ firstn n data), Some e)
  end.

Definition MaxClipboardLength : Z := 1024 * 1024.
Definition Latin1MaxCodePoint : Z := 255.
Definition MaxRectanglesPerUpdate : Z := 10000.

Definition zeroColorMap : list Color := repeat zeroColor ColorMapSize.

(** ** Text checks of the input validator and client messages (client.go) *)

Section Client.

(** [unicode.IsPrint] above Latin-1 is decided by the Unicode tables of
    the Go standard library. *)
Variable IsPrint_wide : Z -> bool.

(** The capacity of a [bytes.Buffer] that holds more than
    [smallBufferSize] bytes, as the Go runtime grew it. *)
Variable grownCap : nat -> nat.

Definition IsPrint (r : Z) : bool :=
  if (0 <=? r) && (r <=? 0xFF) then IsPrint_Latin1 r else IsPrint_wide r.

Definition Buffer_cap (len : nat) : nat :=
  if (len <=? smallBufferSize)%nat then smallBufferSize else grownCap len.

(** [ValidateTextData(text, maxLength)]. *)
Definition ValidateTextData (text : list Z) (maxLength : Z) : option error :=
  if Z.of_nat (List.length text) >? maxLength then
    Some (validationError "InputValidator.ValidateTextData"
            "text length %d exceeds maximum %d" None)
  else if negb (ValidString text) then
    Some (validationError "InputValidator.ValidateTextData"
            "text contains invalid UTF-8 sequences" None)
  else if existsb (fun char => (char <? 32) && negb (char =? 9)
                               && negb (char =? 10) && negb (char =? 13))
                  (runes text) then
    Some (validationError "InputValidator.ValidateTextData"
            "text contains invalid control character at position %d" None)
  else None.

(** [SanitizeText(text)]. *)
Definition sanitizeRune (r : Z) : Z :=
  if (r =? 9) || (r =? 10) || (r =? 13) then r
  else if r <? 32 then 32
  else if IsPrint r then r
  else RuneError.

Definition SanitizeText (text : list Z) : list Z :=
  match text with
  | [] => text
  | _ => string_of_runes (map sanitizeRune (runes text))
  end.

(** The character loop of [CutText]: every rune of [text] must be at
    most 255 and is appended to the buffer as one byte. *)
Fixpoint cutTextChars (chars : list Z) (buf : list Z) : outcome (list Z) :=
  match chars with
  | [] => Ok buf
  | char :: rest =>
      if char >? Latin1MaxCodePoint then
        Fail (validationError "CutText" "character '%c' is not valid Latin-1" None)
      else cutTextChars rest (buf ++ [u8 char])
  end.

(** [ClientConn.CutText(text)].  The length field is [uint32(len(text))],
    the length of the string in bytes, and the frame handed to the
    connection is [buf.Bytes()[0:8+len(text)]]. *)
Definition CutText (c : ClientConn) (text : list Z) (w : WriteResult)
  : ClientConn * outcome unit :=
  match ValidateTextData text MaxClipboardLength with
  | Some err => (c, Fail (validationError "CutText" "invalid clipboard text" (Some err)))
  | None =>
      let sanitizedText := SanitizeText text in
      let text := sanitizedText in
      let buf := [6; 0; 0; 0] ++ BigEndian_PutUint32 (u32 (Z.of_nat (List.length text))) in
      match cutTextChars (runes text) buf with
      | Fail e => (c, Fail e)
      | Panic => (c, Panic)
      | Ok buf =>
          let dataLength := (8 + List.length text)%nat in
          match Bytes_slice_to (Buffer_cap (List.length buf)) buf dataLength with
          | Fail e => (c, Fail e)
          | Panic => (c, Panic)
          | Ok frame =>
              match writeWithContext c frame w with
              | (c', Some err) =>
                  (c', Fail (networkError "CutText" "failed to send cut text message"
                               (Some err)))
              | (c', None) => (c', Ok tt)
              end
          end
      end
  end.

(** [ClientConn.SetPixelFormat(format)].  The message is a 20-byte
    array: the type byte 0, three padding bytes, and the pixel format
    copied to offset 4.  After a successful write the colour map is
    replaced by a zero array; no other field is assigned. *)
Definition SetPixelFormat (c : ClientConn) (format : option PixelFormat) (w : WriteResult)
  : ClientConn * outcome unit :=
  match InputValidator.ValidatePixelFormat format, format with
  | Some err, _ =>
      (c, Fail (validationError "SetPixelFormat" "invalid pixel format" (Some err)))
  | None, None => (c, Panic)
  | None, Some format =>
      match writePixelFormat format with
      | Fail err =>
          (c, Fail (encodingError "SetPixelFormat" "failed to encode pixel format"
                      (Some err)))
      | Panic => (c, Panic)
      | Ok pfBytes =>
          let keyEvent := [0; 0; 0; 0] ++ firstn 16 (pfBytes ++ repeat 0 16) in
          match writeWithContext c keyEvent w with
          | (c', Some err) =>
              (c', Fail (networkError "SetPixelFormat"
                           "failed to send pixel format message" (Some err)))
          | (c', None) =>
              let newColorMap := zeroColorMap in
              (mkClientConn
                 (mkClientState newColorMap
                    (FrameBufferWidth (state c')) (FrameBufferHeight (state c'))
                    (DesktopName (state c')) (PixelFormat_ (state c')))
                 (Encs c') (sent c'),
               Ok tt)
          end
      end
  end.

End Client.

(** ** The built-in decoders: [RawEncoding] (encoding_raw.go),
       [CursorPseudoEncoding], [DesktopSizePseudoEncoding] and
       [HextileEncoding] *)

(** [RawEncoding.Read]: [Height * Width] pixels in row-major order. *)
Definition RawEncoding_Read (c : ClientState) (rect : Rectangle) (r : Reader)
  : outcome (DecodedEncoding * Reader) :=
  let pixelReader := NewPixelReader (PixelFormat_ c) (ColorMap c) in
  let colors := repeat zeroColor (Z.to_nat (Height rect * Width rect)) in
  let! (colors, r) :=
    for_loop (Z.to_nat (Height rect)) 0
      (fun y s =>
         for_loop (Z.to_nat (Width rect)) 0
           (fun x (s : list Color * Reader) =>
              let! (color, r) :=
                wrap (encodingError "RawEncoding.Read" "failed to read pixel data")
                     (ReadPixelColor pixelReader (snd s)) in
              Ok (<[Z.to_nat (y * Width rect + x) := color]> (fst s), r))
           s)
      (colors, r) in
  Ok (mkDecoded 0 (RawData colors) None, r).

Definition RawEncoding : Encoding := mkEncoding 0 RawEncoding_Read.

(** [CursorPseudoEncoding.Read] and its [Handle], which only logs. *)
Definition CursorPseudoEncoding_Read (c : ClientState) (rect : Rectangle) (r : Reader)
  : outcome (DecodedEncoding * Reader) :=
  let cursor pixelData maskData :=
    mkDecoded (-239)
      (CursorData (Width rect) (Height rect) (X rect) (Y rect) pixelData maskData)
      (Some (fun c => c)) in
  if (Width rect =? 0) && (Height rect =? 0) then Ok (cursor [] [], r)
  else if (Width rect >? 256) || (Height rect >? 256) then
    Fail (encodingError "CursorPseudoEncoding.Read" "cursor dimensions too large" None)
  else
    let pixelDataSize := calculatePixelDataSize (Width rect) (Height rect) (PixelFormat_ c) in
    let maskDataSize := calculateMaskDataSize (Width rect) (Height rect) in
    let! (pixelData, r) :=
      wrap (encodingError "CursorPseudoEncoding.Read" "failed to read cursor pixel data")
           (ReadPixelData r pixelDataSize) in
    let! (maskData, r) :=
      wrap (encodingError "CursorPseudoEncoding.Read" "failed to read cursor mask data")
           (ReadPixelData r maskDataSize) in
    Ok (cursor pixelData maskData, r).

Definition CursorPseudoEncoding : Encoding := mkEncoding (-239) CursorPseudoEncoding_Read.

(** [DesktopSizePseudoEncoding.Read] and its [Handle], which stores the
    new dimensions in the connection. *)
Definition DesktopSizePseudoEncoding_Handle (width height : Z) (c : ClientState)
  : ClientState :=
  mkClientState (ColorMap c) width height (DesktopName c) (PixelFormat_ c).

Definition DesktopSizePseudoEncoding_Read (c : ClientState) (rect : Rectangle) (r : Reader)
  : outcome (DecodedEncoding * Reader) :=
  if (Width rect =? 0) || (Height rect =? 0) then
    Fail (validationError "DesktopSizePseudoEncoding.Read"
            "desktop dimensions cannot be zero" None)
  else if (Width rect >? 32767) || (Height rect >? 32767) then
    Fail (validationError "DesktopSizePseudoEncoding.Read"
            "desktop dimensions too large" None)
  else if Width rect * Height rect >? 100 * 1024 * 1024 then
    Fail (validationError "DesktopSizePseudoEncoding.Read"
            "desktop size would require too much memory" None)
  else
    Ok (mkDecoded (-223) (DesktopSizeData (Width rect) (Height rect))
          (Some (DesktopSizePseudoEncoding_Handle (Width rect) (Height rect))), r).

Definition DesktopSizePseudoEncoding : Encoding :=
  mkEncoding (-223) DesktopSizePseudoEncoding_Read.

Definition HextileEncoding : Encoding :=
  mkEncoding 5
    (fun c rect r =>
       let! (tiles, r) := Hextile.Read c (X rect) (Y rect) (Width rect) (Height rect) r in
       Ok (mkDecoded 5 (HextileData tiles) None, r)).

(** ** FramebufferUpdate (server_messages.go) *)

(** The decoder table: the configured encodings, then the mandatory Raw,
    Cursor and DesktopSize entries, which replace configured ones of the
    same type. *)
Definition buildEncMap (encs : list Encoding) : gmap Z Encoding :=
  let encMap := foldl (fun m enc => <[Type_ enc := enc]> m) ∅ encs in
  let encMap := <[Type_ RawEncoding := RawEncoding]> encMap in
  let encMap := <[Type_ CursorPseudoEncoding := CursorPseudoEncoding]> encMap in
  <[Type_ DesktopSizePseudoEncoding := DesktopSizePseudoEncoding]> encMap.

(** The checks between the rectangle header and the call of the decoder:
    the result is the decoder that [FramebufferUpdateMessage.Read] calls
    next, or the error it returns instead. *)
Definition selectEncoding (c : ClientState) (encMap : gmap Z Encoding)
  (rect : Rectangle) (encodingType : Z) : outcome Encoding :=
  match InputValidator.ValidateEncodingType encodingType with
  | Some err =>
      Fail (protocolError "FramebufferUpdateMessage.Read"
              "invalid encoding type for rectangle %d" (Some err))
  | None =>
      let isPseudoEncoding := encodingType <? 0 in
      let! _ :=
        if negb isPseudoEncoding then
          match InputValidator.ValidateRectangle (X rect) (Y rect) (Width rect) (Height rect)
                  (FrameBufferWidth c) (FrameBufferHeight c) with
          | Some err =>
              Fail (protocolError "FramebufferUpdateMessage.Read"
                      "invalid rectangle %d" (Some err))
          | None => Ok tt
          end
        else Ok tt in
      match encMap !! encodingType with
      | None =>
          Fail (unsupportedError "FramebufferUpdateMessage.Read"
                  "unsupported encoding type: %d" None)
      | Some enc => Ok enc
      end
  end.

(** The state of the rectangle loop. *)
Record UpdateLoop : Type := mkUpdateLoop {
  conn : ClientState;
  rects : list Rectangle;
  input : Reader
}.

(** The body of the rectangle loop. *)
Definition readRectangle (encMap : gmap Z Encoding) (_ : Z) (s : UpdateLoop)
  : outcome UpdateLoop :=
  let hdr {A} (m : outcome A) :=
    wrap (networkError "FramebufferUpdateMessage.Read" "failed to read rectangle header") m in
  let! (x, r) := hdr (read_u16 (input s)) in
  let! (y, r) := hdr (read_u16 r) in
  let! (width, r) := hdr (read_u16 r) in
  let! (height, r) := hdr (read_u16 r) in
  let! (encodingType, r) := hdr (read_i32 r) in
  let rect := mkRectangle x y width height None in
  let! enc := selectEncoding (conn s) encMap rect encodingType in
  let! (decoded, r) :=
    wrap (encodingError "FramebufferUpdateMessage.Read"
            "failed to read rectangle encoding data")
         (Read enc (conn s) rect r) in
  let rect := mkRectangle x y width height (Some decoded) in
  let c := match dec_Handle decoded with
           | Some handle => handle (conn s)
           | None => conn s
           end in
  Ok (mkUpdateLoop c (rects s ++ [rect]) r).

(** [FramebufferUpdateMessage.Read]. *)
Definition FramebufferUpdateMessage_Read (c : ClientConn) (r : Reader)
  : outcome (list Rectangle * ClientConn * Reader) :=
  let! (_, r) :=
    wrap (networkError "FramebufferUpdateMessage.Read" "failed to read padding")
         (ReadFull 1 r) in
  let! (numRects, r) :=
    wrap (networkError "FramebufferUpdateMessage.Read" "failed to read number of rectangles")
         (read_u16 r) in
  if numRects >? MaxRectanglesPerUpdate then
    Fail (protocolError "FramebufferUpdateMessage.Read"
            "too many rectangles in update: %d (max %d)" None)
  else
    let encMap := buildEncMap (Encs c) in
    let! s := for_loop (Z.to_nat numRects) 0 (readRectangle encMap)
                (mkUpdateLoop (state c) [] r) in
    Ok (rects s, mkClientConn (conn s) (Encs c) (sent c), input s).

(** ** Handshake (client.go) *)

Section Handshake.

Variable IsPrint_wide : Z -> bool.

(** The exchanges of [handshakeWithContext] before ServerInit: protocol
    version, security types, the handshake of the negotiated [ClientAuth]
    and ClientInit.  They depend on the configured authentication
    methods and leave the connection and the unread input. *)
Variable handshake_prefix : ClientConn -> Reader -> outcome (ClientConn * Reader).

Definition maxDesktopNameLength : Z := 1024 * 1024.

(** Section 7.3.2 of [handshakeWithContext]: ServerInit. *)
Definition handshake_ServerInit (c : ClientConn) (r : Reader)
  : outcome (ClientConn * Reader) :=
  let! (width, r) :=
    wrap (networkError "handshake" "failed to read framebuffer width") (read_u16 r) in
  let! (height, r) :=
    wrap (networkError "handshake" "failed to read framebuffer height") (read_u16 r) in
  match InputValidator.ValidateFramebufferDimensions width height with
  | Some err =>
      Fail (protocolError "handshake" "server sent invalid framebuffer dimensions"
              (Some err))
  | None =>
      let! (pixelFormat, r) :=
        wrap (protocolError "handshake" "failed to read pixel format")
             (readPixelFormat r zeroPixelFormat) in
      let st := mkClientState (ColorMap (state c)) width height
                  (DesktopName (state c)) pixelFormat in
      match InputValidator.ValidatePixelFormat (Some (PixelFormat_ st)) with
      | Some err =>
          Fail (protocolError "handshake" "server sent invalid pixel format" (Some err))
      | None =>
          let! (nameLength, r) :=
            wrap (networkError "handshake" "failed to read desktop name length")
                 (read_u32 r) in
          match InputValidator.ValidateMessageLength nameLength maxDesktopNameLength with
          | Some err =>
              Fail (protocolError "handshake" "server sent invalid desktop name length"
                      (Some err))
          | None =>
              let! (nameBytes, r) :=
                wrap (networkError "handshake" "failed to read desktop name")
                     (ReadFull (Z.to_nat nameLength) r) in
              let desktopNameStr :=
                match ValidateTextData nameBytes maxDesktopNameLength with
                | Some _ => SanitizeText IsPrint_wide nameBytes
                | None => nameBytes
                end in
              Ok (mkClientConn
                    (mkClientState (ColorMap st) (FrameBufferWidth st)
                       (FrameBufferHeight st) desktopNameStr (PixelFormat_ st))
                    (Encs c) (sent c), r)
          end
      end
  end.

Definition handshakeWithContext (c : ClientConn) (r : Reader)
  : outcome (ClientConn * Reader) :=
  let! (c, r) := handshake_prefix c r in
  handshake_ServerInit c r.

(** What [ClientWithContext] leaves behind: a connection whose reader
    task [mainLoop] was started, or the handshake error after the
    connection was closed. *)
Inductive ClientResult : Type :=
| Running (c : ClientConn) (r : Reader)
| Closed (e : error)
| Crashed.

Definition ClientWithContext (c : ClientConn) (r : Reader) : ClientResult :=
  match handshakeWithContext c r with
  | Ok (c, r) => Running c r
  | Fail err => Closed err
  | Panic => Crashed
  end.

End Handshake.

(** ** Reference definitions and sample values used in the statements *)

(** Two presets of pixel_format.go. *)
Definition pf_rgb565 : PixelFormat := mkPixelFormat 16 16 false true 31 63 31 11 5 0.
Definition pf_rgb888 : PixelFormat := mkPixelFormat 32 24 false true 255 255 255 16 8 0.

(** [all_from n z p]: the boolean [p] holds for the [n] integers from [z]
    upwards; used to check a byte-level fact on every value of a type. *)
Fixpoint all_from (n : nat) (z : Z) (p : Z -> bool) : bool :=
  match n with
  | O => true
  | S n' => p z && all_from n' (z + 1) p
  end.

(** The number of set bits among the low 16 bits of [v]. *)
Definition popcount16 (v : Z) : Z :=
  fold_right (fun i acc => (if Z.testbit v i then 1 else 0) + acc) 0
    [0; 1; 2; 3; 4; 5; 6; 7; 8; 9; 10; 11; 12; 13; 14; 15].

(** The rule for true-colour formats as the specification words it: bpp
    is 8, 16 or 32, the depth is between 1 and bpp, the three maxima are
    non-zero, the three shifts are below bpp and the set bits of the
    maxima fit in the depth. *)
Definition true_color_rule (pf : PixelFormat) : bool :=
  ((BPP pf =? 8) || (BPP pf =? 16) || (BPP pf =? 32))
  && (1 <=? Depth pf) && (Depth pf <=? BPP pf)
  && negb (RedMax pf =? 0) && negb (GreenMax pf =? 0) && negb (BlueMax pf =? 0)
  && (RedShift pf <? BPP pf) && (GreenShift pf <? BPP pf) && (BlueShift pf <? BPP pf)
  && (popcount16 (RedMax pf) + popcount16 (GreenMax pf) + popcount16 (BlueMax pf)
      <=? Depth pf).

(** What [ValidatePixelFormat] accepts: the same rule with the shifts
    below [bpp - 1]. *)
Definition true_color_rule_of_code (pf : PixelFormat) : bool :=
  ((BPP pf =? 8) || (BPP pf =? 16) || (BPP pf =? 32))
  && (1 <=? Depth pf) && (Depth pf <=? BPP pf)
  && negb (RedMax pf =? 0) && negb (GreenMax pf =? 0) && negb (BlueMax pf =? 0)
  && (RedShift pf <? BPP pf - 1) && (GreenShift pf <? BPP pf - 1)
  && (BlueShift pf <? BPP pf - 1)
  && (popcount16 (RedMax pf) + popcount16 (GreenMax pf) + popcount16 (BlueMax pf)
      <=? Depth pf).

(** A 16-bit format whose red component is the top bit: red shift 15 with
    maximum 1, green shift 8 with maximum 127, blue shift 0 with maximum
    255. *)
Definition pf_top_bit_red : PixelFormat :=
  mkPixelFormat 16 16 false true 1 127 255 15 8 0.

(** A running session: 800 x 600, 32-bit true colour, a colour map that
    the server has filled with red, and Hextile configured. *)
Definition sample_conn : ClientConn :=
  mkClientConn
    (mkClientState (repeat (mkColor 65535 0 0) ColorMapSize) 800 600
       [100; 101; 115; 107] pf_rgb888)
    [HextileEncoding] [].

(** A colour-mapped 8-bit format whose maxima and shifts are filled in
    (the BGR233 layout), as the Go struct allows. *)
Definition pf_indexed_with_maxima : PixelFormat :=
  mkPixelFormat 8 8 false false 7 7 3 0 3 6.

(** What [readPixelFormat] gives back for the bytes of a format: the
    format itself when it is true colour, and otherwise the format with
    its maxima and shifts at zero. *)
Definition wire_image (p : PixelFormat) : PixelFormat :=
  if TrueColor p then p
  else mkPixelFormat (BPP p) (Depth p) (BigEndian p) false 0 0 0 0 0 0.

(** The value of a pixel's bytes read in the given byte order: the first
    byte is the most significant one in big-endian order and the least
    significant one in little-endian order. *)
Definition assemble (big : bool) (bs : list Z) : Z :=
  if big then fold_left (fun acc b => acc * 256 + b) bs 0
  else fold_right (fun b acc => b + 256 * acc) 0 bs.

(** The byte with the bit order of [b] reversed: bit [i] of [b] becomes
    bit [7 - i]. *)
Definition reverse_bits (b : Z) : Z :=
  fold_right (fun i acc => (if Z.testbit b i then 2 ^ (7 - i) else 0) + acc) 0
    [0; 1; 2; 3; 4; 5; 6; 7].

(** The VNC key of a password: its first 8 bytes, padded with zeros to 8,
    each with its bits reversed. *)
Definition vnc_key (password : list Z) : list Z :=
  map reverse_bits (firstn 8 (password ++ repeat 0 8)).

(** Single-DES encryption of one 8-byte block in ECB mode. *)
Definition des_ecb_block (cryptBlock : list Z -> Z -> Z) (key block : list Z) : list Z :=
  BigEndian_PutUint64 (cryptBlock key (BigEndian_Uint64 block)).

(** A stand-in block function for running the model: the block xored
    with the key. *)
Definition xor_cipher (key : list Z) (block : Z) : Z :=
  Z.lxor block (BigEndian_Uint64 key).

(** A rectangle lies within the framebuffer: it is not empty and its far
    edges neither overflow a uint16 nor pass the framebuffer's. *)
Definition within_framebuffer (c : ClientState) (rect : Rectangle) : Prop :=
  0 < Width rect /\ 0 < Height rect
  /\ X rect + Width rect <= 65535 /\ Y rect + Height rect <= 65535
  /\ X rect + Width rect <= FrameBufferWidth c
  /\ Y rect + Height rect <= FrameBufferHeight c.

(** Bytes that are one-byte characters kept by [SanitizeText]: printable
    ASCII, tab, line feed and carriage return. *)
Definition plain_ascii (b : Z) : Prop :=
  0x20 <= b <= 0x7E \/ b = 9 \/ b = 10 \/ b = 13.

(** The ClientCutText frame of section 4.7 for the content bytes [bs]. *)
Definition cut_text_frame (bs : list Z) : list Z :=
  [6; 0; 0; 0] ++ BigEndian_PutUint32 (Z.of_nat (List.length bs)) ++ bs.

(** ** Further checks of the input validator *)

(** [ValidateColorMapEntries] on uint16 values: [MaxUint16 - numColors]
    and [firstColor + numColors] are computed modulo 2^16. *)
Definition ValidateColorMapEntries (firstColor numColors maxColors : Z) : option error :=
  if numColors =? 0 then
    Some (validationError "InputValidator.ValidateColorMapEntries"
            "number of colors cannot be zero" None)
  else if firstColor >? u16 (65535 - numColors) then
    Some (validationError "InputValidator.ValidateColorMapEntries"
            "color map range would cause integer overflow" None)
  else if u16 (firstColor + numColors) >? maxColors then
    Some (validationError "InputValidator.ValidateColorMapEntries"
            "color map range (%d-%d) exceeds maximum colors %d" None)
  else None.

(** [ValidateKeySymbol] on a uint32. *)
Definition ValidateKeySymbol (keysym : Z) : option error :=
  if keysym =? 0 then
    Some (validationError "InputValidator.ValidateKeySymbol"
            "keysym cannot be zero" None)
  else if keysym >? 0x1FFFFFF then
    Some (validationError "InputValidator.ValidateKeySymbol"
            "keysym value too large: 0x%X" None)
  else None.

(** [ValidatePointerPosition] on uint16 values. *)
Definition ValidatePointerPosition (x y fbWidth fbHeight : Z) : option error :=
  if (x >=? fbWidth) || (y >=? fbHeight) then
    Some (validationError "InputValidator.ValidatePointerPosition"
            "pointer position (%d,%d) exceeds framebuffer bounds (%d,%d)" None)
  else None.

(** ** Further client messages (client.go) *)

Section ClientMessages.

Variable grownCap : nat -> nat.

(** [ClientConn.KeyEvent(keysym, down)]: the frame is the whole buffer,
    [buf.Bytes()].  Writes to a [bytes.Buffer] cannot fail. *)
Definition KeyEvent (c : ClientConn) (keysym : Z) (down : bool) (w : WriteResult)
  : ClientConn * outcome unit :=
  match ValidateKeySymbol keysym with
  | Some err => (c, Fail (validationError "KeyEvent" "invalid keysym value" (Some err)))
  | None =>
      let downFlag := if down then 1 else 0 in
      let buf := [4] ++ [downFlag] ++ [0] ++ [0] ++ BigEndian_PutUint32 keysym in
      match writeWithContext c buf w with
      | (c', Some err) =>
          (c', Fail (networkError "KeyEvent" "failed to send key event" (Some err)))
      | (c', None) => (c', Ok tt)
      end
  end.

(** [ClientConn.PointerEvent(mask, x, y)]: the position is checked
    against the framebuffer size of the connection, and the frame is
    [buf.Bytes()[0:6]]. *)
Definition PointerEvent (c : ClientConn) (mask x y : Z) (w : WriteResult)
  : ClientConn * outcome unit :=
  let width := FrameBufferWidth (state c) in
  let height := FrameBufferHeight (state c) in
  match ValidatePointerPosition x y width height with
  | Some err =>
      (c, Fail (validationError "PointerEvent" "invalid pointer coordinates" (Some err)))
  | None =>
      let buf := [5] ++ [u8 mask] ++ BigEndian_PutUint16 x ++ BigEndian_PutUint16 y in
      match Bytes_slice_to smallBufferSize buf 6 with
      | Fail e => (c, Fail e)
      | Panic => (c, Panic)
      | Ok frame =>
          match writeWithContext c frame w with
          | (c', Some err) =>
              (c', Fail (networkError "PointerEvent" "failed to send pointer event"
                           (Some err)))
          | (c', None) => (c', Ok tt)
          end
      end
  end.

(** [ClientConn.FramebufferUpdateRequest(incremental, x, y, width,
    height)]: nothing is checked, and the frame is [buf.Bytes()[0:10]]. *)
Definition FramebufferUpdateRequest (c : ClientConn) (incremental : bool)
  (x y width height : Z) (w : WriteResult) : ClientConn * outcome unit :=
  let incrementalByte := if incremental then 1 else 0 in
  let buf := [3] ++ [incrementalByte]
             ++ BigEndian_PutUint16 x ++ BigEndian_PutUint16 y
             ++ BigEndian_PutUint16 width ++ BigEndian_PutUint16 height in
  match Bytes_slice_to smallBufferSize buf 10 with
  | Fail e => (c, Fail e)
  | Panic => (c, Panic)
  | Ok frame =>
      match writeWithContext c frame w with
      | (c', Some err) =>
          (c', Fail (networkError "FramebufferUpdateRequest"
                       "failed to send framebuffer update request" (Some err)))
      | (c', None) => (c', Ok tt)
      end
  end.

Definition maxEncodings : nat := 100.

(** The first loop of [SetEncodings]: the type of every encoding is
    validated, in order. *)
Fixpoint validateEncodingTypes (encs : list Encoding) : option error :=
  match encs with
  | [] => None
  | enc :: rest =>
      match InputValidator.ValidateEncodingType (Type_ enc) with
      | Some err =>
          Some (validationError "SetEncodings" "invalid encoding type at index %d"
                  (Some err))
      | None => validateEncodingTypes rest
      end
  end.

(** [ClientConn.SetEncodings(encs)]: the count is written as a uint16,
    every type as an int32 (its two's complement as four bytes), the
    frame is [buf.Bytes()[0:4+4*len(encs)]], and after a successful
    write the list is stored in [Encs]. *)
Definition SetEncodings (c : ClientConn) (encs : list Encoding) (w : WriteResult)
  : ClientConn * outcome unit :=
  if (maxEncodings <? List.length encs)%nat then
    (c, Fail (validationError "SetEncodings" "too many encodings: %d (max %d)" None))
  else
    match validateEncodingTypes encs with
    | Some err => (c, Fail err)
    | None =>
        let buf := [2] ++ [0] ++ BigEndian_PutUint16 (u16 (Z.of_nat (List.length encs)))
                   ++ flat_map (fun enc => BigEndian_PutUint32 (u32 (Type_ enc))) encs in
        let dataLength := (4 + 4 * List.length encs)%nat in
        match Bytes_slice_to (Buffer_cap grownCap (List.length buf)) buf dataLength with
        | Fail e => (c, Fail e)
        | Panic => (c, Panic)
        | Ok frame =>
            match writeWithContext c frame w with
            | (c', Some err) =>
                (c', Fail (networkError "SetEncodings"
                             "failed to send set encodings message" (Some err)))
            | (c', None) => (mkClientConn (state c') encs (sent c'), Ok tt)
            end
        end
    end.

End ClientMessages.

(** ** Further server messages (server_messages.go) *)

Record SetColorMapEntriesMessage : Type := mkSetColorMapEntries {
  FirstColor : Z;
  Colors : list Color
}.

(** The colour loop of [SetColorMapEntriesMessage.Read].  Every entry is
    stored in the colour map of the connection as soon as its three
    components are read, so the map is returned beside the result: an
    error leaves the entries stored before it in place.  [colors] is the
    slice [result.Colors]; indexing the 256-entry array out of range
    panics. *)
Fixpoint readColorEntries (n : nat) (i firstColor : Z) (colorMap colors : list Color)
  (r : Reader) : list Color * outcome (list Color * Reader) :=
  match n with
  | O => (colorMap, Ok (colors, r))
  | S n' =>
      let rd {A} (m : outcome A) :=
        wrap (networkError "SetColorMapEntriesMessage.Read" "failed to read color data") m in
      match (let! (cr, r) := rd (read_u16 r) in
             let! (cg, r) := rd (read_u16 r) in
             let! (cb, r) := rd (read_u16 r) in
             Ok (mkColor cr cg cb, r)) with
      | Ok (color, r) =>
          let colors := <[Z.to_nat i := color]> colors in
          let index := Z.to_nat (u16 (firstColor + i)) in
          if (index <? List.length colorMap)%nat then
            readColorEntries n' (i + 1) firstColor (<[index := color]> colorMap) colors r
          else (colorMap, Panic)
      | Fail e => (colorMap, Fail e)
      | Panic => (colorMap, Panic)
      end
  end.

(** [SetColorMapEntriesMessage.Read]: the connection after the call and
    the result. *)
Definition SetColorMapEntriesMessage_Read (c : ClientState) (r : Reader)
  : ClientState * outcome (SetColorMapEntriesMessage * Reader) :=
  match (let! (_, r) :=
           wrap (networkError "SetColorMapEntriesMessage.Read" "failed to read padding")
                (ReadFull 1 r) in
         let! (firstColor, r) :=
           wrap (networkError "SetColorMapEntriesMessage.Read"
                   "failed to read first color index") (read_u16 r) in
         let! (numColors, r) :=
           wrap (networkError "SetColorMapEntriesMessage.Read"
                   "failed to read number of colors") (read_u16 r) in
         match ValidateColorMapEntries firstColor numColors (Z.of_nat ColorMapSize) with
         | Some err =>
             Fail (protocolError "SetColorMapEntriesMessage.Read"
                     "invalid color map entries" (Some err))
         | None => Ok (firstColor, numColors, r)
         end) with
  | Ok (firstColor, numColors, r) =>
      let colors := repeat zeroColor (Z.to_nat numColors) in
      let '(colorMap, res) :=
        readColorEntries (Z.to_nat numColors) 0 firstColor (ColorMap c) colors r in
      (mkClientState colorMap (FrameBufferWidth c) (FrameBufferHeight c)
         (DesktopName c) (PixelFormat_ c),
       let! (colors, r) := res in Ok (mkSetColorMapEntries firstColor colors, r))
  | Fail e => (c, Fail e)
  | Panic => (c, Panic)
  end.

Definition MaxServerClipboardLength : Z := 10 * 1024 * 1024.

Section ServerCutText.

Variable IsPrint_wide : Z -> bool.

(** [ServerCutTextMessage.Read]: one padding byte is read before the
    length; the result is the text of the message. *)
Definition ServerCutTextMessage_Read (c : ClientState) (r : Reader)
  : outcome (list Z * Reader) :=
  let! (_, r) :=
    wrap (networkError "ServerCutTextMessage.Read" "failed to read padding")
         (ReadFull 1 r) in
  let! (textLength, r) :=
    wrap (networkError "ServerCutTextMessage.Read" "failed to read text length")
         (read_u32 r) in
  match InputValidator.ValidateMessageLength textLength MaxServerClipboardLength with
  | Some err =>
      Fail (protocolError "ServerCutTextMessage.Read" "invalid clipboard text length"
              (Some err))
  | None =>
      let! (textBytes, r) :=
        wrap (networkError "ServerCutTextMessage.Read" "failed to read text data")
             (ReadFull (Z.to_nat textLength) r) in
      let clipboardText :=
        match ValidateTextData textBytes MaxServerClipboardLength with
        | Some _ => SanitizeText IsPrint_wide textBytes
        | None => textBytes
        end in
      Ok (clipboardText, r)
  end.

End ServerCutText.

(** ** CopyRect and RRE ([CopyRectEncoding], encoding_raw.go) *)

Record CopyRectEncoding : Type := mkCopyRect {
  SrcX : Z;
  SrcY : Z
}.

(** [CopyRectEncoding.Read]: the source position is compared with 32767
    and with nothing else. *)
Definition CopyRectEncoding_Read (c : ClientState) (rect : Rectangle) (r : Reader)
  : outcome (CopyRectEncoding * Reader) :=
  let! (srcX, r) :=
    wrap (encodingError "CopyRectEncoding.Read" "failed to read source X coordinate")
         (read_u16 r) in
  let! (srcY, r) :=
    wrap (encodingError "CopyRectEncoding.Read" "failed to read source Y coordinate")
         (read_u16 r) in
  if (srcX >? 32767) || (srcY >? 32767) then
    Fail (encodingError "CopyRectEncoding.Read"
            "source coordinates appear invalid (too large)" None)
  else Ok (mkCopyRect srcX srcY, r).

Record RRESubrectangle : Type := mkRRESubrectangle {
  RRE_Color : Color;
  RRE_X : Z;
  RRE_Y : Z;
  RRE_Width : Z;
  RRE_Height : Z
}.

Record RREEncoding : Type := mkRRE {
  BackgroundColor : Color;
  Subrectangles : list RRESubrectangle
}.

Definition zeroRRESubrectangle : RRESubrectangle :=
  mkRRESubrectangle zeroColor 0 0 0 0.

Definition maxSubrects : Z := 1000000.

(** One round of the sub-rectangle loop of [RREEncoding.Read]: the state
    is the slice [subrects] and the reader. *)
Definition read_rre_subrect (c : ClientState) (rect : Rectangle) (i : Z)
  (s : list RRESubrectangle * Reader) : outcome (list RRESubrectangle * Reader) :=
  let '(subrects, r) := s in
  let! (color, r) :=
    wrap (encodingError "RREEncoding.Read" "failed to read subrectangle color")
         (readPixelColor r (PixelFormat_ c) (ColorMap c)) in
  let geo {A} (m : outcome A) :=
    wrap (encodingError "RREEncoding.Read" "failed to read subrectangle geometry") m in
  let! (x, r) := geo (read_u16 r) in
  let! (y, r) := geo (read_u16 r) in
  let! (width, r) := geo (read_u16 r) in
  let! (height, r) := geo (read_u16 r) in
  match InputValidator.ValidateRectangle x y width height (Width rect) (Height rect) with
  | Some err =>
      Fail (encodingError "RREEncoding.Read" "invalid subrectangle bounds" (Some err))
  | None =>
      Ok (<[Z.to_nat i := mkRRESubrectangle color x y width height]> subrects, r)
  end.

(** [RREEncoding.Read]. *)
Definition RREEncoding_Read (c : ClientState) (rect : Rectangle) (r : Reader)
  : outcome (RREEncoding * Reader) :=
  let! _ :=
    if (FrameBufferWidth c >? 0) && (FrameBufferHeight c >? 0) then
      match InputValidator.ValidateRectangle (X rect) (Y rect) (Width rect) (Height rect)
              (FrameBufferWidth c) (FrameBufferHeight c) with
      | Some err =>
          Fail (encodingError "RREEncoding.Read" "invalid rectangle dimensions" (Some err))
      | None => Ok tt
      end
    else Ok tt in
  let! (numSubrects, r) :=
    wrap (encodingError "RREEncoding.Read" "failed to read number of subrectangles")
         (read_u32 r) in
  if numSubrects >? maxSubrects then
    Fail (encodingError "RREEncoding.Read" "too many subrectangles: %d (max %d)" None)
  else
    let! (backgroundColor, r) :=
      wrap (encodingError "RREEncoding.Read" "failed to read background color")
           (readPixelColor r (PixelFormat_ c) (ColorMap c)) in
    let subrects := repeat zeroRRESubrectangle (Z.to_nat numSubrects) in
    let! (subrects, r) :=
      for_loop (Z.to_nat numSubrects) 0 (read_rre_subrect c rect) (subrects, r) in
    Ok (mkRRE backgroundColor subrects, r).

(** ** Reference definitions for the further properties *)

(** The client-to-server messages of RFC 6143, section 7.5, that the
    functions above send. *)
Inductive ClientMessage : Type :=
| MsgSetEncodings (types : list Z)
| MsgFramebufferUpdateRequest (incremental : bool) (x y width height : Z)
| MsgKeyEvent (down : bool) (keysym : Z)
| MsgPointerEvent (mask x y : Z).

Fixpoint read_i32s (n : nat) (r : Reader) : outcome (list Z * Reader) :=
  match n with
  | O => Ok ([], r)
  | S n' =>
      let! (t, r) := read_i32 r in
      let! (ts, r) := read_i32s n' r in
      Ok (t :: ts, r)
  end.

(** A server reading one client message by the layouts of RFC 6143:
    SetEncodings is type 2, one padding byte, a u16 count and so many
    s32; FramebufferUpdateRequest is type 3, the incremental flag and
    four u16; KeyEvent is type 4, the down flag, two padding bytes and a
    u32; PointerEvent is type 5, the button mask and two u16. *)
Definition parse_client_message (r : Reader) : outcome (ClientMessage * Reader) :=
  let! (messageType, r) := read_u8 r in
  if messageType =? 2 then
    let! (_, r) := ReadFull 1 r in
    let! (n, r) := read_u16 r in
    let! (types, r) := read_i32s (Z.to_nat n) r in
    Ok (MsgSetEncodings types, r)
  else if messageType =? 3 then
    let! (incremental, r) := read_u8 r in
    let! (x, r) := read_u16 r in
    let! (y, r) := read_u16 r in
    let! (width, r) := read_u16 r in
    let! (height, r) := read_u16 r in
    Ok (MsgFramebufferUpdateRequest (negb (incremental =? 0)) x y width height, r)
  else if messageType =? 4 then
    let! (down, r) := read_u8 r in
    let! (_, r) := ReadFull 2 r in
    let! (keysym, r) := read_u32 r in
    Ok (MsgKeyEvent (negb (down =? 0)) keysym, r)
  else if messageType =? 5 then
    let! (mask, r) := read_u8 r in
    let! (x, r) := read_u16 r in
    let! (y, r) := read_u16 r in
    Ok (MsgPointerEvent mask x y, r)
  else Fail (unsupportedError "parse_client_message" "unknown message type" None).

Definition is_i32 (x : Z) : Prop := -2147483648 <= x < 2147483648.

(** The body of a SetColorMapEntries message after its type byte, by
    RFC 6143, section 7.6.2: one padding byte, the first colour, the
    number of colours, and the colours as three u16 each. *)
Definition color_bytes (col : Color) : list Z :=
  BigEndian_PutUint16 (R col) ++ BigEndian_PutUint16 (G col) ++ BigEndian_PutUint16 (B col).

Definition color_map_entries_body (padding firstColor numColors : Z) (cols : list Color)
  : list Z :=
  [padding] ++ BigEndian_PutUint16 firstColor ++ BigEndian_PutUint16 numColors
  ++ flat_map color_bytes cols.

Definition is_color (col : Color) : Prop := is_u16 (R col) /\ is_u16 (G col) /\ is_u16 (B col).

(** The colour map with [cols] stored from index [first] on. *)
Definition store_colors (first : nat) (cols colorMap : list Color) : list Color :=
  list_inserts first cols colorMap.

(** The body of a ServerCutText message after its type byte, by RFC
    6143, section 7.6.4: three padding bytes, the length as a u32 and
    the text. *)
Definition server_cut_text_body (text : list Z) : list Z :=
  [0; 0; 0] ++ BigEndian_PutUint32 (Z.of_nat (List.length text)) ++ text.

(** A sub-rectangle lies within a rectangle of the given size. *)
Definition rre_within (width height : Z) (s : RRESubrectangle) : Prop :=
  0 < RRE_Width s /\ 0 < RRE_Height s
  /\ RRE_X s + RRE_Width s <= width /\ RRE_Y s + RRE_Height s <= height.

(** The state of the pixel loops of [RawEncoding.Read] after [m] pixels:
    the slice keeps its length and the reader is [m] pixels into the
    input. *)
Definition raw_progress (total bpp : nat) (r : Reader) (m : nat)
  (s : list Color * Reader) : Prop :=
  List.length (fst s) = total /\ (m * bpp <= List.length r)%nat
  /\ snd s = skipn (m * bpp) r.

(** The state of the sub-rectangle loop of [RREEncoding.Read] after [k]
    rounds. *)
Definition rre_progress (total : nat) (width height : Z) (k : nat)
  (s : list RRESubrectangle * Reader) : Prop :=
  List.length (fst s) = total /\ Forall is_u8 (snd s)
  /\ Forall (rre_within width height) (firstn k (fst s)).


(** ** Authentication (color.go: [ClientAuth], [PasswordAuth],
       [AuthRegistry]; [ProtectedBytes]) *)

(** The implementations of the [ClientAuth] interface: the two of the
    library and any other, given by its security type and its handshake
    on the connection. *)
Inductive ClientAuth : Type :=
| ClientAuthNone
| PasswordAuth (Password : list Z)
| CustomAuth (securityType : Z)
    (Handshake : ClientConn -> Reader -> WriteResult -> ClientConn * outcome Reader).

Definition SecurityType (auth : ClientAuth) : Z :=
  match auth with
  | ClientAuthNone => 1
  | PasswordAuth _ => 2
  | CustomAuth securityType _ => securityType
  end.

(** [ProtectedBytes]: the buffer, or [None] once it is cleared. *)
Definition ProtectedBytes := option (list Z).

Definition NewProtectedBytes (size : nat) : ProtectedBytes := Some (repeat 0 size).

(** [ProtectedBytes.Copy(src)]: the buffer after [copy(pb.data, src)]. *)
Definition ProtectedBytes_Copy (pb : ProtectedBytes) (src : list Z) : outcome ProtectedBytes :=
  match pb with
  | None =>
      Fail (validationError "ProtectedBytes.Copy" "protected bytes has been cleared" None)
  | Some data =>
      if (List.length data <? List.length src)%nat then
        Fail (validationError "ProtectedBytes.Copy"
                "source data larger than protected buffer" None)
      else Ok (Some (src ++ skipn (List.length src) data))
  end.

(** [AuthRegistry]: the map [factories]; a factory is given by the value
    it returns. *)
Definition AuthRegistry := gmap Z ClientAuth.

Definition Register (r : AuthRegistry) (securityType : Z) (factory : ClientAuth)
  : AuthRegistry :=
  <[securityType := factory]> r.

(** [NewAuthRegistry]: the factory for type 2 returns [&PasswordAuth{}],
    whose password is empty. *)
Definition NewAuthRegistry : AuthRegistry :=
  Register (Register ∅ 1 ClientAuthNone) 2 (PasswordAuth []).

Definition IsSupported (r : AuthRegistry) (securityType : Z) : bool :=
  match r !! securityType with
  | Some _ => true
  | None => false
  end.

Definition CreateAuth (r : AuthRegistry) (securityType : Z) : outcome ClientAuth :=
  match r !! securityType with
  | None =>
      Fail (unsupportedError "AuthRegistry.CreateAuth" "unsupported security type: %d" None)
  | Some factory => Ok factory
  end.

(** The inner loop of [NegotiateAuth], over the types of the server. *)
Fixpoint negotiate_server (r : AuthRegistry) (preferredType : Z) (serverTypes : list Z)
  : option (ClientAuth * Z) :=
  match serverTypes with
  | [] => None
  | serverType :: rest =>
      if (preferredType =? serverType) && IsSupported r preferredType then
        match CreateAuth r preferredType with
        | Ok auth => Some (auth, preferredType)
        | _ => negotiate_server r preferredType rest
        end
      else negotiate_server r preferredType rest
  end.

(** The outer loop of [NegotiateAuth], over the preferred order. *)
Fixpoint negotiate_preferred (r : AuthRegistry) (preferredOrder serverTypes : list Z)
  : option (ClientAuth * Z) :=
  match preferredOrder with
  | [] => None
  | preferredType :: rest =>
      match negotiate_server r preferredType serverTypes with
      | Some found => Some found
      | None => negotiate_preferred r rest serverTypes
      end
  end.

(** [AuthRegistry.NegotiateAuth(serverTypes, preferredOrder)]; a [nil]
    preferred order is [None]. *)
Definition NegotiateAuth (r : AuthRegistry) (serverTypes : list Z)
  (preferredOrder : option (list Z)) : outcome (ClientAuth * Z) :=
  let preferredOrder :=
    match preferredOrder with
    | None => serverTypes
    | Some preferredOrder => preferredOrder
    end in
  match negotiate_preferred r preferredOrder serverTypes with
  | Some found => Ok found
  | None =>
      Fail (unsupportedError "AuthRegistry.NegotiateAuth"
              "no mutual authentication method found. server: %v, client: %v" None)
  end.

(** [AuthRegistry.ValidateAuthMethod(auth)]; a [nil] method is [None]. *)
Definition ValidateAuthMethod (auth : option ClientAuth) : option error :=
  match auth with
  | None =>
      Some (validationError "AuthRegistry.ValidateAuthMethod"
              "authentication method is nil" None)
  | Some auth =>
      if SecurityType auth =? 0 then
        Some (validationError "AuthRegistry.ValidateAuthMethod"
                "invalid security type 0" None)
      else
        match auth with
        | PasswordAuth [] =>
            Some (validationError "AuthRegistry.ValidateAuthMethod"
                    "password authentication requires non-empty password" None)
        | _ => None
        end
  end.

(** [ValidateSecurityType] and [ValidateSecurityTypes] of the input
    validator. *)
Definition ValidateSecurityType (securityType : Z) : option error :=
  if securityType =? 0 then
    Some (validationError "InputValidator.ValidateSecurityType"
            "security type 0 indicates connection failure" None)
  else None.

Fixpoint validateSecurityTypes_loop (securityTypes : list Z) : option error :=
  match securityTypes with
  | [] => None
  | secType :: rest =>
      match ValidateSecurityType secType with
      | Some err =>
          Some (validationError "InputValidator.ValidateSecurityTypes"
                  "invalid security type at index %d" (Some err))
      | None => validateSecurityTypes_loop rest
      end
  end.

Definition ValidateSecurityTypes (securityTypes : list Z) : option error :=
  if (List.length securityTypes =? 0)%nat then
    Some (validationError "InputValidator.ValidateSecurityTypes"
            "security types array cannot be empty" None)
  else if (255 <? List.length securityTypes)%nat then
    Some (validationError "InputValidator.ValidateSecurityTypes"
            "security types array too large" None)
  else validateSecurityTypes_loop securityTypes.

(** The legacy selection of [handshakeWithContext] (label [FindAuth]):
    the first configured method, in the order of the configuration,
    whose type the server offers. *)
Fixpoint findAuth_server (curAuth : ClientAuth) (securityTypes : list Z)
  : option (ClientAuth * Z) :=
  match securityTypes with
  | [] => None
  | securityType :: rest =>
      if SecurityType curAuth =? securityType then Some (curAuth, securityType)
      else findAuth_server curAuth rest
  end.

Fixpoint findAuth (clientSecurityTypes : list ClientAuth) (securityTypes : list Z)
  : option (ClientAuth * Z) :=
  match clientSecurityTypes with
  | [] => None
  | curAuth :: rest =>
      match findAuth_server curAuth securityTypes with
      | Some found => Some found
      | None => findAuth rest securityTypes
      end
  end.

(** The fields of [ClientConfig] that the handshake reads; a [nil] slice
    or registry is [None]. *)
Record ClientConfig : Type := mkClientConfig {
  Auth : option (list ClientAuth);
  AuthRegistry_ : option AuthRegistry;
  Exclusive : bool
}.

(** The bytes of a string constant. *)
Definition string_bytes (s : string) : list Z :=
  map (fun a => Z.of_nat (Ascii.nat_of_ascii a)) (list_ascii_of_string s).

Section Security.

Variable cryptBlock : list Z -> Z -> Z.
Variable IsPrint_wide : Z -> bool.

(** [PasswordAuth.Handshake]: the 16-byte challenge is read into a
    protected buffer, encrypted (the timing protection only delays), the
    response is copied into a second protected buffer and written to the
    connection. *)
Definition PasswordAuth_Handshake (password : list Z) (c : ClientConn) (r : Reader)
  (w : WriteResult) : ClientConn * outcome Reader :=
  match wrap (networkError "PasswordAuth.Handshake"
                "failed to read authentication challenge")
             (ReadFull VNCChallengeSize r) with
  | Fail e => (c, Fail e)
  | Panic => (c, Panic)
  | Ok (challenge, r) =>
      match wrap (authenticationError "PasswordAuth.Handshake" "failed to encrypt password")
                 (EncryptVNCChallenge cryptBlock password challenge) with
      | Fail e => (c, Fail e)
      | Panic => (c, Panic)
      | Ok crypted =>
          let responseBuffer := NewProtectedBytes (List.length crypted) in
          match wrap (authenticationError "PasswordAuth.Handshake"
                        "failed to prepare encrypted response")
                     (ProtectedBytes_Copy responseBuffer crypted) with
          | Fail e => (c, Fail e)
          | Panic | Ok None => (c, Panic)
          | Ok (Some response) =>
              match writeWithContext c response w with
              | (c', Some err) =>
                  (c', Fail (networkError "PasswordAuth.Handshake"
                               "failed to send encrypted password" (Some err)))
              | (c', None) => (c', Ok r)
              end
          end
      end
  end.

(** [auth.Handshake(ctx, c.c)]; the handshake of [ClientAuthNone]
    exchanges nothing. *)
Definition auth_Handshake (auth : ClientAuth) (c : ClientConn) (r : Reader)
  (w : WriteResult) : ClientConn * outcome Reader :=
  match auth with
  | ClientAuthNone => (c, Ok r)
  | PasswordAuth password => PasswordAuth_Handshake password c r w
  | CustomAuth _ handshake => handshake c r w
  end.

(** [readErrorReason]: the reason string sent by the server, or a
    placeholder. *)
Definition readErrorReason (r : Reader) : list Z :=
  match read_u32 r with
  | Ok (reasonLen, r) =>
      match InputValidator.ValidateMessageLength reasonLen (64 * 1024) with
      | Some _ => string_bytes "<invalid error reason length>"
      | None =>
          match ReadFull (Z.to_nat reasonLen) r with
          | Ok (reason, _) =>
              match ValidateTextData reason (64 * 1024) with
              | Some _ => SanitizeText IsPrint_wide reason
              | None => reason
              end
          | _ => string_bytes "<failed to read error reason>"
          end
      end
  | _ => string_bytes "<failed to read error reason length>"
  end.

(** Sections 7.1.2 to 7.3.1 of [handshakeWithContext]: the security
    types, the choice of the authentication method, its handshake, the
    security result and ClientInit.  The three writes are the selected
    type, the write of the method's handshake and the shared flag.  The
    reason read by [readErrorReason] only goes into the message of the
    error. *)
Definition handshake_security (cfg : ClientConfig) (c : ClientConn) (r : Reader)
  (w1 w2 w3 : WriteResult) : ClientConn * outcome Reader :=
  match (let! (numSecurityTypes, r) :=
           wrap (networkError "handshake" "failed to read number of security types")
                (read_u8 r) in
         if numSecurityTypes =? 0 then
           let reason := readErrorReason r in
           Fail (authenticationError "handshake" "no security types available: %s" None)
         else
           let! (securityTypes, r) :=
             wrap (networkError "handshake" "failed to read security types")
                  (ReadFull (Z.to_nat numSecurityTypes) r) in
           match ValidateSecurityTypes securityTypes with
           | Some err =>
               Fail (protocolError "handshake" "server sent invalid security types"
                       (Some err))
           | None =>
               let! (auth, selectedSecurityType) :=
                 match AuthRegistry_ cfg with
                 | Some registry =>
                     let preferredOrder := option_map (map SecurityType) (Auth cfg) in
                     wrap (authenticationError "handshake"
                             "authentication negotiation failed")
                          (NegotiateAuth registry securityTypes preferredOrder)
                 | None =>
                     let clientSecurityTypes :=
                       match Auth cfg with
                       | None => [ClientAuthNone]
                       | Some auths => auths
                       end in
                     match findAuth clientSecurityTypes securityTypes with
                     | None =>
                         Fail (authenticationError "handshake"
                                 "no suitable auth schemes found. server supported: %#v"
                                 None)
                     | Some found => Ok found
                     end
                 end in
               Ok (auth, selectedSecurityType, r)
           end) with
  | Fail e => (c, Fail e)
  | Panic => (c, Panic)
  | Ok (auth, selectedSecurityType, r) =>
      match writeWithContext c [selectedSecurityType] w1 with
      | (c, Some err) =>
          (c, Fail (networkError "handshake" "failed to send selected security type"
                      (Some err)))
      | (c, None) =>
          match (match AuthRegistry_ cfg with
                 | Some _ => ValidateAuthMethod (Some auth)
                 | None => None
                 end) with
          | Some err =>
              (c, Fail (authenticationError "handshake"
                          "authentication method validation failed" (Some err)))
          | None =>
              match auth_Handshake auth c r w2 with
              | (c, Fail err) =>
                  (c, Fail (authenticationError "handshake"
                              "authentication handshake failed" (Some err)))
              | (c, Panic) => (c, Panic)
              | (c, Ok r) =>
                  match wrap (networkError "handshake" "failed to read security result")
                             (read_u32 r) with
                  | Fail e => (c, Fail e)
                  | Panic => (c, Panic)
                  | Ok (securityResult, r) =>
                      if securityResult =? 1 then
                        let reason := readErrorReason r in
                        (c, Fail (authenticationError "handshake"
                                    "security handshake failed: %s" None))
                      else
                        let sharedFlag := if Exclusive cfg then 0 else 1 in
                        match writeWithContext c [sharedFlag] w3 with
                        | (c, Some err) =>
                            (c, Fail (networkError "handshake"
                                        "failed to send client init message" (Some err)))
                        | (c, None) => (c, Ok r)
                        end
                  end
              end
          end
      end
  end.

End Security.

(** ** Colour maps and colour conversion (color.go) *)

(** [ColorMapValidationError], the error type of [ColorMap.SetRange] and
    [ColorMap.GetRange]; the formatted fields are left out. *)
Record ColorMapValidationError : Type := mkColorMapValidationError {
  CMV_Index : Z;
  CMV_Message : string
}.

(** What a call on a [ColorMap] gives: a value, a validation error, or a
    run-time panic of the array index. *)
Inductive ColorMapResult (A : Type) : Type :=
| CMOk (a : A)
| CMError (e : ColorMapValidationError)
| CMPanic.
Arguments CMOk {A} a.
Arguments CMError {A} e.
Arguments CMPanic {A}.

(** [ColorMap.initializeDefault]: the grey ramp. *)
Definition initializeDefault : list Color :=
  map (fun i => let value := u16 (Z.of_nat i * 257) in mkColor value value value)
      (seq 0 ColorMapSize).

Definition NewColorMap : list Color := initializeDefault.

(** [ColorMap.Get(index)] with [index] a uint8. *)
Definition ColorMap_Get (colors : list Color) (index : Z) : ColorMapResult Color :=
  match colors !! Z.to_nat index with
  | Some c => CMOk c
  | None => CMPanic
  end.

(** The loop of [SetRange]: [index := startIndex + uint16(i)]. *)
Fixpoint setRange_loop (i startIndex : Z) (newColors cmColors : list Color)
  : ColorMapResult (list Color) :=
  match newColors with
  | [] => CMOk cmColors
  | color :: rest =>
      let index := Z.to_nat (u16 (startIndex + u16 i)) in
      if (index <? List.length cmColors)%nat then
        setRange_loop (i + 1) startIndex rest (<[index := color]> cmColors)
      else CMPanic
  end.

(** [ColorMap.SetRange(startIndex, colors)]: the map after the call. *)
Definition ColorMap_SetRange (cmColors : list Color) (startIndex : Z)
  (newColors : list Color) : ColorMapResult (list Color) :=
  if startIndex >? Z.of_nat ColorMapSize - 1 then
    CMError (mkColorMapValidationError startIndex "start index exceeds color map bounds")
  else if startIndex + Z.of_nat (List.length newColors) >? Z.of_nat ColorMapSize then
    CMError (mkColorMapValidationError startIndex
               "color range [%d:%d] exceeds color map bounds")
  else setRange_loop 0 startIndex newColors cmColors.

(** The loop of [GetRange]: [colors[i] = cm.colors[startIndex+i]]. *)
Fixpoint getRange_loop (n : nat) (i startIndex : Z) (cmColors colors : list Color)
  : ColorMapResult (list Color) :=
  match n with
  | O => CMOk colors
  | S n' =>
      match cmColors !! Z.to_nat (u16 (startIndex + i)) with
      | Some c => getRange_loop n' (i + 1) startIndex cmColors (<[Z.to_nat i := c]> colors)
      | None => CMPanic
      end
  end.

(** [ColorMap.GetRange(startIndex, count)]. *)
Definition ColorMap_GetRange (cmColors : list Color) (startIndex count : Z)
  : ColorMapResult (list Color) :=
  if startIndex >? Z.of_nat ColorMapSize - 1 then
    CMError (mkColorMapValidationError startIndex "start index exceeds color map bounds")
  else if startIndex + count >? Z.of_nat ColorMapSize then
    CMError (mkColorMapValidationError startIndex
               "color range [%d:%d] exceeds color map bounds")
  else getRange_loop (Z.to_nat count) 0 startIndex cmColors
         (repeat zeroColor (Z.to_nat count)).

(** [ColorFormatConverter.RGB8ToColor] and [ColorToRGB8]. *)
Definition RGB8ToColor (r g b : Z) : Color :=
  mkColor (u16 (r * 257)) (u16 (g * 257)) (u16 (b * 257)).

Definition ColorToRGB8 (color : Color) : Z * Z * Z :=
  (u8 (R color / 257), u8 (G color / 257), u8 (B color / 257)).

(** ** Pixel format converter (pixel_format.go) *)

Definition LittleEndian_PutUint16 (v : Z) : list Z :=
  [u8 v; u8 (Z.shiftr v 8)].
Definition LittleEndian_PutUint32 (v : Z) : list Z :=
  [u8 v; u8 (Z.shiftr v 8); u8 (Z.shiftr v 16); u8 (Z.shiftr v 24)].

(** [NewPixelFormatConverter(format)]: the converter is the format it
    holds. *)
Definition NewPixelFormatConverter (format : PixelFormat) : outcome PixelFormat :=
  match Validate format with
  | Some err =>
      Fail (validationError "NewPixelFormatConverter" "invalid pixel format" (Some err))
  | None => Ok format
  end.

(** One component of [ExtractRGB]: the masked value scaled to 8 bits in
    uint32 arithmetic and converted to a uint8. *)
Definition extractComponent (pixel shift max : Z) : Z :=
  let value := Z.land (Z.shiftr pixel shift) max in
  if max >? 0 then u8 (u32 (value * 255) / max) else 0.

(** [PixelFormatConverter.ExtractRGB(pixel)]. *)
Definition ExtractRGB (format : PixelFormat) (pixel : Z) : Z * Z * Z :=
  if negb (TrueColor format) then (0, 0, 0)
  else (extractComponent pixel (RedShift format) (RedMax format),
        extractComponent pixel (GreenShift format) (GreenMax format),
        extractComponent pixel (BlueShift format) (BlueMax format)).

(** [PixelFormatConverter.CreatePixel(r, g, b)]: a left shift of a
    uint32 drops the bits beyond 2^32. *)
Definition CreatePixel (format : PixelFormat) (r g b : Z) : Z :=
  if negb (TrueColor format) then 0
  else
    let redValue := u32 (r * RedMax format) / 255 in
    let greenValue := u32 (g * GreenMax format) / 255 in
    let blueValue := u32 (b * BlueMax format) / 255 in
    Z.lor (Z.lor (u32 (Z.shiftl redValue (RedShift format)))
                 (u32 (Z.shiftl greenValue (GreenShift format))))
          (u32 (Z.shiftl blueValue (BlueShift format))).

(** [PixelFormatConverter.BytesPerPixel]: [int(BPP) / 8]. *)
Definition Converter_BytesPerPixel (format : PixelFormat) : Z := BPP format / 8.

(** [PixelFormatConverter.ReadPixel(r)]: with a byte count other than 1,
    2 or 4 the pixel stays 0. *)
Definition ReadPixel (format : PixelFormat) (r : Reader) : outcome (Z * Reader) :=
  let bytesPerPixel := Converter_BytesPerPixel format in
  let! (pixelBytes, r) :=
    wrap (networkError "PixelFormatConverter.ReadPixel" "failed to read pixel data")
         (ReadFull (Z.to_nat bytesPerPixel) r) in
  let pixel :=
    if BigEndian format then
      if bytesPerPixel =? 1 then nth 0 pixelBytes 0
      else if bytesPerPixel =? 2 then BigEndian_Uint16 pixelBytes
      else if bytesPerPixel =? 4 then BigEndian_Uint32 pixelBytes
      else 0
    else
      if bytesPerPixel =? 1 then nth 0 pixelBytes 0
      else if bytesPerPixel =? 2 then LittleEndian_Uint16 pixelBytes
      else if bytesPerPixel =? 4 then LittleEndian_Uint32 pixelBytes
      else 0 in
  Ok (pixel, r).

(** The slice that [PixelFormatConverter.WritePixel(w, pixel)] hands to
    [w.Write]. *)
Definition WritePixel_bytes (format : PixelFormat) (pixel : Z) : list Z :=
  let bytesPerPixel := Converter_BytesPerPixel format in
  let pixelBytes := repeat 0 (Z.to_nat bytesPerPixel) in
  if BigEndian format then
    if bytesPerPixel =? 1 then [u8 (Z.land pixel 0xFF)]
    else if bytesPerPixel =? 2 then BigEndian_PutUint16 (u16 (Z.land pixel 0xFFFF))
    else if bytesPerPixel =? 4 then BigEndian_PutUint32 pixel
    else pixelBytes
  else
    if bytesPerPixel =? 1 then [u8 (Z.land pixel 0xFF)]
    else if bytesPerPixel =? 2 then LittleEndian_PutUint16 (u16 (Z.land pixel 0xFFFF))
    else if bytesPerPixel =? 4 then LittleEndian_PutUint32 pixel
    else pixelBytes.

(** [PixelFormatConverter.WritePixel(w, pixel)] on a writer that takes
    the bytes or fails: the bytes the writer took and the result. *)
Definition WritePixel (format : PixelFormat) (pixel : Z) (w : WriteResult)
  : list Z * option error :=
  let pixelBytes := WritePixel_bytes format pixel in
  match w with
  | WriteOk => (pixelBytes, None)
  | WriteFail n err =>
      (firstn n pixelBytes,
       Some (networkError "PixelFormatConverter.WritePixel" "failed to write pixel data"
               (Some err)))
  end.

(** Two 8-bit colour fields of a pixel do not overlap. *)
Definition fields_apart (s1 s2 : Z) : Prop := s1 + 8 <= s2 \/ s2 + 8 <= s1.

(** ** Reference definitions for the Hextile invariant *)

(** A sub-rectangle lies within a tile of the given size: it starts in
    the tile, is between 1 and 16 pixels wide and high, and does not
    pass the right or the bottom edge. *)
Definition sub_within (tileWidth tileHeight : Z) (s : Hextile.HextileSubrectangle) : Prop :=
  0 <= Hextile.Sub_X s /\ 0 <= Hextile.Sub_Y s
  /\ 1 <= Hextile.Sub_Width s <= 16 /\ 1 <= Hextile.Sub_Height s <= 16
  /\ Hextile.Sub_X s + Hextile.Sub_Width s <= tileWidth
  /\ Hextile.Sub_Y s + Hextile.Sub_Height s <= tileHeight.

(** All sub-rectangles of a tile lie within it. *)
Definition tile_ok (t : Hextile.HextileTile) : Prop :=
  Forall (sub_within (Hextile.Tile_Width t) (Hextile.Tile_Height t))
         (Hextile.Tile_Subrectangles t).

(** The state of the tile loops: the slice keeps its length, the tiles
    decoded so far are well formed, and the tiles from [tileIndex] on
    are still as they were allocated. *)
Definition hextile_progress (total : nat) (s : Hextile.TileLoop) : Prop :=
  List.length (Hextile.tiles s) = total
  /\ Forall tile_ok (Hextile.tiles s)
  /\ Forall (fun t => Hextile.Tile_Subrectangles t = [])
            (skipn (Hextile.tileIndex s) (Hextile.tiles s)).

(** A colour maximum without gaps: a value of the form [2^k - 1]. *)
Definition contiguous_mask (m : Z) : Prop := Z.land m (m + 1) = 0.

(* ===================================================================== *)
(** * Part II: properties                                                 *)
(* ===================================================================== *)

(** ** Basic facts about readers and fixed-width values *)

Lemma u16_bound (x : Z) : 0 <= u16 x < 65536.
Proof. unfold u16. apply Z.mod_pos_bound. lia. Qed.

Lemma u8_id (x : Z) : is_u8 x -> u8 x = x.
Proof. unfold is_u8, u8. intros H. apply Z.mod_small. lia. Qed.

Lemma u16_id (x : Z) : is_u16 x -> u16 x = x.
Proof. unfold is_u16, u16. intros H. apply Z.mod_small. lia. Qed.

Lemma ReadFull_app (bs rest : list Z) :
  ReadFull (List.length bs) (bs ++ rest) = Ok (bs, rest).
Proof.
  unfold ReadFull.
  assert (Hle : (List.length bs <=? List.length (bs ++ rest))%nat = true).
  { apply Nat.leb_le. rewrite length_app. lia. }
  rewrite Hle. f_equal. f_equal.
  - apply take_app_length.
  - apply drop_app_length.
Qed.

Lemma read_u8_cons (b : Z) (r : Reader) : read_u8 (b :: r) = Ok (b, r).
Proof. reflexivity. Qed.

Lemma read_u16_cons (a b : Z) (r : Reader) :
  read_u16 (a :: b :: r) = Ok (BigEndian_Uint16 [a; b], r).
Proof. reflexivity. Qed.

Lemma read_u32_cons (a b c d : Z) (r : Reader) :
  read_u32 (a :: b :: c :: d :: r) = Ok (BigEndian_Uint32 [a; b; c; d], r).
Proof. reflexivity. Qed.

(** ** C1: the Hextile tile cap *)

(** The product [tilesX * tilesY] is a uint16, so the comparison with
    [maxTiles] can never succeed. *)
Lemma Hextile_cap_check_never_fires (width height : Z) :
  (Hextile.totalTiles width height >? Hextile.maxTiles) = false.
Proof.
  unfold Hextile.totalTiles, Hextile.maxTiles.
  pose proof (u16_bound (Hextile.tilesAcross width * Hextile.tilesAcross height)).
  rewrite Z.gtb_ltb. apply Z.ltb_ge. lia.
Qed.

(** C1 (the code departs from the claim).  A rectangle of 8000 x 8000
    pixels needs 500 x 500 = 250000 tiles, more than the cap of 100000,
    but the uint16 product wraps to 53392: the cap check passes and the
    decoder goes on to read tile data (on an empty input it fails on the
    first subencoding byte, not on the cap).  For 8192 x 4096 the product
    131072 wraps to 0: the cap check passes, no tile is allocated and the
    first tile access is out of range whatever the input is; a
    FramebufferUpdate carrying that rectangle makes the parser panic. *)
Theorem Hextile_tile_cap_wraps :
  (forall width height : Z,
     (Hextile.totalTiles width height >? Hextile.maxTiles) = false)
  /\ ((8000 + 15) / 16) * ((8000 + 15) / 16) = 250000
  /\ Hextile.totalTiles 8000 8000 = 53392
  /\ Hextile.Read (mkClientState zeroColorMap 8000 8000 [] pf_rgb565) 0 0 8000 8000 []
     = Fail (encodingError "HextileEncoding.Read" "failed to read tile subencoding"
               (Some EOF))
  /\ Hextile.totalTiles 8192 4096 = 0
  /\ (forall r : Reader,
        Hextile.Read (mkClientState zeroColorMap 8192 4096 [] pf_rgb565) 0 0 8192 4096 r
        = Panic)
  /\ FramebufferUpdateMessage_Read
       (mkClientConn (mkClientState zeroColorMap 8192 4096 [] pf_rgb565)
          [HextileEncoding] [])
       [0; 0; 1; 0; 0; 0; 0; 32; 0; 16; 0; 0; 0; 0; 5]
     = Panic.
Proof.
  split; [exact Hextile_cap_check_never_fires|].
  split; [reflexivity|].
  split; [reflexivity|].
  split; [vm_compute; reflexivity|].
  split; [reflexivity|].
  split; [intros r; reflexivity|].
  vm_compute. reflexivity.
Qed.

(** ** C4: pixel-format validation *)

Lemma all_from_spec (p : Z -> bool) (n : nat) (z : Z) :
  all_from n z p = true -> forall k, z <= k < z + Z.of_nat n -> p k = true.
Proof.
  revert z. induction n as [|n IH]; intros z H k Hk.
  - lia.
  - cbn [all_from] in H. apply andb_prop in H as [Hz Hrest].
    destruct (Z.eq_dec k z) as [->|Hne]; [exact Hz|].
    apply (IH (z + 1) Hrest). lia.
Qed.

(** Kernighan's loop counts the set bits of every uint16. *)
Lemma countBits_popcount16 (v : Z) :
  is_u16 v -> InputValidator.countBits v = popcount16 v.
Proof.
  intros Hv.
  assert (Hall : all_from (Z.to_nat 65536) 0
                   (fun v => InputValidator.countBits v =? popcount16 v) = true)
    by (vm_compute; reflexivity).
  apply Z.eqb_eq. apply (all_from_spec _ _ _ Hall). unfold is_u16 in Hv. lia.
Qed.

(** The true-colour formats [ValidatePixelFormat] accepts. *)
Lemma ValidatePixelFormat_accepts_iff (pf : PixelFormat) :
  PixelFormat_wf pf -> TrueColor pf = true ->
  InputValidator.ValidatePixelFormat (Some pf) = None <->
  true_color_rule_of_code pf = true.
Proof.
  intros (Hb & Hd & Hr & Hg & Hbl & _) Htc.
  unfold InputValidator.ValidatePixelFormat, true_color_rule_of_code.
  rewrite Htc. cbn [existsb].
  rewrite !(countBits_popcount16 _ Hr), !(countBits_popcount16 _ Hg),
    !(countBits_popcount16 _ Hbl).
  unfold is_u8 in Hb, Hd.
  destruct (BPP pf =? 8) eqn:E8; [apply Z.eqb_eq in E8|];
  [|destruct (BPP pf =? 16) eqn:E16; [apply Z.eqb_eq in E16|];
    [|destruct (BPP pf =? 32) eqn:E32; [apply Z.eqb_eq in E32|]]];
  cbn [orb negb andb].
  4: { split; [discriminate|discriminate]. }
  all: assert (Hms : u8 (BPP pf - 1) = BPP pf - 1) by (apply u8_id; unfold is_u8; lia);
    rewrite Hms;
    destruct (Depth pf =? 0) eqn:D0; [apply Z.eqb_eq in D0|apply Z.eqb_neq in D0];
    destruct (Depth pf >? BPP pf) eqn:D1; rewrite Z.gtb_ltb in D1;
      [apply Z.ltb_lt in D1|apply Z.ltb_ge in D1|apply Z.ltb_lt in D1|apply Z.ltb_ge in D1];
    cbn [orb];
    try (split; [discriminate|];
         intros H; repeat (apply andb_prop in H as [H ?]);
         repeat match goal with
                | X : (_ <=? _) = true |- _ => apply Z.leb_le in X
                end; lia).
  all: assert (Hd1 : (1 <=? Depth pf) = true) by (apply Z.leb_le; lia);
    assert (Hd2 : (Depth pf <=? BPP pf) = true) by (apply Z.leb_le; lia);
    rewrite Hd1, Hd2; cbn [andb];
    destruct (RedMax pf =? 0), (GreenMax pf =? 0), (BlueMax pf =? 0);
    cbn [orb negb andb]; try (split; discriminate);
    rewrite !Z.geb_leb;
    rewrite (Z.leb_antisym (RedShift pf)), (Z.leb_antisym (GreenShift pf)),
      (Z.leb_antisym (BlueShift pf));
    destruct (RedShift pf <? BPP pf - 1), (GreenShift pf <? BPP pf - 1),
      (BlueShift pf <? BPP pf - 1);
    cbn [orb negb andb]; try (split; discriminate);
    rewrite Z.gtb_ltb, Z.ltb_antisym;
    match goal with |- context [negb ?b] => destruct b end;
    cbn [negb]; split; congruence.
Qed.

(** C4 (the code departs from the claim).  The format [pf_top_bit_red]
    is a true-colour format that satisfies the rule of the specification,
    with its red shift equal to bpp - 1 = 15.  [ValidatePixelFormat]
    rejects it as having too large a shift: it compares the shifts with
    [>= maxShift] where [maxShift] is bpp - 1.  [PixelFormat.Validate],
    which compares with [> maxShift], accepts it. *)
Theorem ValidatePixelFormat_rejects_shift_bpp_minus_1 :
  TrueColor pf_top_bit_red = true
  /\ RedShift pf_top_bit_red = BPP pf_top_bit_red - 1
  /\ true_color_rule pf_top_bit_red = true
  /\ InputValidator.ValidatePixelFormat (Some pf_top_bit_red)
     = Some (validationError "InputValidator.ValidatePixelFormat"
               "color shifts too large for %d BPP format" None)
  /\ Validate pf_top_bit_red = None.
Proof. repeat split. Qed.

(** ** C9: SetPixelFormat *)

(** A call that fails validation writes nothing and changes nothing. *)
Lemma SetPixelFormat_invalid (c : ClientConn) (format : option PixelFormat)
  (w : WriteResult) (err : error) :
  InputValidator.ValidatePixelFormat format = Some err ->
  SetPixelFormat c format w
  = (c, Fail (validationError "SetPixelFormat" "invalid pixel format" (Some err))).
Proof. intros H. unfold SetPixelFormat. rewrite H. reflexivity. Qed.

(** What a successful call does: the message goes out, the colour map is
    zeroed, and every other field, the pixel format included, keeps its
    value. *)
Lemma SetPixelFormat_success (c c' : ClientConn) (format : PixelFormat) (w : WriteResult) :
  SetPixelFormat c (Some format) w = (c', Ok tt) ->
  ColorMap (state c') = zeroColorMap
  /\ PixelFormat_ (state c') = PixelFormat_ (state c)
  /\ FrameBufferWidth (state c') = FrameBufferWidth (state c)
  /\ FrameBufferHeight (state c') = FrameBufferHeight (state c)
  /\ DesktopName (state c') = DesktopName (state c)
  /\ Encs c' = Encs c
  /\ exists pfBytes, writePixelFormat format = Ok pfBytes
       /\ sent c' = sent c ++ [0; 0; 0; 0] ++ firstn 16 (pfBytes ++ repeat 0 16).
Proof.
  unfold SetPixelFormat.
  destruct (InputValidator.ValidatePixelFormat (Some format)); [discriminate|].
  destruct (writePixelFormat format) as [pfBytes| |]; try discriminate.
  destruct w as [|n e]; cbn [writeWithContext]; [|discriminate].
  intros H. injection H as <-. cbn.
  repeat split. exists pfBytes. split; reflexivity.
Qed.

(** C9 (the code departs from the claim).  On [sample_conn], whose pixel
    format is 32-bit true colour, a successful [SetPixelFormat] to RGB565
    sends the 20-byte message and zeroes the colour map, and leaves the
    framebuffer size, the desktop name and the encodings alone, but the
    stored pixel format is still the 32-bit one, not the format that was
    set.  [SetEncodings], the sibling method, does store its argument. *)
Theorem SetPixelFormat_does_not_store_format :
  exists c',
    SetPixelFormat sample_conn (Some pf_rgb565) WriteOk = (c', Ok tt)
    /\ sent c' = [0; 0; 0; 0; 16; 16; 0; 1; 0; 31; 0; 63; 0; 31; 11; 5; 0; 0; 0; 0]
    /\ ColorMap (state c') = zeroColorMap
    /\ FrameBufferWidth (state c') = 800
    /\ FrameBufferHeight (state c') = 600
    /\ DesktopName (state c') = [100; 101; 115; 107]
    /\ Encs c' = Encs sample_conn
    /\ PixelFormat_ (state c') = pf_rgb888
    /\ PixelFormat_ (state c') <> pf_rgb565.
Proof.
  eexists. split; [reflexivity|]. cbn. repeat split. discriminate.
Qed.

(** ** C10: an empty desktop name in ServerInit *)

Lemma readPixelFormat_16 (bs rest : list Z) (result : PixelFormat) :
  List.length bs = 16%nat ->
  exists pf, readPixelFormat (bs ++ rest) result = Ok (pf, rest).
Proof.
  intros Hlen.
  do 16 (destruct bs as [|? bs]; [discriminate|]).
  destruct bs; [|discriminate]. clear Hlen.
  unfold readPixelFormat. cbn.
  match goal with |- context [negb (?b =? 0)] => destruct (negb (b =? 0)) end;
    eexists; reflexivity.
Qed.

Lemma ValidateMessageLength_zero (maxLength : Z) :
  InputValidator.ValidateMessageLength 0 maxLength
  = Some (validationError "InputValidator.ValidateMessageLength"
            "message length cannot be zero" None).
Proof. reflexivity. Qed.

Lemma ValidateMessageLength_above (length maxLength : Z) :
  maxLength < length ->
  InputValidator.ValidateMessageLength length maxLength <> None.
Proof.
  intros H. unfold InputValidator.ValidateMessageLength.
  destruct (length =? 0); [discriminate|].
  assert (Hgt : (length >? maxLength) = true)
    by (rewrite Z.gtb_ltb; apply Z.ltb_lt; lia).
  rewrite Hgt. discriminate.
Qed.

Lemma ValidateMessageLength_accepts (length maxLength : Z) :
  InputValidator.ValidateMessageLength length maxLength = None <->
  length <> 0 /\ length <= maxLength.
Proof.
  unfold InputValidator.ValidateMessageLength.
  destruct (length =? 0) eqn:E0; [apply Z.eqb_eq in E0|apply Z.eqb_neq in E0].
  - split; [discriminate|lia].
  - rewrite Z.gtb_ltb.
    destruct (maxLength <? length) eqn:E1;
      [apply Z.ltb_lt in E1|apply Z.ltb_ge in E1].
    + split; [discriminate|lia].
    + split; [intros _; lia|reflexivity].
Qed.

(** The ServerInit part of the handshake on a message whose name length
    is zero: whatever the 20 bytes before the length are, the result is a
    Protocol error. *)
Lemma handshake_ServerInit_empty_name (IsPrint_wide : Z -> bool) (c : ClientConn)
  (hdr rest : list Z) :
  List.length hdr = 20%nat ->
  exists e,
    handshake_ServerInit IsPrint_wide c (hdr ++ [0; 0; 0; 0] ++ rest) = Fail e
    /\ GetErrorCode e = Some ErrProtocol
    /\ (forall pf,
          InputValidator.ValidateFramebufferDimensions
            (BigEndian_Uint16 (firstn 2 hdr)) (BigEndian_Uint16 (firstn 2 (skipn 2 hdr)))
          = None ->
          readPixelFormat (skipn 4 hdr) zeroPixelFormat = Ok (pf, []) ->
          InputValidator.ValidatePixelFormat (Some pf) = None ->
          e = protocolError "handshake" "server sent invalid desktop name length"
                (Some (validationError "InputValidator.ValidateMessageLength"
                         "message length cannot be zero" None))).
Proof.
  intros Hlen.
  destruct hdr as [|w0 [|w1 [|h0 [|h1 pfb]]]]; try discriminate.
  assert (Hpf : List.length pfb = 16%nat) by (cbn in Hlen; lia).
  change (firstn 2 (w0 :: w1 :: h0 :: h1 :: pfb)) with [w0; w1].
  change (firstn 2 (skipn 2 (w0 :: w1 :: h0 :: h1 :: pfb))) with [h0; h1].
  change (skipn 4 (w0 :: w1 :: h0 :: h1 :: pfb)) with pfb.
  unfold handshake_ServerInit.
  cbn [app]. rewrite read_u16_cons. cbn [wrap obind].
  rewrite read_u16_cons. cbn [wrap obind].
  destruct (InputValidator.ValidateFramebufferDimensions _ _) as [err|] eqn:Hdim.
  { eexists. split; [reflexivity|]. split; [reflexivity|]. intros pf H. discriminate. }
  destruct (readPixelFormat_16 pfb ([0; 0; 0; 0] ++ rest) zeroPixelFormat Hpf)
    as [pf Hread].
  cbn [app] in Hread. rewrite Hread. cbn [wrap obind PixelFormat_].
  destruct (InputValidator.ValidatePixelFormat (Some pf)) as [err|] eqn:Hval.
  { eexists. split; [reflexivity|]. split; [reflexivity|].
    intros pf' _ Hread' Hval'.
    destruct (readPixelFormat_16 pfb [] zeroPixelFormat Hpf) as [pf2 Hread2].
    rewrite app_nil_r in Hread2. rewrite Hread2 in Hread'.
    injection Hread' as <-.
    assert (pf2 = pf); [|subst; congruence].
    clear - Hread Hread2 Hpf.
    do 16 (destruct pfb as [|? pfb]; [discriminate|]).
    destruct pfb; [|discriminate].
    unfold readPixelFormat in Hread, Hread2. cbn in Hread, Hread2.
    match type of Hread with
    | context [negb (?b =? 0)] => destruct (negb (b =? 0))
    end; congruence. }
  rewrite read_u32_cons. cbn [wrap obind].
  change (BigEndian_Uint32 [0; 0; 0; 0]) with 0.
  rewrite ValidateMessageLength_zero.
  eexists. split; [reflexivity|]. split; [reflexivity|]. intros; reflexivity.
Qed.

(** C10.  When the handshake reaches ServerInit and the server's message
    carries a desktop-name length of 0 (after the 20 bytes of width,
    height and pixel format), the handshake returns a Protocol error and
    [ClientWithContext] closes the connection instead of starting the
    reader task; when the dimensions and the pixel format are valid the
    error is the one of the length check.  The length check rejects 0 and
    every value above the maximum, and nothing else. *)
Theorem ServerInit_empty_desktop_name_fails (IsPrint_wide : Z -> bool)
  (handshake_prefix : ClientConn -> Reader -> outcome (ClientConn * Reader))
  (c c1 : ClientConn) (r hdr rest : list Z) :
  handshake_prefix c r = Ok (c1, hdr ++ [0; 0; 0; 0] ++ rest) ->
  List.length hdr = 20%nat ->
  (exists e,
     handshakeWithContext IsPrint_wide handshake_prefix c r = Fail e
     /\ GetErrorCode e = Some ErrProtocol
     /\ ClientWithContext IsPrint_wide handshake_prefix c r = Closed e
     /\ (forall pf,
           InputValidator.ValidateFramebufferDimensions
             (BigEndian_Uint16 (firstn 2 hdr)) (BigEndian_Uint16 (firstn 2 (skipn 2 hdr)))
           = None ->
           readPixelFormat (skipn 4 hdr) zeroPixelFormat = Ok (pf, []) ->
           InputValidator.ValidatePixelFormat (Some pf) = None ->
           e = protocolError "handshake" "server sent invalid desktop name length"
                 (Some (validationError "InputValidator.ValidateMessageLength"
                          "message length cannot be zero" None))))
  /\ (forall length : Z,
        InputValidator.ValidateMessageLength length maxDesktopNameLength = None <->
        length <> 0 /\ length <= 1024 * 1024).
Proof.
  intros Hprefix Hlen. split.
  - destruct (handshake_ServerInit_empty_name IsPrint_wide c1 hdr rest Hlen)
      as (e & Hfail & Hcode & Hcause).
    exists e. unfold ClientWithContext, handshakeWithContext.
    rewrite Hprefix. cbn [obind]. rewrite Hfail. auto.
  - intros length. apply ValidateMessageLength_accepts.
Qed.

(** A mock server for the statement above: no authentication, then a
    ServerInit of 800 x 600, 32-bit true colour, with an empty name. *)
Lemma ServerInit_empty_desktop_name_fails_witness :
  exists e,
    handshakeWithContext (fun _ => true) (fun c r => Ok (c, r)) sample_conn
      ([3; 32; 2; 88; 32; 24; 0; 1; 0; 255; 0; 255; 0; 255; 16; 8; 0; 0; 0; 0]
       ++ [0; 0; 0; 0] ++ []) = Fail e
    /\ GetErrorCode e = Some ErrProtocol.
Proof.
  destruct (ServerInit_empty_desktop_name_fails (fun _ => true) (fun c r => Ok (c, r))
              sample_conn sample_conn
              ([3; 32; 2; 88; 32; 24; 0; 1; 0; 255; 0; 255; 0; 255; 16; 8; 0; 0; 0; 0]
               ++ [0; 0; 0; 0] ++ [])
              [3; 32; 2; 88; 32; 24; 0; 1; 0; 255; 0; 255; 0; 255; 16; 8; 0; 0; 0; 0]
              [] eq_refl eq_refl) as [(e & H1 & H2 & _) _].
  exists e. split; assumption.
Defined.

(** ** Bit-level facts *)

Lemma lor_shiftl_add (lo hi k : Z) :
  0 <= k -> 0 <= lo < 2 ^ k -> Z.lor lo (Z.shiftl hi k) = lo + hi * 2 ^ k.
Proof.
  intros Hk Hlo.
  rewrite Z.shiftl_mul_pow2 by lia.
  assert (Hland : Z.land lo (hi * 2 ^ k) = 0).
  { apply Z.bits_inj'. intros n Hn.
    rewrite Z.land_spec, Z.bits_0.
    destruct (Z.lt_ge_cases n k) as [Hlt|Hge].
    - rewrite Z.mul_pow2_bits_low by lia. apply andb_false_r.
    - rewrite <- (Z.mod_small lo (2 ^ k)) by lia.
      rewrite Z.mod_pow2_bits_high by lia. reflexivity. }
  rewrite <- Z.lxor_lor by exact Hland.
  symmetry. apply Z.add_nocarry_lxor. exact Hland.
Qed.

Lemma land_upper_bound (a m : Z) : 0 <= a -> 0 <= m -> 0 <= Z.land a m <= m.
Proof.
  intros Ha Hm. split.
  - apply Z.land_nonneg. auto.
  - rewrite <- (Z2N.id a), <- (Z2N.id m) by assumption.
    rewrite <- N2Z.inj_land. apply N2Z.inj_le. apply N.land_le_r.
Qed.

Lemma be16_roundtrip (v : Z) :
  is_u16 v -> BigEndian_Uint16 (BigEndian_PutUint16 v) = v.
Proof.
  intros Hv.
  assert (Hall : all_from (Z.to_nat 65536) 0
                   (fun v => BigEndian_Uint16 (BigEndian_PutUint16 v) =? v) = true)
    by (vm_compute; reflexivity).
  apply Z.eqb_eq. apply (all_from_spec _ _ _ Hall). unfold is_u16 in Hv. lia.
Qed.

(** ** C5: the wire form of a pixel format *)

Lemma writePixelFormat_length (p : PixelFormat) :
  exists bs, writePixelFormat p = Ok bs /\ List.length bs = 16%nat.
Proof.
  unfold writePixelFormat.
  destruct (TrueColor p); eexists; split; reflexivity.
Qed.

Lemma wire_image_id (p : PixelFormat) :
  wire_image p = p <->
  TrueColor p = true
  \/ (RedMax p = 0 /\ GreenMax p = 0 /\ BlueMax p = 0
      /\ RedShift p = 0 /\ GreenShift p = 0 /\ BlueShift p = 0).
Proof.
  unfold wire_image. destruct p as [bpp depth be tc rm gm bm rs gs bs].
  cbn. destruct tc.
  - split; auto.
  - split.
    + intros H. right. injection H as <- <- <- <- <- <-. repeat split.
    + intros [H|(-> & -> & -> & -> & -> & ->)]; [discriminate|reflexivity].
Qed.

(** C5 (counterexample).  The claim as stated fails: a colour-mapped
    format whose maxima are filled in does not survive the round trip,
    because the maxima and shifts are neither written nor read when
    [TrueColor] is unset. *)
Lemma pixel_format_roundtrip_not_identity :
  ~ (forall p : PixelFormat,
       PixelFormat_wf p ->
       exists bs, writePixelFormat p = Ok bs
                  /\ List.length bs = 16%nat
                  /\ readPixelFormat bs zeroPixelFormat = Ok (p, [])).
Proof.
  intros H.
  destruct (H pf_indexed_with_maxima) as (bs & Hw & _ & Hr).
  { unfold PixelFormat_wf, is_u8, is_u16. cbn. lia. }
  vm_compute in Hw. injection Hw as <-.
  vm_compute in Hr. discriminate.
Qed.

(** C5 (amended).  For every pixel format, [writePixelFormat] succeeds
    with exactly 16 bytes, and [readPixelFormat] on those bytes, decoding
    into a zero-initialised format, consumes exactly them and yields the
    format itself when it is true colour, and the format with its maxima
    and shifts zeroed when it is not; so the round trip is the identity
    exactly on the true-colour formats and on the colour-mapped formats
    whose maxima and shifts are all zero. *)
Theorem pixel_format_wire_roundtrip (p : PixelFormat) :
  PixelFormat_wf p ->
  exists bs,
    writePixelFormat p = Ok bs
    /\ List.length bs = 16%nat
    /\ (forall rest, readPixelFormat (bs ++ rest) zeroPixelFormat = Ok (wire_image p, rest))
    /\ (wire_image p = p <->
        TrueColor p = true
        \/ (RedMax p = 0 /\ GreenMax p = 0 /\ BlueMax p = 0
            /\ RedShift p = 0 /\ GreenShift p = 0 /\ BlueShift p = 0)).
Proof.
  intros (Hb & Hd & Hr & Hg & Hbl & Hrs & Hgs & Hbs).
  destruct (writePixelFormat_length p) as (bs & Hw & Hlen).
  exists bs. split; [exact Hw|]. split; [exact Hlen|].
  split; [|apply wire_image_id].
  intros rest. unfold wire_image.
  destruct p as [bpp depth be tc rm gm bm rs gs bs'].
  cbn [BPP Depth BigEndian TrueColor RedMax GreenMax BlueMax
       RedShift GreenShift BlueShift] in *.
  unfold writePixelFormat in Hw.
  cbn [BPP Depth BigEndian TrueColor RedMax GreenMax BlueMax
       RedShift GreenShift BlueShift] in Hw.
  destruct tc.
  - assert (Hbytes : bs = [u8 bpp; u8 depth; if be then 1 else 0; 1]
                          ++ BigEndian_PutUint16 rm ++ BigEndian_PutUint16 gm
                          ++ BigEndian_PutUint16 bm ++ [u8 rs; u8 gs; u8 bs'; 0; 0; 0]).
    { destruct be; injection Hw as <-; reflexivity. }
    subst bs.
    transitivity
      (@Ok (PixelFormat * Reader)
         (mkPixelFormat (u8 bpp) (u8 depth) be true
            (BigEndian_Uint16 (BigEndian_PutUint16 rm))
            (BigEndian_Uint16 (BigEndian_PutUint16 gm))
            (BigEndian_Uint16 (BigEndian_PutUint16 bm))
            (u8 rs) (u8 gs) (u8 bs'), rest)).
    + destruct be; reflexivity.
    + rewrite !be16_roundtrip, !u8_id by assumption. reflexivity.
  - assert (Hbytes : bs = [u8 bpp; u8 depth; if be then 1 else 0; 0]
                          ++ repeat 0 12).
    { destruct be; injection Hw as <-; reflexivity. }
    subst bs.
    transitivity
      (@Ok (PixelFormat * Reader)
         (mkPixelFormat (u8 bpp) (u8 depth) be false 0 0 0 0 0 0, rest)).
    + destruct be; reflexivity.
    + rewrite !u8_id by assumption. reflexivity.
Qed.

Lemma pixel_format_wire_roundtrip_witness :
  exists bs,
    writePixelFormat pf_rgb565 = Ok bs
    /\ List.length bs = 16%nat
    /\ readPixelFormat (bs ++ []) zeroPixelFormat = Ok (pf_rgb565, []).
Proof.
  destruct (pixel_format_wire_roundtrip pf_rgb565) as (bs & Hw & Hl & Hr & _).
  { unfold PixelFormat_wf, is_u8, is_u16. cbn. lia. }
  exists bs. split; [exact Hw|]. split; [exact Hl|]. exact (Hr []).
Defined.

(** ** C6: reading one pixel *)

Lemma Uint16_assemble (big : bool) (a b : Z) :
  is_u8 a -> is_u8 b ->
  byteOrder_Uint16 big [a; b] = assemble big [a; b]
  /\ 0 <= assemble big [a; b] < 2 ^ 16.
Proof.
  unfold is_u8. intros Ha Hb.
  unfold byteOrder_Uint16, BigEndian_Uint16, LittleEndian_Uint16, assemble.
  cbn [nth fold_left fold_right].
  destruct big; rewrite lor_shiftl_add by lia; lia.
Qed.

Lemma Uint32_assemble (big : bool) (a b c d : Z) :
  is_u8 a -> is_u8 b -> is_u8 c -> is_u8 d ->
  byteOrder_Uint32 big [a; b; c; d] = assemble big [a; b; c; d]
  /\ 0 <= assemble big [a; b; c; d] < 2 ^ 32.
Proof.
  unfold is_u8. intros Ha Hb Hc Hd.
  unfold byteOrder_Uint32, BigEndian_Uint32, LittleEndian_Uint32, assemble.
  cbn [nth fold_left fold_right].
  destruct big.
  - rewrite (lor_shiftl_add d c 8) by lia.
    rewrite (lor_shiftl_add _ b 16) by lia.
    rewrite (lor_shiftl_add _ a 24) by lia. lia.
  - rewrite (lor_shiftl_add a b 8) by lia.
    rewrite (lor_shiftl_add _ c 16) by lia.
    rewrite (lor_shiftl_add _ d 24) by lia. lia.
Qed.

(** [bytesToPixel] on [bpp/8] bytes is the value of those bytes in the
    byte order of the format. *)
Lemma bytesToPixel_assemble (pf : PixelFormat) (cm : list Color) (bs : list Z) :
  BPP pf = 8 \/ BPP pf = 16 \/ BPP pf = 32 ->
  List.length bs = Z.to_nat (BPP pf / 8) ->
  Forall is_u8 bs ->
  bytesToPixel (NewPixelReader pf cm) bs = assemble (BigEndian pf) bs
  /\ 0 <= assemble (BigEndian pf) bs < 2 ^ BPP pf.
Proof.
  intros Hbpp Hlen Hbytes.
  unfold bytesToPixel, NewPixelReader. cbn [pixelFormat byteOrderBig].
  assert (Hbo : (if BigEndian pf then true else false) = BigEndian pf)
    by (destruct (BigEndian pf); reflexivity).
  rewrite Hbo.
  destruct Hbpp as [E|[E|E]]; rewrite E in *; cbn [Z.eqb Pos.eqb] in *.
  - change (Z.to_nat (8 / 8)) with 1%nat in Hlen.
    destruct bs as [|a [|? ?]]; try discriminate.
    inversion Hbytes as [|? ? Ha _]; subst. unfold is_u8 in Ha.
    unfold assemble. cbn [nth fold_left fold_right].
    destruct (BigEndian pf); lia.
  - change (Z.to_nat (16 / 8)) with 2%nat in Hlen.
    destruct bs as [|a [|b [|? ?]]]; try discriminate.
    inversion Hbytes as [|? ? Ha Hb']; subst.
    inversion Hb' as [|? ? Hb _]; subst.
    apply Uint16_assemble; assumption.
  - change (Z.to_nat (32 / 8)) with 4%nat in Hlen.
    destruct bs as [|a [|b [|c [|d [|? ?]]]]]; try discriminate.
    inversion Hbytes as [|? ? Ha H1]; subst.
    inversion H1 as [|? ? Hb H2]; subst.
    inversion H2 as [|? ? Hc H3]; subst.
    inversion H3 as [|? ? Hd _]; subst.
    apply Uint32_assemble; assumption.
Qed.

Lemma component_unscaled (raw shift max : Z) :
  0 <= raw -> is_u16 max ->
  u16 (Z.land (Z.shiftr raw shift) max) = Z.land (Z.shiftr raw shift) max
  /\ 0 <= Z.land (Z.shiftr raw shift) max <= max.
Proof.
  unfold is_u16. intros Hraw Hmax.
  assert (Hs : 0 <= Z.shiftr raw shift) by (apply Z.shiftr_nonneg; exact Hraw).
  pose proof (land_upper_bound (Z.shiftr raw shift) max Hs (proj1 Hmax)) as Hb.
  split; [|exact Hb].
  apply u16_id. unfold is_u16. lia.
Qed.

(** C6.  For a pixel format with bpp 8, 16 or 32, [ReadPixelColor]
    consumes exactly the bpp/8 bytes of the pixel and leaves the rest of
    the input; the raw value is the value of those bytes in the byte
    order the [BigEndian] flag selects.  With [TrueColor] set the colour
    is [(raw >> shift) & max] per component, stored as it is (at most
    the maximum, so within a uint16).  Without it the colour is the entry
    of the colour map at index [raw]; the lookup succeeds when [raw] is
    an index of the 256-entry map, which it always is at 8 bpp. *)
Theorem ReadPixelColor_spec (pf : PixelFormat) (cm : list Color) (bs rest : list Z) :
  PixelFormat_wf pf ->
  BPP pf = 8 \/ BPP pf = 16 \/ BPP pf = 32 ->
  List.length bs = Z.to_nat (BPP pf / 8) ->
  Forall is_u8 bs ->
  let raw := assemble (BigEndian pf) bs in
  let pr := NewPixelReader pf cm in
  0 <= raw < 2 ^ BPP pf
  /\ (BPP pf = 8 -> raw <= 255)
  /\ (TrueColor pf = true ->
      ReadPixelColor pr (bs ++ rest)
      = Ok (mkColor (Z.land (Z.shiftr raw (RedShift pf)) (RedMax pf))
                    (Z.land (Z.shiftr raw (GreenShift pf)) (GreenMax pf))
                    (Z.land (Z.shiftr raw (BlueShift pf)) (BlueMax pf)), rest)
      /\ 0 <= Z.land (Z.shiftr raw (RedShift pf)) (RedMax pf) <= RedMax pf
      /\ 0 <= Z.land (Z.shiftr raw (GreenShift pf)) (GreenMax pf) <= GreenMax pf
      /\ 0 <= Z.land (Z.shiftr raw (BlueShift pf)) (BlueMax pf) <= BlueMax pf)
  /\ (TrueColor pf = false ->
      ReadPixelColor pr (bs ++ rest)
      = match cm !! Z.to_nat raw with
        | Some c => Ok (c, rest)
        | None => Panic
        end)
  /\ (TrueColor pf = false -> List.length cm = ColorMapSize -> raw <= 255 ->
      exists c, cm !! Z.to_nat raw = Some c
                /\ ReadPixelColor pr (bs ++ rest) = Ok (c, rest)).
Proof.
  intros Hwf Hbpp Hlen Hbytes raw pr.
  destruct (bytesToPixel_assemble pf cm bs Hbpp Hlen Hbytes) as [Hraw Hrange].
  fold raw in Hraw, Hrange. fold pr in Hraw.
  assert (Hread : ReadPixelColor pr (bs ++ rest)
                  = let! c := pixelToColor pr raw in Ok (c, rest)).
  { unfold ReadPixelColor, BytesPerPixel. subst pr. cbn [pixelFormat NewPixelReader].
    rewrite <- Hlen, ReadFull_app. cbn [obind]. rewrite Hraw. reflexivity. }
  assert (Hmap : TrueColor pf = false ->
                 ReadPixelColor pr (bs ++ rest)
                 = match cm !! Z.to_nat raw with
                   | Some c => Ok (c, rest)
                   | None => Panic
                   end).
  { intros Htc. rewrite Hread. unfold pixelToColor. subst pr.
    cbn [pixelFormat colorMap NewPixelReader]. rewrite Htc.
    destruct (cm !! Z.to_nat raw); reflexivity. }
  split; [exact Hrange|].
  split; [intros E; rewrite E in Hrange; lia|].
  split; [|split; [exact Hmap|]].
  - intros Htc.
    destruct Hwf as (_ & _ & Hr & Hg & Hb & _).
    destruct (component_unscaled raw (RedShift pf) (RedMax pf) (proj1 Hrange) Hr)
      as [Er Br].
    destruct (component_unscaled raw (GreenShift pf) (GreenMax pf) (proj1 Hrange) Hg)
      as [Eg Bg].
    destruct (component_unscaled raw (BlueShift pf) (BlueMax pf) (proj1 Hrange) Hb)
      as [Eb Bb].
    split; [|auto].
    rewrite Hread. unfold pixelToColor. subst pr.
    cbn [pixelFormat NewPixelReader]. rewrite Htc. cbn [obind].
    rewrite Er, Eg, Eb. reflexivity.
  - intros Htc Hcm Hle.
    destruct (lookup_lt_is_Some_2 cm (Z.to_nat raw)) as [c Hc].
    { rewrite Hcm. unfold ColorMapSize. lia. }
    exists c. split; [exact Hc|]. rewrite (Hmap Htc), Hc. reflexivity.
Qed.

(** Scenario 4 of the specification, first pixel: RGB888 little-endian,
    bytes 00 00 FF 00. *)
Lemma ReadPixelColor_spec_witness :
  ReadPixelColor (NewPixelReader pf_rgb888 zeroColorMap) ([0; 0; 255; 0] ++ [0; 255; 0; 0])
  = Ok (mkColor 255 0 0, [0; 255; 0; 0]).
Proof.
  assert (Hwf : PixelFormat_wf pf_rgb888)
    by (unfold PixelFormat_wf, is_u8, is_u16; cbn; lia).
  assert (Hbytes : Forall is_u8 [0; 0; 255; 0])
    by (repeat constructor; unfold is_u8; lia).
  destruct (ReadPixelColor_spec pf_rgb888 zeroColorMap [0; 0; 255; 0] [0; 255; 0; 0]
              Hwf (or_intror (or_intror eq_refl)) eq_refl Hbytes)
    as (_ & _ & Htrue & _).
  destruct (Htrue eq_refl) as [Hread _]. exact Hread.
Defined.

(** ** C3: the DES challenge response *)

(** The lookup table reverses the bits of every byte. *)
Lemma reverseBitsSecure_reverse_bits (b : Z) :
  is_u8 b -> reverseBitsSecure b = reverse_bits b.
Proof.
  intros Hb.
  assert (Hall : all_from 256 0 (fun b => reverseBitsSecure b =? reverse_bits b) = true)
    by (vm_compute; reflexivity).
  apply Z.eqb_eq. apply (all_from_spec _ _ _ Hall). unfold is_u8 in Hb. lia.
Qed.

(** The key loop takes the first 8 bytes of the password, zero-padded,
    through the table. *)
Lemma prepareKey_table (password : list Z) :
  prepareKey password = map reverseBitsSecure (firstn 8 (password ++ repeat 0 8)).
Proof.
  do 9 (destruct password as [|? password]; [reflexivity|]).
  reflexivity.
Qed.

Lemma prepareKey_length (password : list Z) : List.length (prepareKey password) = 8%nat.
Proof. reflexivity. Qed.

Lemma firstn_app_pad (password : list Z) :
  firstn 8 (firstn 8 password ++ repeat 0 8) = firstn 8 (password ++ repeat 0 8).
Proof.
  do 8 (destruct password as [|? password]; [reflexivity|]).
  reflexivity.
Qed.

Lemma prepareKey_prefix (password : list Z) :
  prepareKey (firstn 8 password) = prepareKey password.
Proof. rewrite !prepareKey_table, firstn_app_pad. reflexivity. Qed.

Lemma prepareKey_vnc_key (password : list Z) :
  Forall is_u8 password -> prepareKey password = vnc_key password.
Proof.
  intros Hpw. rewrite prepareKey_table. unfold vnc_key.
  apply map_ext_in. intros b Hin.
  apply reverseBitsSecure_reverse_bits.
  apply list_elem_of_In in Hin.
  apply elem_of_take in Hin as (i & Hi & _).
  apply lookup_app_Some in Hi as [Hi|[_ Hi]].
  - rewrite Forall_lookup in Hpw. exact (Hpw _ _ Hi).
  - apply list_elem_of_lookup_2, list_elem_of_In, repeat_spec in Hi.
    subst b. unfold is_u8. lia.
Qed.

(** The response only depends on the prepared key. *)
Lemma EncryptVNCChallenge_key (cryptBlock : list Z -> Z -> Z)
  (password challenge : list Z) :
  List.length challenge = 16%nat ->
  EncryptVNCChallenge cryptBlock password challenge
  = Ok (des_ecb_block cryptBlock (prepareKey password) (firstn 8 challenge)
        ++ des_ecb_block cryptBlock (prepareKey password) (skipn 8 challenge)).
Proof.
  intros Hlen.
  unfold EncryptVNCChallenge, VNCChallengeSize, DESKeySize.
  replace (firstn 16 challenge) with challenge
    by (rewrite <- Hlen; symmetry; apply firstn_all).
  rewrite Hlen. cbn [Nat.eqb negb].
  unfold NewCipher. rewrite prepareKey_length. cbn [Nat.eqb wrap obind].
  unfold Encrypt.
  assert (H1 : (List.length (firstn 8 challenge) <? 8)%nat = false).
  { apply Nat.ltb_ge. rewrite length_take. lia. }
  assert (H2 : (List.length (skipn 8 challenge) <? 8)%nat = false).
  { apply Nat.ltb_ge. rewrite length_drop. lia. }
  rewrite H1, H2. reflexivity.
Qed.

(** C3.  For a 16-byte challenge, the response is the concatenation of
    the single-DES-ECB encryptions of the two halves of the challenge
    under the VNC key of the password: its first 8 bytes, zero-padded to
    8, each bit-reversed.  The response is 16 bytes long, it is the same
    for a password and for its 8-byte prefix, and more generally for any
    two passwords with the same first 8 bytes; the byte 0x31 is reversed
    to 0x8C. *)
Theorem EncryptVNCChallenge_spec (cryptBlock : list Z -> Z -> Z)
  (password challenge : list Z) :
  List.length challenge = 16%nat ->
  Forall is_u8 password ->
  EncryptVNCChallenge cryptBlock password challenge
  = Ok (des_ecb_block cryptBlock (vnc_key password) (firstn 8 challenge)
        ++ des_ecb_block cryptBlock (vnc_key password) (skipn 8 challenge))
  /\ List.length (des_ecb_block cryptBlock (vnc_key password) (firstn 8 challenge)
                  ++ des_ecb_block cryptBlock (vnc_key password) (skipn 8 challenge))
     = 16%nat
  /\ EncryptVNCChallenge cryptBlock (firstn 8 password) challenge
     = EncryptVNCChallenge cryptBlock password challenge
  /\ (forall password' : list Z,
        firstn 8 password' = firstn 8 password ->
        EncryptVNCChallenge cryptBlock password' challenge
        = EncryptVNCChallenge cryptBlock password challenge)
  /\ reverseBitsSecure 0x31 = 0x8C
  /\ reverse_bits 0x31 = 0x8C.
Proof.
  intros Hlen Hpw.
  split; [rewrite (EncryptVNCChallenge_key _ _ _ Hlen), (prepareKey_vnc_key _ Hpw);
          reflexivity|].
  split; [reflexivity|].
  split; [rewrite !(EncryptVNCChallenge_key _ _ _ Hlen), prepareKey_prefix; reflexivity|].
  split; [|split; reflexivity].
  intros password' Hpre.
  rewrite !(EncryptVNCChallenge_key _ _ _ Hlen).
  rewrite <- (prepareKey_prefix password'), <- (prepareKey_prefix password), Hpre.
  reflexivity.
Qed.

(** Scenario 3 of the specification: the password 123456 and the
    challenge 00 .. 0F; the key starts with 0x8C. *)
Lemma EncryptVNCChallenge_spec_witness :
  EncryptVNCChallenge xor_cipher [0x31; 0x32; 0x33; 0x34; 0x35; 0x36]
    [0; 1; 2; 3; 4; 5; 6; 7; 8; 9; 10; 11; 12; 13; 14; 15]
  = Ok (des_ecb_block xor_cipher [0x8C; 0x4C; 0xCC; 0x2C; 0xAC; 0x6C; 0; 0]
          [0; 1; 2; 3; 4; 5; 6; 7]
        ++ des_ecb_block xor_cipher [0x8C; 0x4C; 0xCC; 0x2C; 0xAC; 0x6C; 0; 0]
             [8; 9; 10; 11; 12; 13; 14; 15]).
Proof.
  assert (Hpw : Forall is_u8 [0x31; 0x32; 0x33; 0x34; 0x35; 0x36])
    by (repeat constructor; unfold is_u8; lia).
  destruct (EncryptVNCChallenge_spec xor_cipher [0x31; 0x32; 0x33; 0x34; 0x35; 0x36]
              [0; 1; 2; 3; 4; 5; 6; 7; 8; 9; 10; 11; 12; 13; 14; 15] eq_refl Hpw)
    as [H _].
  exact H.
Defined.

(** ** C8: bounds validation of rectangles *)

Lemma ValidateRectangle_accepts (c : ClientState) (rect : Rectangle) :
  is_u16 (X rect) -> is_u16 (Y rect) -> is_u16 (Width rect) -> is_u16 (Height rect) ->
  InputValidator.ValidateRectangle (X rect) (Y rect) (Width rect) (Height rect)
    (FrameBufferWidth c) (FrameBufferHeight c) = None
  <-> within_framebuffer c rect.
Proof.
  unfold is_u16, within_framebuffer, InputValidator.ValidateRectangle.
  intros Hx Hy Hw Hh.
  destruct (Width rect =? 0) eqn:Ew; [apply Z.eqb_eq in Ew|apply Z.eqb_neq in Ew];
    cbn [orb]; [split; [discriminate|lia]|].
  destruct (Height rect =? 0) eqn:Eh; [apply Z.eqb_eq in Eh|apply Z.eqb_neq in Eh];
    [split; [discriminate|lia]|].
  rewrite !(u16_id (65535 - _)) by (unfold is_u16; lia).
  rewrite !Z.gtb_ltb.
  destruct (65535 - Width rect <? X rect) eqn:Eox;
    [apply Z.ltb_lt in Eox|apply Z.ltb_ge in Eox];
    cbn [orb]; [split; [discriminate|lia]|].
  destruct (65535 - Height rect <? Y rect) eqn:Eoy;
    [apply Z.ltb_lt in Eoy|apply Z.ltb_ge in Eoy];
    [split; [discriminate|lia]|].
  rewrite !u16_id by (unfold is_u16; lia).
  destruct (FrameBufferWidth c <? X rect + Width rect) eqn:Efx;
    [apply Z.ltb_lt in Efx|apply Z.ltb_ge in Efx];
    cbn [orb]; [split; [discriminate|lia]|].
  destruct (FrameBufferHeight c <? Y rect + Height rect) eqn:Efy;
    [apply Z.ltb_lt in Efy|apply Z.ltb_ge in Efy];
    [split; [discriminate|lia]|].
  split; [intros _; lia|reflexivity].
Qed.

(** A pseudo-encoding type is only checked for its magnitude. *)
Lemma ValidateEncodingType_negative (encodingType : Z) :
  encodingType < 0 ->
  InputValidator.ValidateEncodingType encodingType
  = if encodingType <? -1000000
    then Some (validationError "InputValidator.ValidateEncodingType"
                 "pseudo-encoding type too negative: %d" None)
    else None.
Proof.
  intros Hneg. unfold InputValidator.ValidateEncodingType.
  assert (E : (encodingType >=? 0) = false)
    by (rewrite Z.geb_leb; apply Z.leb_gt; lia).
  rewrite E.
  destruct (existsb _ _) eqn:Ein; [|reflexivity].
  cbn [existsb] in Ein.
  repeat (apply orb_prop in Ein as [Ein|Ein];
          [apply Z.eqb_eq in Ein; subst; reflexivity|]).
  discriminate.
Qed.

Lemma ValidateEncodingType_nonnegative (encodingType : Z) (err : error) :
  0 <= encodingType ->
  InputValidator.ValidateEncodingType encodingType = Some err ->
  1000000 < encodingType.
Proof.
  intros Hpos. unfold InputValidator.ValidateEncodingType.
  assert (E : (encodingType >=? 0) = true)
    by (rewrite Z.geb_leb; apply Z.leb_le; lia).
  rewrite E.
  destruct (existsb _ _); [discriminate|].
  rewrite Z.gtb_ltb.
  destruct (1000000 <? encodingType) eqn:E1; [|discriminate].
  intros _. apply Z.ltb_lt. exact E1.
Qed.

Lemma selectEncoding_nonnegative (c : ClientState) (encMap : gmap Z Encoding)
  (rect : Rectangle) (encodingType : Z) :
  is_u16 (X rect) -> is_u16 (Y rect) -> is_u16 (Width rect) -> is_u16 (Height rect) ->
  0 <= encodingType ->
  (forall enc, selectEncoding c encMap rect encodingType = Ok enc ->
               within_framebuffer c rect /\ encMap !! encodingType = Some enc)
  /\ (~ within_framebuffer c rect ->
      exists e, selectEncoding c encMap rect encodingType = Fail e
                /\ GetErrorCode e = Some ErrProtocol).
Proof.
  intros Hx Hy Hw Hh Hpos.
  pose proof (ValidateRectangle_accepts c rect Hx Hy Hw Hh) as Hrect.
  unfold selectEncoding.
  assert (E : (encodingType <? 0) = false) by (apply Z.ltb_ge; lia).
  rewrite E. cbn [negb].
  destruct (InputValidator.ValidateEncodingType encodingType) as [err|].
  { split; [discriminate|]. intros _. eexists. split; reflexivity. }
  destruct (InputValidator.ValidateRectangle _ _ _ _ _ _) as [err|]; cbn [obind].
  { split; [discriminate|]. intros _. eexists. split; reflexivity. }
  split.
  - intros enc Henc. split; [apply Hrect; reflexivity|].
    destruct (encMap !! encodingType); [|discriminate]. congruence.
  - intros Hout. exfalso. apply Hout, Hrect. reflexivity.
Qed.

Lemma selectEncoding_negative (c : ClientState) (encMap : gmap Z Encoding)
  (rect : Rectangle) (encodingType : Z) :
  encodingType < 0 ->
  selectEncoding c encMap rect encodingType
  = if encodingType <? -1000000
    then Fail (protocolError "FramebufferUpdateMessage.Read"
                 "invalid encoding type for rectangle %d"
                 (Some (validationError "InputValidator.ValidateEncodingType"
                          "pseudo-encoding type too negative: %d" None)))
    else match encMap !! encodingType with
         | Some enc => Ok enc
         | None => Fail (unsupportedError "FramebufferUpdateMessage.Read"
                           "unsupported encoding type: %d" None)
         end.
Proof.
  intros Hneg. unfold selectEncoding.
  rewrite (ValidateEncodingType_negative _ Hneg).
  destruct (encodingType <? -1000000); [reflexivity|].
  assert (E : (encodingType <? 0) = true) by (apply Z.ltb_lt; lia).
  rewrite E. reflexivity.
Qed.

Lemma BigEndian_Uint16_range (a b : Z) :
  is_u8 a -> is_u8 b -> is_u16 (BigEndian_Uint16 [a; b]).
Proof.
  intros Ha Hb. destruct (Uint16_assemble true a b Ha Hb) as [E Hr].
  cbn [byteOrder_Uint16] in E. rewrite E. exact Hr.
Qed.

(** The body of the rectangle loop on a 12-byte header: the decoder is
    called exactly when
    [selectEncoding] succeeds, on the rectangle of the header.  When the
    encoding type is non-negative, [selectEncoding] succeeds only for a
    rectangle within the framebuffer (non-empty, no uint16 overflow of
    x+width and y+height, far edges within the framebuffer), and
    otherwise the loop body fails with a Protocol error.  When the
    encoding type is negative, the outcome of [selectEncoding] is decided
    by the type alone (its magnitude and the decoder table): neither the
    rectangle nor the framebuffer size is consulted. *)
Lemma readRectangle_bounds (encMap : gmap Z Encoding) (i : Z)
  (s : UpdateLoop) (b0 b1 b2 b3 b4 b5 b6 b7 b8 b9 b10 b11 : Z) (rest : list Z) :
  Forall is_u8 [b0; b1; b2; b3; b4; b5; b6; b7] ->
  input s = [b0; b1; b2; b3; b4; b5; b6; b7; b8; b9; b10; b11] ++ rest ->
  let rect := mkRectangle (BigEndian_Uint16 [b0; b1]) (BigEndian_Uint16 [b2; b3])
                (BigEndian_Uint16 [b4; b5]) (BigEndian_Uint16 [b6; b7]) None in
  let encodingType := int32_of_u32 (BigEndian_Uint32 [b8; b9; b10; b11]) in
  readRectangle encMap i s
  = (let! enc := selectEncoding (conn s) encMap rect encodingType in
     let! (decoded, r) :=
       wrap (encodingError "FramebufferUpdateMessage.Read"
               "failed to read rectangle encoding data")
            (Read enc (conn s) rect rest) in
     Ok (mkUpdateLoop
           (match dec_Handle decoded with
            | Some handle => handle (conn s)
            | None => conn s
            end)
           (rects s ++ [mkRectangle (X rect) (Y rect) (Width rect) (Height rect)
                          (Some decoded)]) r))
  /\ (0 <= encodingType ->
      (forall enc, selectEncoding (conn s) encMap rect encodingType = Ok enc ->
                   within_framebuffer (conn s) rect
                   /\ encMap !! encodingType = Some enc)
      /\ (~ within_framebuffer (conn s) rect ->
          exists e, selectEncoding (conn s) encMap rect encodingType = Fail e
                    /\ readRectangle encMap i s = Fail e
                    /\ GetErrorCode e = Some ErrProtocol))
  /\ (encodingType < 0 ->
      selectEncoding (conn s) encMap rect encodingType
      = if encodingType <? -1000000
        then Fail (protocolError "FramebufferUpdateMessage.Read"
                     "invalid encoding type for rectangle %d"
                     (Some (validationError "InputValidator.ValidateEncodingType"
                              "pseudo-encoding type too negative: %d" None)))
        else match encMap !! encodingType with
             | Some enc => Ok enc
             | None => Fail (unsupportedError "FramebufferUpdateMessage.Read"
                               "unsupported encoding type: %d" None)
             end).
Proof.
  intros Hbytes Hinput rect encodingType.
  assert (Hbody : readRectangle encMap i s
    = (let! enc := selectEncoding (conn s) encMap rect encodingType in
       let! (decoded, r) :=
         wrap (encodingError "FramebufferUpdateMessage.Read"
                 "failed to read rectangle encoding data")
              (Read enc (conn s) rect rest) in
       Ok (mkUpdateLoop
             (match dec_Handle decoded with
              | Some handle => handle (conn s)
              | None => conn s
              end)
             (rects s ++ [mkRectangle (X rect) (Y rect) (Width rect) (Height rect)
                            (Some decoded)]) r))).
  { unfold readRectangle. rewrite Hinput. reflexivity. }
  split; [exact Hbody|].
  split; [|apply selectEncoding_negative].
  intros Hpos.
  assert (Hx : is_u16 (X rect) /\ is_u16 (Y rect)
               /\ is_u16 (Width rect) /\ is_u16 (Height rect)).
  { subst rect. cbn [X Y Width Height].
    rewrite !Forall_cons in Hbytes.
    destruct Hbytes as (H0 & H1 & H2 & H3 & H4 & H5 & H6 & H7 & _).
    repeat split; apply BigEndian_Uint16_range; assumption. }
  destruct Hx as (Hx & Hy & Hw & Hh).
  destruct (selectEncoding_nonnegative (conn s) encMap rect encodingType
              Hx Hy Hw Hh Hpos) as [Hok Hfail].
  split; [exact Hok|].
  intros Hout. destruct (Hfail Hout) as (e & He & Hcode).
  exists e. split; [exact He|]. split; [|exact Hcode].
  rewrite Hbody, He. reflexivity.
Qed.

Lemma for_loop_app {St : Type} (k m : nat) (i : Z) (body : Z -> St -> outcome St)
  (s : St) :
  for_loop (k + m) i body s
  = (let! s' := for_loop k i body s in for_loop m (i + Z.of_nat k) body s').
Proof.
  revert i s. induction k as [|k IH]; intros i s.
  - cbn [for_loop obind Nat.add]. rewrite Z.add_0_r. reflexivity.
  - cbn [for_loop Nat.add]. destruct (body i s) as [s1| |]; cbn [obind]; try reflexivity.
    rewrite IH. replace (i + 1 + Z.of_nat k) with (i + Z.of_nat (S k)) by lia.
    reflexivity.
Qed.

(** C8.  Take a FramebufferUpdate message of [numRects] rectangles whose
    first [k] rectangles were decoded, and the 12-byte header of the next
    one.  Its decoder is called exactly when [selectEncoding] succeeds,
    on the rectangle of the header.  When the encoding type is
    non-negative, [selectEncoding] succeeds only for a rectangle within
    the current framebuffer (non-empty, no uint16 overflow of x+width and
    y+height, far edges within the framebuffer), and otherwise
    [FramebufferUpdateMessage.Read] fails with a Protocol error.  When
    the encoding type is negative, the outcome of [selectEncoding] is
    decided by the type alone (its magnitude and the decoder table):
    neither the rectangle nor the framebuffer size is consulted. *)
Theorem FramebufferUpdate_rectangle_bounds (c : ClientConn) (pad n0 n1 : Z)
  (r0 : list Z) (k : nat) (sk : UpdateLoop)
  (b0 b1 b2 b3 b4 b5 b6 b7 b8 b9 b10 b11 : Z) (rest : list Z) :
  BigEndian_Uint16 [n0; n1] <= MaxRectanglesPerUpdate ->
  Z.of_nat k < BigEndian_Uint16 [n0; n1] ->
  for_loop k 0 (readRectangle (buildEncMap (Encs c))) (mkUpdateLoop (state c) [] r0)
  = Ok sk ->
  input sk = [b0; b1; b2; b3; b4; b5; b6; b7; b8; b9; b10; b11] ++ rest ->
  Forall is_u8 [b0; b1; b2; b3; b4; b5; b6; b7] ->
  let encMap := buildEncMap (Encs c) in
  let rect := mkRectangle (BigEndian_Uint16 [b0; b1]) (BigEndian_Uint16 [b2; b3])
                (BigEndian_Uint16 [b4; b5]) (BigEndian_Uint16 [b6; b7]) None in
  let encodingType := int32_of_u32 (BigEndian_Uint32 [b8; b9; b10; b11]) in
  readRectangle encMap (Z.of_nat k) sk
  = (let! enc := selectEncoding (conn sk) encMap rect encodingType in
     let! (decoded, r) :=
       wrap (encodingError "FramebufferUpdateMessage.Read"
               "failed to read rectangle encoding data")
            (Read enc (conn sk) rect rest) in
     Ok (mkUpdateLoop
           (match dec_Handle decoded with
            | Some handle => handle (conn sk)
            | None => conn sk
            end)
           (rects sk ++ [mkRectangle (X rect) (Y rect) (Width rect) (Height rect)
                           (Some decoded)]) r))
  /\ (0 <= encodingType ->
      (forall enc, selectEncoding (conn sk) encMap rect encodingType = Ok enc ->
                   within_framebuffer (conn sk) rect
                   /\ encMap !! encodingType = Some enc)
      /\ (~ within_framebuffer (conn sk) rect ->
          exists e, selectEncoding (conn sk) encMap rect encodingType = Fail e
                    /\ FramebufferUpdateMessage_Read c (pad :: n0 :: n1 :: r0) = Fail e
                    /\ GetErrorCode e = Some ErrProtocol))
  /\ (encodingType < 0 ->
      selectEncoding (conn sk) encMap rect encodingType
      = if encodingType <? -1000000
        then Fail (protocolError "FramebufferUpdateMessage.Read"
                     "invalid encoding type for rectangle %d"
                     (Some (validationError "InputValidator.ValidateEncodingType"
                              "pseudo-encoding type too negative: %d" None)))
        else match encMap !! encodingType with
             | Some enc => Ok enc
             | None => Fail (unsupportedError "FramebufferUpdateMessage.Read"
                               "unsupported encoding type: %d" None)
             end).
Proof.
  intros Hmax Hk Hloop Hinput Hbytes encMap rect encodingType.
  destruct (readRectangle_bounds encMap (Z.of_nat k) sk
              b0 b1 b2 b3 b4 b5 b6 b7 b8 b9 b10 b11 rest Hbytes Hinput)
    as (Hbody & Hnonneg & Hneg).
  split; [exact Hbody|]. split; [|exact Hneg].
  intros Hpos. destruct (Hnonneg Hpos) as [Hok Hfail].
  split; [exact Hok|].
  intros Hout. destruct (Hfail Hout) as (e & Hsel & Hread & Hcode).
  exists e. split; [exact Hsel|]. split; [|exact Hcode].
  unfold FramebufferUpdateMessage_Read.
  change (ReadFull 1 (pad :: n0 :: n1 :: r0)) with (@Ok (list Z * Reader) ([pad], n0 :: n1 :: r0)).
  cbn [wrap obind]. rewrite read_u16_cons. cbn [wrap obind].
  assert (E : (BigEndian_Uint16 [n0; n1] >? MaxRectanglesPerUpdate) = false)
    by (rewrite Z.gtb_ltb; apply Z.ltb_ge; exact Hmax).
  rewrite E.
  replace (Z.to_nat (BigEndian_Uint16 [n0; n1]))
    with (k + S (Z.to_nat (BigEndian_Uint16 [n0; n1]) - S k))%nat by lia.
  rewrite for_loop_app. fold encMap. fold encMap in Hloop. rewrite Hloop.
  cbn [obind for_loop]. rewrite Z.add_0_l, Hread. reflexivity.
Qed.

(** Scenario 7 of the specification: a FramebufferUpdate with one Raw
    rectangle (1900, 0, 101, 100) against a framebuffer of 1920 x 1080;
    the rectangle extends past the right edge and the parser fails with
    a Protocol error. *)
Lemma FramebufferUpdate_rectangle_bounds_witness :
  exists e,
    FramebufferUpdateMessage_Read
      (mkClientConn (mkClientState zeroColorMap 1920 1080 [] pf_rgb888) [] [])
      (0 :: 0 :: 1 :: [7; 108; 0; 0; 0; 101; 0; 100; 0; 0; 0; 0] ++ [])
    = Fail e
    /\ GetErrorCode e = Some ErrProtocol.
Proof.
  assert (Hbytes : Forall is_u8 [7; 108; 0; 0; 0; 101; 0; 100])
    by (repeat constructor; unfold is_u8; lia).
  destruct (FramebufferUpdate_rectangle_bounds
              (mkClientConn (mkClientState zeroColorMap 1920 1080 [] pf_rgb888) [] [])
              0 0 1 ([7; 108; 0; 0; 0; 101; 0; 100; 0; 0; 0; 0] ++ []) 0
              (mkUpdateLoop (mkClientState zeroColorMap 1920 1080 [] pf_rgb888) []
                 ([7; 108; 0; 0; 0; 101; 0; 100; 0; 0; 0; 0] ++ []))
              7 108 0 0 0 101 0 100 0 0 0 0 []
              ltac:(vm_compute; discriminate) ltac:(vm_compute; reflexivity)
              eq_refl eq_refl Hbytes)
    as (_ & Hnonneg & _).
  destruct (Hnonneg ltac:(vm_compute; discriminate)) as [_ Hfail].
  destruct Hfail as (e & _ & Hread & Hcode).
  { unfold within_framebuffer. vm_compute. intros (_ & _ & _ & _ & H & _).
    apply H. reflexivity. }
  exists e. split; assumption.
Defined.

(** ** C7: background and foreground carried from tile to tile *)

(** Inversion of a successful monadic computation, one step at a time. *)
Ltac bind_inv H :=
  repeat match type of H with
  | obind (if ?b then _ else _) _ = Ok _ => destruct b eqn:?
  | obind (wrap _ ?m) _ = Ok _ =>
      destruct m as [[? ?]| |] eqn:?; cbn [wrap obind] in H; try discriminate H
  | obind (Ok _) _ = Ok _ => cbn [obind] in H
  | obind (Fail _) _ = Ok _ => discriminate H
  | obind ?m _ = Ok _ =>
      destruct m as [[? ?]| |] eqn:?; cbn [obind] in H; try discriminate H
  | (if ?b then _ else _) = Ok _ => destruct b eqn:?; try discriminate H
  end.

(** One tile.  A raw tile leaves the running background and foreground
    as they were.  Any other tile records the running colours as they
    are after it; without [BackgroundSpecified] its background is the
    running background it started with, and likewise for the
    foreground. *)
Lemma read_tile_running_colours (c : ClientState)
  (rectWidth rectHeight tileY tileX : Z) (s s' : Hextile.TileLoop)
  (subencoding : Z) (rest : list Z) :
  Hextile.rd s = subencoding :: rest ->
  Hextile.read_tile c rectWidth rectHeight tileY tileX s = Ok s' ->
  exists tile,
    Hextile.tiles s' !! Hextile.tileIndex s = Some tile
    /\ Hextile.tileIndex s' = S (Hextile.tileIndex s)
    /\ (Z.land subencoding Hextile.HextileRaw <> 0 ->
        Hextile.background s' = Hextile.background s
        /\ Hextile.foreground s' = Hextile.foreground s)
    /\ (Z.land subencoding Hextile.HextileRaw = 0 ->
        Hextile.Tile_Background tile = Hextile.background s'
        /\ Hextile.Tile_Foreground tile = Hextile.foreground s'
        /\ (Z.land subencoding Hextile.HextileBackgroundSpecified = 0 ->
            Hextile.Tile_Background tile = Hextile.background s)
        /\ (Z.land subencoding Hextile.HextileForegroundSpecified = 0 ->
            Hextile.Tile_Foreground tile = Hextile.foreground s)).
Proof.
  intros Hrd H. unfold Hextile.read_tile in H.
  destruct (Hextile.tiles s !! Hextile.tileIndex s) as [tile0|] eqn:Hlk; [|discriminate].
  pose proof (lookup_lt_Some _ _ _ Hlk) as Hlt.
  rewrite Hrd, read_u8_cons in H. cbn [wrap obind] in H.
  destruct (Z.land subencoding Hextile.HextileRaw =? 0) eqn:Eraw;
    [apply Z.eqb_eq in Eraw|apply Z.eqb_neq in Eraw]; cbn [negb] in H.
  - destruct (Z.land subencoding Hextile.HextileBackgroundSpecified =? 0) eqn:Ebg;
      [apply Z.eqb_eq in Ebg|apply Z.eqb_neq in Ebg];
    (destruct (Z.land subencoding Hextile.HextileForegroundSpecified =? 0) eqn:Efg;
      [apply Z.eqb_eq in Efg|apply Z.eqb_neq in Efg]);
    cbn [negb] in H; bind_inv H;
    injection H as <-; cbn [Hextile.tiles Hextile.tileIndex Hextile.background
                              Hextile.foreground];
    (eexists; split; [apply list_lookup_insert_eq; exact Hlt|]);
    cbn [Hextile.Tile_Background Hextile.Tile_Foreground];
    (split; [reflexivity|]); (split; [intros Hc; contradiction|]);
    intros _; repeat split; intros; try reflexivity; contradiction.
  - bind_inv H.
    injection H as <-. cbn [Hextile.tiles Hextile.tileIndex Hextile.background
                              Hextile.foreground].
    eexists. split; [apply list_lookup_insert_eq; exact Hlt|].
    split; [reflexivity|]. split; [intros _; split; reflexivity|].
    intros Hc. contradiction.
Qed.

(** Two tiles decoded one after the other, neither of them raw: when the
    second lacks [BackgroundSpecified] it has the background of the
    first, and when it lacks [ForegroundSpecified] it has its
    foreground. *)
Lemma read_tile_consecutive (c : ClientState)
  (rectWidth rectHeight tileY1 tileX1 tileY2 tileX2 : Z)
  (s s1 s2 : Hextile.TileLoop) (sub1 sub2 : Z) (rest1 rest2 : list Z) :
  Hextile.rd s = sub1 :: rest1 ->
  Hextile.read_tile c rectWidth rectHeight tileY1 tileX1 s = Ok s1 ->
  Hextile.rd s1 = sub2 :: rest2 ->
  Hextile.read_tile c rectWidth rectHeight tileY2 tileX2 s1 = Ok s2 ->
  Z.land sub1 Hextile.HextileRaw = 0 ->
  Z.land sub2 Hextile.HextileRaw = 0 ->
  exists tile1 tile2,
    Hextile.tiles s1 !! Hextile.tileIndex s = Some tile1
    /\ Hextile.tiles s2 !! S (Hextile.tileIndex s) = Some tile2
    /\ (Z.land sub2 Hextile.HextileBackgroundSpecified = 0 ->
        Hextile.Tile_Background tile2 = Hextile.Tile_Background tile1)
    /\ (Z.land sub2 Hextile.HextileForegroundSpecified = 0 ->
        Hextile.Tile_Foreground tile2 = Hextile.Tile_Foreground tile1).
Proof.
  intros Hrd1 H1 Hrd2 H2 Hplain1 Hplain2.
  destruct (read_tile_running_colours _ _ _ _ _ _ _ _ _ Hrd1 H1)
    as (tile1 & Hlk1 & Hidx1 & _ & Hcol1).
  destruct (read_tile_running_colours _ _ _ _ _ _ _ _ _ Hrd2 H2)
    as (tile2 & Hlk2 & _ & _ & Hcol2).
  destruct (Hcol1 Hplain1) as (Hbg1 & Hfg1 & _).
  destruct (Hcol2 Hplain2) as (_ & _ & Hbg2 & Hfg2).
  exists tile1, tile2. rewrite <- Hidx1.
  split; [exact Hlk1|]. split; [exact Hlk2|].
  split; intros Hflag.
  - rewrite (Hbg2 Hflag), Hbg1. reflexivity.
  - rewrite (Hfg2 Hflag), Hfg1. reflexivity.
Qed.

(** The two kinds of tile of scenario 5. *)
Lemma read_tile_background_specified (c : ClientState)
  (rectWidth rectHeight tileY tileX : Z) (s : Hextile.TileLoop)
  (tile : Hextile.HextileTile) (r r' : list Z) (color : Color) :
  Hextile.tiles s !! Hextile.tileIndex s = Some tile ->
  Hextile.rd s = 2 :: r ->
  readPixelColor r (PixelFormat_ c) (ColorMap c) = Ok (color, r') ->
  Hextile.read_tile c rectWidth rectHeight tileY tileX s
  = Ok (Hextile.mkTileLoop
          (<[Hextile.tileIndex s :=
               Hextile.mkTile (Hextile.tileExtent rectWidth tileX)
                 (Hextile.tileExtent rectHeight tileY) color (Hextile.foreground s)
                 (Hextile.Tile_Colors tile) (Hextile.Tile_Subrectangles tile)]>
             (Hextile.tiles s))
          (S (Hextile.tileIndex s)) color (Hextile.foreground s) r').
Proof.
  intros Hlk Hrd Hpx. unfold Hextile.read_tile.
  rewrite Hlk, Hrd, read_u8_cons. cbn [wrap obind].
  change (Z.land 2 Hextile.HextileRaw =? 0) with true.
  change (Z.land 2 Hextile.HextileBackgroundSpecified =? 0) with false.
  change (Z.land 2 Hextile.HextileForegroundSpecified =? 0) with true.
  change (Z.land 2 Hextile.HextileAnySubrects =? 0) with true.
  cbn [negb]. rewrite Hpx. reflexivity.
Qed.

Lemma read_tile_plain (c : ClientState)
  (rectWidth rectHeight tileY tileX : Z) (s : Hextile.TileLoop)
  (tile : Hextile.HextileTile) (r : list Z) :
  Hextile.tiles s !! Hextile.tileIndex s = Some tile ->
  Hextile.rd s = 0 :: r ->
  Hextile.read_tile c rectWidth rectHeight tileY tileX s
  = Ok (Hextile.mkTileLoop
          (<[Hextile.tileIndex s :=
               Hextile.mkTile (Hextile.tileExtent rectWidth tileX)
                 (Hextile.tileExtent rectHeight tileY)
                 (Hextile.background s) (Hextile.foreground s)
                 (Hextile.Tile_Colors tile) (Hextile.Tile_Subrectangles tile)]>
             (Hextile.tiles s))
          (S (Hextile.tileIndex s)) (Hextile.background s) (Hextile.foreground s) r).
Proof.
  intros Hlk Hrd. unfold Hextile.read_tile.
  rewrite Hlk, Hrd, read_u8_cons. reflexivity.
Qed.

(** Scenario 5: a rectangle of two 16 x 16 tiles, the first with
    subencoding 0x02 and one pixel, the second with subencoding 0x00. *)
Lemma Hextile_two_tiles (c : ClientState) (x y : Z) (px rest : list Z) (color : Color) :
  (if (FrameBufferWidth c >? 0) && (FrameBufferHeight c >? 0)
   then InputValidator.ValidateRectangle x y 32 16
          (FrameBufferWidth c) (FrameBufferHeight c)
   else None) = None ->
  readPixelColor (px ++ 0 :: rest) (PixelFormat_ c) (ColorMap c)
  = Ok (color, 0 :: rest) ->
  Hextile.Read c x y 32 16 (2 :: px ++ 0 :: rest)
  = Ok ([Hextile.mkTile 16 16 color zeroColor [] [];
         Hextile.mkTile 16 16 color zeroColor [] []], rest).
Proof.
  intros Hcheck Hpx. unfold Hextile.Read.
  assert (Hpre : (if (FrameBufferWidth c >? 0) && (FrameBufferHeight c >? 0)
                  then match InputValidator.ValidateRectangle x y 32 16
                               (FrameBufferWidth c) (FrameBufferHeight c) with
                       | Some err =>
                           Fail (encodingError "HextileEncoding.Read"
                                   "invalid rectangle dimensions" (Some err))
                       | None => Ok tt
                       end
                  else Ok tt) = Ok tt).
  { destruct ((FrameBufferWidth c >? 0) && (FrameBufferHeight c >? 0));
      [rewrite Hcheck|]; reflexivity. }
  rewrite Hpre. cbn [obind].
  change (Hextile.totalTiles 32 16) with 2.
  change (Hextile.tilesAcross 32) with 2.
  change (Hextile.tilesAcross 16) with 1.
  change (2 >? Hextile.maxTiles) with false. cbn iota.
  change (Z.to_nat 1) with 1%nat. change (Z.to_nat 2) with 2%nat.
  cbn [repeat for_loop].
  erewrite read_tile_background_specified; [|reflexivity|reflexivity|exact Hpx].
  cbn [obind].
  erewrite read_tile_plain; [|reflexivity|reflexivity].
  reflexivity.
Qed.

(** C7.  In the tile loop of [HextileEncoding.Read] the running
    background and foreground are part of the state that goes from one
    tile to the next.  A tile that is not raw and lacks
    [BackgroundSpecified] gets the running background it started with;
    one that lacks [ForegroundSpecified] gets the running foreground; a
    raw tile leaves both running colours untouched.  Hence, of two
    tiles decoded one after the other and neither raw, the second has
    the background of the first when it lacks the flag.  In particular, for
    a rectangle of two 16 x 16 tiles whose data is the subencoding 0x02
    with one pixel and then the subencoding 0x00, both tiles have the
    colour of that pixel as their background. *)
Theorem Hextile_background_inherited :
  (forall (c : ClientState) (rectWidth rectHeight tileY tileX : Z)
          (s s' : Hextile.TileLoop) (subencoding : Z) (rest : list Z),
     Hextile.rd s = subencoding :: rest ->
     Hextile.read_tile c rectWidth rectHeight tileY tileX s = Ok s' ->
     exists tile,
       Hextile.tiles s' !! Hextile.tileIndex s = Some tile
       /\ Hextile.tileIndex s' = S (Hextile.tileIndex s)
       /\ (Z.land subencoding Hextile.HextileRaw <> 0 ->
           Hextile.background s' = Hextile.background s
           /\ Hextile.foreground s' = Hextile.foreground s)
       /\ (Z.land subencoding Hextile.HextileRaw = 0 ->
           Hextile.Tile_Background tile = Hextile.background s'
           /\ Hextile.Tile_Foreground tile = Hextile.foreground s'
           /\ (Z.land subencoding Hextile.HextileBackgroundSpecified = 0 ->
               Hextile.Tile_Background tile = Hextile.background s)
           /\ (Z.land subencoding Hextile.HextileForegroundSpecified = 0 ->
               Hextile.Tile_Foreground tile = Hextile.foreground s)))
  /\ (forall (c : ClientState)
             (rectWidth rectHeight tileY1 tileX1 tileY2 tileX2 : Z)
             (s s1 s2 : Hextile.TileLoop) (sub1 sub2 : Z) (rest1 rest2 : list Z),
        Hextile.rd s = sub1 :: rest1 ->
        Hextile.read_tile c rectWidth rectHeight tileY1 tileX1 s = Ok s1 ->
        Hextile.rd s1 = sub2 :: rest2 ->
        Hextile.read_tile c rectWidth rectHeight tileY2 tileX2 s1 = Ok s2 ->
        Z.land sub1 Hextile.HextileRaw = 0 ->
        Z.land sub2 Hextile.HextileRaw = 0 ->
        exists tile1 tile2,
          Hextile.tiles s1 !! Hextile.tileIndex s = Some tile1
          /\ Hextile.tiles s2 !! S (Hextile.tileIndex s) = Some tile2
          /\ (Z.land sub2 Hextile.HextileBackgroundSpecified = 0 ->
              Hextile.Tile_Background tile2 = Hextile.Tile_Background tile1)
          /\ (Z.land sub2 Hextile.HextileForegroundSpecified = 0 ->
              Hextile.Tile_Foreground tile2 = Hextile.Tile_Foreground tile1))
  /\ (forall (c : ClientState) (x y : Z) (px rest : list Z) (color : Color),
        (if (FrameBufferWidth c >? 0) && (FrameBufferHeight c >? 0)
         then InputValidator.ValidateRectangle x y 32 16
                (FrameBufferWidth c) (FrameBufferHeight c)
         else None) = None ->
        readPixelColor (px ++ 0 :: rest) (PixelFormat_ c) (ColorMap c)
        = Ok (color, 0 :: rest) ->
        Hextile.Read c x y 32 16 (2 :: px ++ 0 :: rest)
        = Ok ([Hextile.mkTile 16 16 color zeroColor [] [];
               Hextile.mkTile 16 16 color zeroColor [] []], rest)).
Proof.
  split; [exact read_tile_running_colours|].
  split; [exact read_tile_consecutive|].
  exact Hextile_two_tiles.
Qed.

(** Scenario 5 with RGB888 little-endian and the red pixel 00 00 FF 00,
    on a 1920 x 1080 framebuffer. *)
Lemma Hextile_background_inherited_witness :
  (exists tile,
     [Hextile.mkTile 16 16 (mkColor 255 0 0) zeroColor [] [];
      Hextile.mkTile 16 16 (mkColor 255 0 0) zeroColor [] []] !! 1%nat = Some tile
     /\ Hextile.Tile_Background tile = mkColor 255 0 0)
  /\ Hextile.Read (mkClientState zeroColorMap 1920 1080 [] pf_rgb888) 0 0 32 16
       (2 :: [0; 0; 255; 0] ++ 0 :: [])
     = Ok ([Hextile.mkTile 16 16 (mkColor 255 0 0) zeroColor [] [];
            Hextile.mkTile 16 16 (mkColor 255 0 0) zeroColor [] []], []).
Proof.
  split.
  - destruct (proj1 Hextile_background_inherited
                (mkClientState zeroColorMap 1920 1080 [] pf_rgb888) 32 16 0 1
                (Hextile.mkTileLoop
                   [Hextile.mkTile 16 16 (mkColor 255 0 0) zeroColor [] [];
                    Hextile.zeroTile] 1 (mkColor 255 0 0) zeroColor [0])
                (Hextile.mkTileLoop
                   [Hextile.mkTile 16 16 (mkColor 255 0 0) zeroColor [] [];
                    Hextile.mkTile 16 16 (mkColor 255 0 0) zeroColor [] []]
                   2 (mkColor 255 0 0) zeroColor [])
                0 [] eq_refl eq_refl)
      as (tile & Hlk & _ & _ & Hplain).
    destruct (Hplain eq_refl) as (_ & _ & Hbg & _).
    exists tile. split; [exact Hlk|]. rewrite (Hbg eq_refl). reflexivity.
  - apply (proj2 (proj2 Hextile_background_inherited)
             (mkClientState zeroColorMap 1920 1080 [] pf_rgb888) 0 0
             [0; 0; 255; 0] [] (mkColor 255 0 0)).
    + reflexivity.
    + reflexivity.
Defined.

(** ** C2: the ClientCutText frame *)

Lemma utf8_scan_ascii (text : list Z) :
  Forall (fun b => b < 0x80) text ->
  utf8_scan text = map (fun b => (b, true)) text.
Proof.
  induction 1 as [|b text Hb _ IH]; [reflexivity|].
  cbn [utf8_scan map].
  assert (E : (b <? 0x80) = true) by (apply Z.ltb_lt; exact Hb).
  rewrite E, IH. reflexivity.
Qed.

Lemma runes_ascii (text : list Z) :
  Forall (fun b => b < 0x80) text -> runes text = text /\ ValidString text = true.
Proof.
  intros H. unfold runes, ValidString. rewrite (utf8_scan_ascii _ H). split.
  - rewrite map_map. cbn [fst]. apply map_id.
  - apply forallb_forall. intros [b v] Hin.
    apply in_map_iff in Hin as (b' & E & _). injection E as _ <-. reflexivity.
Qed.

Lemma plain_ascii_below (text : list Z) :
  Forall plain_ascii text -> Forall (fun b => b < 0x80) text.
Proof.
  intros H. eapply Forall_impl; [exact H|].
  unfold plain_ascii. intros b Hb. cbn beta. lia.
Qed.

Lemma sanitizeRune_plain (IsPrint_wide : Z -> bool) (b : Z) :
  plain_ascii b -> sanitizeRune IsPrint_wide b = b.
Proof.
  unfold plain_ascii, sanitizeRune, IsPrint, IsPrint_Latin1. intros Hb.
  destruct (b =? 9) eqn:E9; [reflexivity|apply Z.eqb_neq in E9].
  destruct (b =? 10) eqn:E10; [reflexivity|apply Z.eqb_neq in E10].
  destruct (b =? 13) eqn:E13; [reflexivity|apply Z.eqb_neq in E13].
  cbn [orb].
  assert (H32 : (b <? 32) = false) by (apply Z.ltb_ge; lia).
  assert (H0 : (0 <=? b) = true) by (apply Z.leb_le; lia).
  assert (H255 : (b <=? 255) = true) by (apply Z.leb_le; lia).
  assert (Hlo : (32 <=? b) = true) by (apply Z.leb_le; lia).
  assert (Hhi : (b <=? 126) = true) by (apply Z.leb_le; lia).
  rewrite H32, H0, H255, Hlo, Hhi. reflexivity.
Qed.

Lemma string_of_runes_plain (text : list Z) :
  Forall plain_ascii text -> string_of_runes text = text.
Proof.
  induction 1 as [|b text Hb _ IH]; [reflexivity|].
  unfold string_of_runes in *. cbn [flat_map]. rewrite IH.
  unfold EncodeRune, plain_ascii in *.
  assert (H0 : (0 <=? b) = true) by (apply Z.leb_le; lia).
  assert (H1 : (b <=? 127) = true) by (apply Z.leb_le; lia).
  rewrite H0, H1. reflexivity.
Qed.

Lemma SanitizeText_plain (IsPrint_wide : Z -> bool) (text : list Z) :
  Forall plain_ascii text -> SanitizeText IsPrint_wide text = text.
Proof.
  intros H. unfold SanitizeText. destruct text as [|b text]; [reflexivity|].
  rewrite (proj1 (runes_ascii _ (plain_ascii_below _ H))).
  rewrite (map_ext_in _ (fun b => b)).
  - rewrite map_id. apply string_of_runes_plain. exact H.
  - intros a Hin. apply sanitizeRune_plain.
    rewrite Forall_forall in H. apply H. apply list_elem_of_In. exact Hin.
Qed.

Lemma ValidateTextData_plain (text : list Z) (maxLength : Z) :
  Forall plain_ascii text -> Z.of_nat (List.length text) <= maxLength ->
  ValidateTextData text maxLength = None.
Proof.
  intros H Hlen. unfold ValidateTextData.
  assert (E : (Z.of_nat (List.length text) >? maxLength) = false)
    by (rewrite Z.gtb_ltb; apply Z.ltb_ge; exact Hlen).
  rewrite E.
  destruct (runes_ascii _ (plain_ascii_below _ H)) as [Hr Hv].
  rewrite Hv, Hr. cbn [negb].
  assert (Hctl : existsb (fun char => (char <? 32) && negb (char =? 9)
                                      && negb (char =? 10) && negb (char =? 13))
                   text = false).
  { clear - H. induction H as [|b text Hb _ IH]; [reflexivity|].
    cbn [existsb]. rewrite IH, orb_false_r. unfold plain_ascii in Hb.
    destruct (b <? 32) eqn:E32; [apply Z.ltb_lt in E32|reflexivity].
    cbn [andb].
    destruct (b =? 9) eqn:E9; [reflexivity|apply Z.eqb_neq in E9].
    destruct (b =? 10) eqn:E10; [reflexivity|apply Z.eqb_neq in E10].
    destruct (b =? 13) eqn:E13; [reflexivity|apply Z.eqb_neq in E13].
    lia. }
  rewrite Hctl. reflexivity.
Qed.

Lemma cutTextChars_plain (chars buf : list Z) :
  Forall plain_ascii chars -> cutTextChars chars buf = Ok (buf ++ chars).
Proof.
  intros H. revert buf. induction H as [|b chars Hb _ IH]; intros buf.
  - cbn. rewrite app_nil_r. reflexivity.
  - cbn [cutTextChars]. unfold Latin1MaxCodePoint, plain_ascii in *.
    assert (E : (b >? 255) = false) by (rewrite Z.gtb_ltb; apply Z.ltb_ge; lia).
    rewrite E, IH, u8_id by (unfold is_u8; lia).
    rewrite <- app_assoc. reflexivity.
Qed.

(** On text made of printable ASCII, tabs and line ends, of at most
    1 MiB, the frame is the one of the specification: the length field
    counts the content bytes that follow, which are the text. *)
Lemma CutText_plain_ascii (IsPrint_wide : Z -> bool) (grownCap : nat -> nat)
  (c : ClientConn) (text : list Z) :
  Forall plain_ascii text ->
  Z.of_nat (List.length text) <= MaxClipboardLength ->
  CutText IsPrint_wide grownCap c text WriteOk
  = (mkClientConn (state c) (Encs c) (sent c ++ cut_text_frame text), Ok tt).
Proof.
  intros H Hlen. unfold CutText.
  rewrite (ValidateTextData_plain _ _ H Hlen), (SanitizeText_plain _ _ H).
  rewrite (proj1 (runes_ascii _ (plain_ascii_below _ H))).
  rewrite (cutTextChars_plain _ _ H).
  unfold Bytes_slice_to.
  assert (El : List.length (([6; 0; 0; 0]
                  ++ BigEndian_PutUint32 (u32 (Z.of_nat (List.length text)))) ++ text)
               = (8 + List.length text)%nat).
  { rewrite length_app. reflexivity. }
  rewrite El, Nat.leb_refl, <- El, firstn_all.
  unfold MaxClipboardLength in Hlen.
  assert (Eu : u32 (Z.of_nat (List.length text)) = Z.of_nat (List.length text))
    by (unfold u32; apply Z.mod_small; lia).
  rewrite Eu. unfold writeWithContext, cut_text_frame.
  rewrite <- !app_assoc. reflexivity.
Qed.

(** C2 (the code departs from the claim).  The text "e-acute", the two
    UTF-8 bytes C3 A9, is accepted by [CutText]: it is one character,
    U+00E9, within Latin-1.  The frame written is
    06 00 00 00 | 00 00 00 02 | E9 00: the length field is 2, the number
    of UTF-8 bytes of the string, while the text is the single byte E9;
    the second content byte is a zero from the spare capacity of the
    buffer.  The frame of the specification for this text is
    06 00 00 00 | 00 00 00 01 | E9. *)
Theorem CutText_length_counts_utf8_bytes (IsPrint_wide : Z -> bool)
  (grownCap : nat -> nat) (c : ClientConn) :
  runes [0xC3; 0xA9] = [0xE9]
  /\ CutText IsPrint_wide grownCap c [0xC3; 0xA9] WriteOk
     = (mkClientConn (state c) (Encs c)
          (sent c ++ [6; 0; 0; 0; 0; 0; 0; 2; 0xE9; 0]), Ok tt)
  /\ cut_text_frame [0xE9] = [6; 0; 0; 0; 0; 0; 0; 1; 0xE9]
  /\ [6; 0; 0; 0; 0; 0; 0; 2; 0xE9; 0] <> cut_text_frame [0xE9].
Proof.
  split; [reflexivity|]. split; [reflexivity|]. split; [reflexivity|].
  discriminate.
Qed.

(* ===================================================================== *)
(** * Part III: further properties of the code                            *)
(* ===================================================================== *)

(** ** Byte order: round trips *)

Lemma PutUint16_bytes (v : Z) : Forall is_u8 (BigEndian_PutUint16 v).
Proof.
  unfold BigEndian_PutUint16, is_u8, u8.
  repeat constructor; apply Z.mod_pos_bound; lia.
Qed.

Lemma PutUint32_bytes (v : Z) : Forall is_u8 (BigEndian_PutUint32 v).
Proof.
  unfold BigEndian_PutUint32, is_u8, u8.
  repeat constructor; apply Z.mod_pos_bound; lia.
Qed.

Lemma be32_roundtrip (v : Z) :
  is_u32 v -> BigEndian_Uint32 (BigEndian_PutUint32 v) = v.
Proof.
  unfold is_u32. intros Hv.
  pose proof (PutUint32_bytes v) as Hb. unfold BigEndian_PutUint32 in *.
  inversion Hb as [|? ? H0 Hb1]; subst. inversion Hb1 as [|? ? H1 Hb2]; subst.
  inversion Hb2 as [|? ? H2 Hb3]; subst. inversion Hb3 as [|? ? H3 _]; subst.
  destruct (Uint32_assemble true _ _ _ _ H0 H1 H2 H3) as [E _].
  cbn [byteOrder_Uint32] in E. rewrite E.
  unfold assemble, u8. cbn [fold_left].
  rewrite !Z.shiftr_div_pow2 by lia.
  change (2 ^ 24) with 16777216. change (2 ^ 16) with 65536. change (2 ^ 8) with 256.
  Z.div_mod_to_equations. lia.
Qed.

Lemma i32_roundtrip (t : Z) :
  is_i32 t -> int32_of_u32 (BigEndian_Uint32 (BigEndian_PutUint32 (u32 t))) = t.
Proof.
  unfold is_i32. intros Ht.
  assert (Hu : is_u32 (u32 t)) by (unfold is_u32, u32; apply Z.mod_pos_bound; lia).
  rewrite (be32_roundtrip _ Hu). unfold int32_of_u32, u32.
  destruct (Z.lt_ge_cases t 0) as [Hneg|Hpos].
  - replace (t mod 4294967296) with (t + 4294967296)
      by (apply Z.mod_unique with (q := -1); lia).
    destruct (t + 4294967296 <? 2147483648) eqn:E;
      [apply Z.ltb_lt in E|apply Z.ltb_ge in E]; lia.
  - rewrite Z.mod_small by lia.
    destruct (t <? 2147483648) eqn:E; [reflexivity|apply Z.ltb_ge in E; lia].
Qed.

Lemma ReadFull_1_cons (a : Z) (r : Reader) : ReadFull 1 (a :: r) = Ok ([a], r).
Proof. reflexivity. Qed.

Lemma ReadFull_2_cons (a b : Z) (r : Reader) : ReadFull 2 (a :: b :: r) = Ok ([a; b], r).
Proof. reflexivity. Qed.

Lemma read_u16_put (v : Z) (r : Reader) :
  is_u16 v -> read_u16 (BigEndian_PutUint16 v ++ r) = Ok (v, r).
Proof.
  intros Hv. rewrite <- (be16_roundtrip v Hv) at 2. reflexivity.
Qed.

Lemma read_u32_put (v : Z) (r : Reader) :
  is_u32 v -> read_u32 (BigEndian_PutUint32 v ++ r) = Ok (v, r).
Proof.
  intros Hv. rewrite <- (be32_roundtrip v Hv) at 2. reflexivity.
Qed.

Lemma read_i32_put (t : Z) (r : Reader) :
  is_i32 t -> read_i32 (BigEndian_PutUint32 (u32 t) ++ r) = Ok (t, r).
Proof.
  intros Ht. unfold read_i32.
  rewrite read_u32_put by (unfold is_u32, u32; apply Z.mod_pos_bound; lia).
  cbn [obind]. f_equal. f_equal.
  rewrite <- (i32_roundtrip t Ht) at 2.
  rewrite be32_roundtrip by (unfold is_u32, u32; apply Z.mod_pos_bound; lia).
  reflexivity.
Qed.

Lemma flag_byte (b : bool) : negb ((if b then 1 else 0) =? 0) = b.
Proof. destruct b; reflexivity. Qed.

(** ** Client messages: KeyEvent, PointerEvent, FramebufferUpdateRequest
       and SetEncodings *)

(** X1.  [KeyEvent] with a keysym that is zero or above 0x1FFFFFF fails
    with a Validation error and leaves the connection as it was: no byte
    is written.  With any other keysym and a working connection it
    appends one frame of 8 bytes to the bytes sent, and a server reading
    that frame by the KeyEvent layout of RFC 6143 gets the same down
    flag and keysym back. *)
Theorem KeyEvent_frame (c : ClientConn) (keysym : Z) (down : bool) (rest : list Z) :
  is_u32 keysym ->
  (keysym = 0 \/ 0x1FFFFFF < keysym ->
   forall w, exists err,
     KeyEvent c keysym down w = (c, Fail err)
     /\ GetErrorCode err = Some ErrValidation)
  /\ (keysym <> 0 /\ keysym <= 0x1FFFFFF ->
      exists frame,
        KeyEvent c keysym down WriteOk
        = (mkClientConn (state c) (Encs c) (sent c ++ frame), Ok tt)
        /\ List.length frame = 8%nat
        /\ parse_client_message (frame ++ rest) = Ok (MsgKeyEvent down keysym, rest)).
Proof.
  intros Hk. unfold KeyEvent, ValidateKeySymbol. split.
  - intros Hbad w.
    destruct (keysym =? 0) eqn:E0.
    + eexists. split; reflexivity.
    + rewrite Z.gtb_ltb.
      destruct (33554431 <? keysym) eqn:E1.
      * eexists. split; reflexivity.
      * apply Z.eqb_neq in E0. apply Z.ltb_ge in E1. lia.
  - intros [Hnz Hle].
    destruct (keysym =? 0) eqn:E0; [apply Z.eqb_eq in E0; contradiction|].
    rewrite Z.gtb_ltb.
    destruct (33554431 <? keysym) eqn:E1; [apply Z.ltb_lt in E1; lia|].
    eexists. split; [reflexivity|]. split; [reflexivity|].
    unfold parse_client_message. cbn [app].
    rewrite read_u8_cons. cbn [obind]. change (4 =? 2) with false.
    change (4 =? 3) with false. change (4 =? 4) with true. cbv iota.
    rewrite read_u8_cons. cbn [obind].
    rewrite ReadFull_2_cons. cbn [obind].
    rewrite (read_u32_put _ _ Hk). cbn [obind].
    rewrite flag_byte. reflexivity.
Qed.

Lemma KeyEvent_frame_witness :
  exists frame,
    KeyEvent sample_conn 0xFF0D true WriteOk
    = (mkClientConn (state sample_conn) (Encs sample_conn) (sent sample_conn ++ frame),
       Ok tt)
    /\ List.length frame = 8%nat
    /\ parse_client_message (frame ++ []) = Ok (MsgKeyEvent true 0xFF0D, []).
Proof.
  destruct (KeyEvent_frame sample_conn 0xFF0D true [])
    as [_ H]; [unfold is_u32; lia|].
  apply H. lia.
Defined.

(** X2.  [PointerEvent] checks the position against the framebuffer size
    stored in the connection: a position with [x >= width] or
    [y >= height] fails with a Validation error and writes nothing (so
    every position is refused while the size is 0 x 0).  A position
    inside the framebuffer is sent as one frame of 6 bytes that decodes,
    by the PointerEvent layout of RFC 6143, to the same mask and
    position. *)
Theorem PointerEvent_frame (c : ClientConn) (mask x y : Z) (rest : list Z) :
  is_u8 mask -> is_u16 x -> is_u16 y ->
  (FrameBufferWidth (state c) <= x \/ FrameBufferHeight (state c) <= y ->
   forall w, exists err,
     PointerEvent c mask x y w = (c, Fail err)
     /\ GetErrorCode err = Some ErrValidation)
  /\ (x < FrameBufferWidth (state c) /\ y < FrameBufferHeight (state c) ->
      exists frame,
        PointerEvent c mask x y WriteOk
        = (mkClientConn (state c) (Encs c) (sent c ++ frame), Ok tt)
        /\ List.length frame = 6%nat
        /\ parse_client_message (frame ++ rest) = Ok (MsgPointerEvent mask x y, rest)).
Proof.
  intros Hm Hx Hy. unfold PointerEvent, ValidatePointerPosition.
  rewrite !Z.geb_leb. split.
  - intros Hbad w.
    destruct (FrameBufferWidth (state c) <=? x) eqn:Ex.
    + eexists. split; reflexivity.
    + destruct (FrameBufferHeight (state c) <=? y) eqn:Ey.
      * eexists. split; reflexivity.
      * apply Z.leb_gt in Ex, Ey. lia.
  - intros [Hxw Hyh].
    destruct (FrameBufferWidth (state c) <=? x) eqn:Ex; [apply Z.leb_le in Ex; lia|].
    destruct (FrameBufferHeight (state c) <=? y) eqn:Ey; [apply Z.leb_le in Ey; lia|].
    cbn [orb].
    assert (Es : Bytes_slice_to smallBufferSize
                   ([5] ++ [u8 mask] ++ BigEndian_PutUint16 x ++ BigEndian_PutUint16 y) 6
                 = Ok ([5] ++ [u8 mask] ++ BigEndian_PutUint16 x ++ BigEndian_PutUint16 y))
      by reflexivity.
    rewrite Es. cbn [writeWithContext].
    eexists. split; [reflexivity|]. split; [reflexivity|].
    unfold parse_client_message. rewrite <- !app_assoc. cbn [app].
    rewrite read_u8_cons. cbn [obind]. change (5 =? 2) with false.
    change (5 =? 3) with false. change (5 =? 4) with false.
    change (5 =? 5) with true. cbv iota.
    rewrite read_u8_cons. cbn [obind].
    rewrite (read_u16_put _ _ Hx). cbn [obind].
    rewrite (read_u16_put _ _ Hy). cbn [obind].
    rewrite (u8_id _ Hm). reflexivity.
Qed.

Lemma PointerEvent_frame_witness :
  exists frame,
    PointerEvent sample_conn 1 799 599 WriteOk
    = (mkClientConn (state sample_conn) (Encs sample_conn) (sent sample_conn ++ frame),
       Ok tt)
    /\ List.length frame = 6%nat
    /\ parse_client_message (frame ++ []) = Ok (MsgPointerEvent 1 799 599, []).
Proof.
  destruct (PointerEvent_frame sample_conn 1 799 599 [])
    as [_ H]; [unfold is_u8; lia|unfold is_u16; lia|unfold is_u16; lia|].
  apply H. cbn. lia.
Defined.

(** X3.  [FramebufferUpdateRequest] checks nothing: for every region,
    inside the framebuffer or not, empty or not, it sends one frame of
    10 bytes, and the frame decodes, by the FramebufferUpdateRequest
    layout of RFC 6143, to the same flag and region. *)
Theorem FramebufferUpdateRequest_frame (c : ClientConn) (incremental : bool)
  (x y width height : Z) (rest : list Z) :
  is_u16 x -> is_u16 y -> is_u16 width -> is_u16 height ->
  exists frame,
    FramebufferUpdateRequest c incremental x y width height WriteOk
    = (mkClientConn (state c) (Encs c) (sent c ++ frame), Ok tt)
    /\ List.length frame = 10%nat
    /\ parse_client_message (frame ++ rest)
       = Ok (MsgFramebufferUpdateRequest incremental x y width height, rest).
Proof.
  intros Hx Hy Hw Hh. unfold FramebufferUpdateRequest.
  match goal with
  | |- context [Bytes_slice_to _ ?buf 10] =>
      assert (Es : Bytes_slice_to smallBufferSize buf 10 = Ok buf) by reflexivity;
      rewrite Es
  end.
  cbn [writeWithContext].
  eexists. split; [reflexivity|]. split; [reflexivity|].
  unfold parse_client_message. rewrite <- !app_assoc. cbn [app].
  rewrite read_u8_cons. cbn [obind]. change (3 =? 2) with false.
  change (3 =? 3) with true. cbv iota.
  rewrite read_u8_cons. cbn [obind].
  rewrite (read_u16_put _ _ Hx). cbn [obind].
  rewrite (read_u16_put _ _ Hy). cbn [obind].
  rewrite (read_u16_put _ _ Hw). cbn [obind].
  rewrite (read_u16_put _ _ Hh). cbn [obind].
  rewrite flag_byte. reflexivity.
Qed.

Lemma FramebufferUpdateRequest_frame_witness :
  exists frame,
    FramebufferUpdateRequest sample_conn true 0 0 0 0 WriteOk
    = (mkClientConn (state sample_conn) (Encs sample_conn) (sent sample_conn ++ frame),
       Ok tt)
    /\ List.length frame = 10%nat
    /\ parse_client_message (frame ++ [])
       = Ok (MsgFramebufferUpdateRequest true 0 0 0 0, []).
Proof.
  apply (FramebufferUpdateRequest_frame sample_conn true 0 0 0 0 []);
    unfold is_u16; lia.
Defined.

(** [ValidateEncodingType] accepts exactly the types between -1000000
    and 1000000: the lists of known types make no difference. *)
Lemma ValidateEncodingType_accepts_iff (t : Z) :
  InputValidator.ValidateEncodingType t = None <-> -1000000 <= t <= 1000000.
Proof.
  unfold InputValidator.ValidateEncodingType.
  rewrite Z.geb_leb, Z.gtb_ltb.
  destruct (0 <=? t) eqn:E0; [apply Z.leb_le in E0|apply Z.leb_gt in E0].
  - destruct (existsb (Z.eqb t) [0; 1; 2; 4; 5; 15; 16]) eqn:Ein.
    + apply existsb_exists in Ein as (k & Hin & Hk). apply Z.eqb_eq in Hk. subst k.
      cbn in Hin. split; [intros _; lia|reflexivity].
    + destruct (1000000 <? t) eqn:E1; [apply Z.ltb_lt in E1|apply Z.ltb_ge in E1].
      * split; [discriminate|lia].
      * split; [intros _; lia|reflexivity].
  - destruct (existsb (Z.eqb t) [-1; -2; -223; -224; -232; -239; -240; -247; -314])
      eqn:Ein.
    + apply existsb_exists in Ein as (k & Hin & Hk). apply Z.eqb_eq in Hk. subst k.
      cbn in Hin. split; [intros _; lia|reflexivity].
    + destruct (t <? -1000000) eqn:E1; [apply Z.ltb_lt in E1|apply Z.ltb_ge in E1].
      * split; [discriminate|lia].
      * split; [intros _; lia|reflexivity].
Qed.

Lemma validateEncodingTypes_accepts (encs : list Encoding) :
  Forall (fun enc => -1000000 <= Type_ enc <= 1000000) encs ->
  validateEncodingTypes encs = None.
Proof.
  induction 1 as [|enc encs Henc _ IH]; [reflexivity|].
  cbn [validateEncodingTypes].
  rewrite (proj2 (ValidateEncodingType_accepts_iff _) Henc). exact IH.
Qed.

Lemma validateEncodingTypes_rejects (encs : list Encoding) :
  Exists (fun enc => Type_ enc < -1000000 \/ 1000000 < Type_ enc) encs ->
  exists err,
    validateEncodingTypes encs = Some err /\ GetErrorCode err = Some ErrValidation.
Proof.
  induction encs as [|enc encs IH]; intros Hex; [inversion Hex|].
  cbn [validateEncodingTypes].
  destruct (InputValidator.ValidateEncodingType (Type_ enc)) as [e|] eqn:E.
  - eexists. split; reflexivity.
  - apply ValidateEncodingType_accepts_iff in E.
    inversion Hex as [? ? Hbad|? ? Hrest]; subst; [lia|]. exact (IH Hrest).
Qed.

Lemma encoding_types_length (encs : list Encoding) :
  List.length (flat_map (fun enc => BigEndian_PutUint32 (u32 (Type_ enc))) encs)
  = (4 * List.length encs)%nat.
Proof.
  induction encs as [|enc encs IH]; [reflexivity|].
  cbn [flat_map]. rewrite length_app, IH. cbn [List.length BigEndian_PutUint32]. lia.
Qed.

Lemma read_i32s_types (encs : list Encoding) (rest : list Z) :
  Forall (fun enc => -1000000 <= Type_ enc <= 1000000) encs ->
  read_i32s (List.length encs)
    (flat_map (fun enc => BigEndian_PutUint32 (u32 (Type_ enc))) encs ++ rest)
  = Ok (map Type_ encs, rest).
Proof.
  induction 1 as [|enc encs Henc _ IH]; [reflexivity|].
  cbn [flat_map List.length read_i32s map]. rewrite <- app_assoc.
  rewrite read_i32_put by (unfold is_i32; lia). cbn [obind].
  rewrite IH. reflexivity.
Qed.

(** X4.  [SetEncodings] with at most 100 encodings whose types lie
    between -1000000 and 1000000 sends one frame of [4 + 4 * n] bytes on
    a working connection and then stores the list in [Encs], leaving the
    session state alone; the frame decodes, by the SetEncodings layout
    of RFC 6143, to the types of the encodings in the order given
    (negative types as two's complement). *)
Theorem SetEncodings_frame (grownCap : nat -> nat) (c : ClientConn)
  (encs : list Encoding) (rest : list Z) :
  (List.length encs <= 100)%nat ->
  Forall (fun enc => -1000000 <= Type_ enc <= 1000000) encs ->
  exists frame,
    SetEncodings grownCap c encs WriteOk
    = (mkClientConn (state c) encs (sent c ++ frame), Ok tt)
    /\ List.length frame = (4 + 4 * List.length encs)%nat
    /\ parse_client_message (frame ++ rest) = Ok (MsgSetEncodings (map Type_ encs), rest).
Proof.
  intros Hlen Htypes. unfold SetEncodings, maxEncodings.
  assert (E100 : (100 <? List.length encs)%nat = false) by (apply Nat.ltb_ge; exact Hlen).
  rewrite E100, (validateEncodingTypes_accepts _ Htypes).
  set (buf := [2] ++ [0] ++ BigEndian_PutUint16 (u16 (Z.of_nat (List.length encs)))
              ++ flat_map (fun enc => BigEndian_PutUint32 (u32 (Type_ enc))) encs).
  assert (Hbuf : List.length buf = (4 + 4 * List.length encs)%nat).
  { unfold buf. rewrite !length_app, encoding_types_length. reflexivity. }
  assert (Es : Bytes_slice_to (Buffer_cap grownCap (List.length buf)) buf
                 (4 + 4 * List.length encs) = Ok buf).
  { unfold Bytes_slice_to. rewrite <- Hbuf, Nat.leb_refl. f_equal. apply firstn_all. }
  rewrite Es. cbn [writeWithContext state Encs sent].
  exists buf. split; [reflexivity|]. split; [exact Hbuf|].
  unfold buf, parse_client_message. rewrite <- !app_assoc. cbn [app].
  rewrite read_u8_cons. cbn [obind]. change (2 =? 2) with true. cbv iota.
  rewrite ReadFull_1_cons. cbn [obind].
  assert (Hn : is_u16 (Z.of_nat (List.length encs))) by (unfold is_u16; lia).
  rewrite (u16_id _ Hn), (read_u16_put _ _ Hn). cbn [obind].
  rewrite Nat2Z.id, (read_i32s_types _ _ Htypes). reflexivity.
Qed.

Lemma SetEncodings_frame_witness :
  exists frame,
    SetEncodings (fun n => n) sample_conn [RawEncoding; CursorPseudoEncoding] WriteOk
    = (mkClientConn (state sample_conn) [RawEncoding; CursorPseudoEncoding]
         (sent sample_conn ++ frame), Ok tt)
    /\ List.length frame = (4 + 4 * 2)%nat
    /\ parse_client_message (frame ++ []) = Ok (MsgSetEncodings [0; -239], []).
Proof.
  apply (SetEncodings_frame (fun n => n) sample_conn [RawEncoding; CursorPseudoEncoding] []).
  - cbn. lia.
  - repeat constructor; cbn; lia.
Defined.

(** X5.  [SetEncodings] with more than 100 encodings, or with an
    encoding whose type is below -1000000 or above 1000000, fails with a
    Validation error whatever the connection would do: nothing is
    written and [Encs] keeps the list it had. *)
Theorem SetEncodings_rejects (grownCap : nat -> nat) (c : ClientConn)
  (encs : list Encoding) (w : WriteResult) :
  (100 < List.length encs)%nat
  \/ Exists (fun enc => Type_ enc < -1000000 \/ 1000000 < Type_ enc) encs ->
  exists err,
    SetEncodings grownCap c encs w = (c, Fail err)
    /\ GetErrorCode err = Some ErrValidation.
Proof.
  intros Hbad. unfold SetEncodings, maxEncodings.
  destruct (100 <? List.length encs)%nat eqn:E100.
  - eexists. split; reflexivity.
  - destruct Hbad as [Hlen|Hex]; [apply Nat.ltb_ge in E100; lia|].
    destruct (validateEncodingTypes_rejects _ Hex) as (err & Hv & Hcode).
    rewrite Hv. exists err. split; [reflexivity|exact Hcode].
Qed.

Lemma SetEncodings_rejects_witness :
  exists err,
    SetEncodings (fun n => n) sample_conn
      [RawEncoding; mkEncoding 1000001 RawEncoding_Read] WriteOk
    = (sample_conn, Fail err)
    /\ GetErrorCode err = Some ErrValidation.
Proof.
  apply (SetEncodings_rejects (fun n => n) sample_conn
           [RawEncoding; mkEncoding 1000001 RawEncoding_Read] WriteOk).
  right. apply Exists_cons_tl. apply Exists_cons_hd. cbn. lia.
Defined.

(** ** Server messages: SetColorMapEntries *)

(** [ValidateColorMapEntries] accepts a range exactly when it is not
    empty and ends within the map. *)
Lemma ValidateColorMapEntries_accepts_iff (firstColor numColors maxColors : Z) :
  is_u16 firstColor -> is_u16 numColors -> is_u16 maxColors ->
  ValidateColorMapEntries firstColor numColors maxColors = None
  <-> 0 < numColors /\ firstColor + numColors <= maxColors.
Proof.
  unfold is_u16, ValidateColorMapEntries. intros Hf Hn Hm.
  destruct (numColors =? 0) eqn:E0; [apply Z.eqb_eq in E0|apply Z.eqb_neq in E0].
  - split; [discriminate|lia].
  - rewrite (u16_id (65535 - numColors)) by (unfold is_u16; lia).
    rewrite !Z.gtb_ltb.
    destruct (65535 - numColors <? firstColor) eqn:E1;
      [apply Z.ltb_lt in E1|apply Z.ltb_ge in E1].
    + split; [discriminate|lia].
    + rewrite (u16_id (firstColor + numColors)) by (unfold is_u16; lia).
      destruct (maxColors <? firstColor + numColors) eqn:E2;
        [apply Z.ltb_lt in E2|apply Z.ltb_ge in E2].
      * split; [discriminate|lia].
      * split; [intros _; lia|reflexivity].
Qed.

Lemma read_color_bytes (col : Color) (rest : list Z) :
  is_color col ->
  (let! (cr, r) :=
     wrap (networkError "SetColorMapEntriesMessage.Read" "failed to read color data")
          (read_u16 (color_bytes col ++ rest)) in
   let! (cg, r) :=
     wrap (networkError "SetColorMapEntriesMessage.Read" "failed to read color data")
          (read_u16 r) in
   let! (cb, r) :=
     wrap (networkError "SetColorMapEntriesMessage.Read" "failed to read color data")
          (read_u16 r) in
   Ok (mkColor cr cg cb, r))
  = Ok (col, rest).
Proof.
  intros (Hr & Hg & Hb). unfold color_bytes. rewrite <- !app_assoc.
  rewrite (read_u16_put _ _ Hr). cbn [wrap obind].
  rewrite (read_u16_put _ _ Hg). cbn [wrap obind].
  rewrite (read_u16_put _ _ Hb). cbn [wrap obind].
  destruct col; reflexivity.
Qed.

(** The colour loop on the bytes of [cols]: the colours are stored one
    after the other, in the map from [f + i] on and in the result from
    [i] on, and the loop goes on with the rest of the input. *)
Lemma readColorEntries_prefix (cols : list Color) :
  forall (n i f : nat) (cm colors : list Color) (rest : list Z),
    Forall is_color cols ->
    (f + i + List.length cols <= List.length cm)%nat ->
    Z.of_nat (List.length cm) <= 65536 ->
    readColorEntries (List.length cols + n) (Z.of_nat i) (Z.of_nat f) cm colors
      (flat_map color_bytes cols ++ rest)
    = readColorEntries n (Z.of_nat (i + List.length cols)) (Z.of_nat f)
        (list_inserts (f + i) cols cm) (list_inserts i cols colors) rest.
Proof.
  induction cols as [|col cols IH]; intros n i f cm colors rest Hcols Hlen Hcm.
  - cbn [List.length Nat.add flat_map app list_inserts]. rewrite Nat.add_0_r. reflexivity.
  - inversion Hcols as [|? ? Hcol Hcols']; subst.
    cbn [List.length] in Hlen.
    cbn [List.length Nat.add flat_map readColorEntries]. rewrite <- app_assoc.
    rewrite (read_color_bytes _ _ Hcol).
    rewrite (u16_id (Z.of_nat f + Z.of_nat i)) by (unfold is_u16; lia).
    rewrite <- Nat2Z.inj_add, !Nat2Z.id.
    assert (Elt : (f + i <? List.length cm)%nat = true) by (apply Nat.ltb_lt; lia).
    rewrite Elt.
    replace (Z.of_nat i + 1) with (Z.of_nat (S i)) by lia.
    rewrite IH by (rewrite ?length_insert; first [exact Hcols'|lia]).
    replace (S i + List.length cols)%nat with (i + S (List.length cols))%nat by lia.
    replace (f + S i)%nat with (S (f + i)) by lia.
    cbn [list_inserts].
    rewrite !list_insert_inserts_lt by lia. reflexivity.
Qed.

(** The colour loop on an input that ends within an entry. *)
Lemma readColorEntries_short (n : nat) (i f : Z) (cm colors : list Color) (tail : list Z) :
  (List.length tail < 6)%nat ->
  exists err,
    readColorEntries (S n) i f cm colors tail = (cm, Fail err)
    /\ GetErrorCode err = Some ErrNetwork.
Proof.
  intros Hlen.
  do 6 (destruct tail as [|? tail]; [eexists; split; reflexivity|]).
  cbn [List.length] in Hlen. lia.
Qed.

(** The header of the message: padding, first colour and count. *)
Lemma SetColorMapEntries_header (c : ClientState) (padding firstColor numColors : Z)
  (payload : list Z) :
  is_u16 firstColor -> is_u16 numColors ->
  SetColorMapEntriesMessage_Read c
    ([padding] ++ BigEndian_PutUint16 firstColor ++ BigEndian_PutUint16 numColors
     ++ payload)
  = match ValidateColorMapEntries firstColor numColors 256 with
    | Some err =>
        (c, Fail (protocolError "SetColorMapEntriesMessage.Read"
                    "invalid color map entries" (Some err)))
    | None =>
        let '(colorMap, res) :=
          readColorEntries (Z.to_nat numColors) 0 firstColor (ColorMap c)
            (repeat zeroColor (Z.to_nat numColors)) payload in
        (mkClientState colorMap (FrameBufferWidth c) (FrameBufferHeight c)
           (DesktopName c) (PixelFormat_ c),
         let! (colors, r) := res in Ok (mkSetColorMapEntries firstColor colors, r))
    end.
Proof.
  intros Hf Hn. unfold SetColorMapEntriesMessage_Read. cbn [app].
  rewrite ReadFull_1_cons. cbn [wrap obind].
  rewrite (read_u16_put _ _ Hf). cbn [wrap obind].
  rewrite (read_u16_put _ _ Hn). cbn [wrap obind].
  change (Z.of_nat ColorMapSize) with 256.
  destruct (ValidateColorMapEntries firstColor numColors 256); reflexivity.
Qed.

(** X6.  A SetColorMapEntries message for the colours [cols] from index
    [first] on, with [cols] not empty and [first + len(cols) <= 256], is
    read completely: the result holds [first] and [cols], the input is
    left at the byte after the message, and in the colour map of the
    connection exactly the entries [first .. first + len(cols) - 1] are
    replaced by [cols], all others and all other session fields keeping
    their values. *)
Theorem SetColorMapEntries_stores (c : ClientState) (padding : Z) (first : nat)
  (cols : list Color) (rest : list Z) :
  List.length (ColorMap c) = 256%nat ->
  cols <> [] ->
  (first + List.length cols <= 256)%nat ->
  Forall is_color cols ->
  SetColorMapEntriesMessage_Read c
    (color_map_entries_body padding (Z.of_nat first) (Z.of_nat (List.length cols)) cols
     ++ rest)
  = (mkClientState (store_colors first cols (ColorMap c)) (FrameBufferWidth c)
       (FrameBufferHeight c) (DesktopName c) (PixelFormat_ c),
     Ok (mkSetColorMapEntries (Z.of_nat first) cols, rest))
  /\ List.length (store_colors first cols (ColorMap c)) = 256%nat
  /\ forall j : nat,
       store_colors first cols (ColorMap c) !! j
       = if decide (first <= j < first + List.length cols)%nat
         then cols !! (j - first)%nat else ColorMap c !! j.
Proof.
  intros Hcm Hne Hlen Hcols.
  assert (Hpos : (0 < List.length cols)%nat) by (destruct cols; [contradiction|cbn; lia]).
  split; [|split].
  - unfold color_map_entries_body. rewrite <- !app_assoc.
    rewrite SetColorMapEntries_header by (unfold is_u16; lia).
    assert (Hv : ValidateColorMapEntries (Z.of_nat first)
                   (Z.of_nat (List.length cols)) 256 = None)
      by (apply ValidateColorMapEntries_accepts_iff; unfold is_u16; lia).
    rewrite Hv.
    rewrite Nat2Z.id.
    pose proof (readColorEntries_prefix cols 0 0 first (ColorMap c)
                  (repeat zeroColor (List.length cols)) rest Hcols) as Hloop.
    rewrite !Nat.add_0_r in Hloop. cbn [Nat.add] in Hloop.
    change (Z.of_nat 0) with 0 in Hloop.
    rewrite Hloop by lia.
    cbn [readColorEntries obind]. unfold store_colors.
    pose proof (list_inserts_0_l cols [] (repeat zeroColor (List.length cols))) as Ec.
    rewrite app_nil_r in Ec. rewrite Ec by (rewrite repeat_length; reflexivity).
    reflexivity.
  - unfold store_colors. rewrite length_inserts. exact Hcm.
  - intros j. unfold store_colors. destruct (decide _) as [Hin|Hout].
    + apply list_lookup_inserts; lia.
    + destruct (Nat.lt_ge_cases j first) as [Hlt|Hge].
      * apply list_lookup_inserts_lt. exact Hlt.
      * apply list_lookup_inserts_ge. lia.
Qed.

Lemma SetColorMapEntries_stores_witness :
  SetColorMapEntriesMessage_Read (state sample_conn)
    (color_map_entries_body 0 (Z.of_nat 254)
       (Z.of_nat (List.length [mkColor 1 2 3; mkColor 65535 0 0]))
       [mkColor 1 2 3; mkColor 65535 0 0] ++ [])
  = (mkClientState
       (store_colors 254 [mkColor 1 2 3; mkColor 65535 0 0] (ColorMap (state sample_conn)))
       (FrameBufferWidth (state sample_conn)) (FrameBufferHeight (state sample_conn))
       (DesktopName (state sample_conn)) (PixelFormat_ (state sample_conn)),
     Ok (mkSetColorMapEntries (Z.of_nat 254) [mkColor 1 2 3; mkColor 65535 0 0], [])).
Proof.
  apply (SetColorMapEntries_stores (state sample_conn) 0 254
           [mkColor 1 2 3; mkColor 65535 0 0] []).
  - reflexivity.
  - discriminate.
  - cbn. lia.
  - repeat constructor; cbn; lia.
Defined.

(** X7.  A SetColorMapEntries message that announces no colour, or a
    range that ends beyond index 255, is refused with a Protocol error
    before any colour is read, and the connection is left as it was. *)
Theorem SetColorMapEntries_rejects (c : ClientState) (padding firstColor numColors : Z)
  (payload : list Z) :
  is_u16 firstColor -> is_u16 numColors ->
  numColors = 0 \/ 256 < firstColor + numColors ->
  exists err,
    SetColorMapEntriesMessage_Read c
      ([padding] ++ BigEndian_PutUint16 firstColor ++ BigEndian_PutUint16 numColors
       ++ payload)
    = (c, Fail err)
    /\ GetErrorCode err = Some ErrProtocol.
Proof.
  intros Hf Hn Hbad. rewrite (SetColorMapEntries_header _ _ _ _ _ Hf Hn).
  destruct (ValidateColorMapEntries firstColor numColors 256) as [err|] eqn:E.
  - eexists. split; reflexivity.
  - apply ValidateColorMapEntries_accepts_iff in E;
      [lia|exact Hf|exact Hn|unfold is_u16; lia].
Qed.

Lemma SetColorMapEntries_rejects_witness :
  exists err,
    SetColorMapEntriesMessage_Read (state sample_conn)
      ([0] ++ BigEndian_PutUint16 255 ++ BigEndian_PutUint16 2 ++ [0; 1; 0; 2; 0; 3])
    = (state sample_conn, Fail err)
    /\ GetErrorCode err = Some ErrProtocol.
Proof.
  apply (SetColorMapEntries_rejects (state sample_conn) 0 255 2 [0; 1; 0; 2; 0; 3]).
  - unfold is_u16; lia.
  - unfold is_u16; lia.
  - right. lia.
Defined.

(** X8.  [SetColorMapEntriesMessage.Read] is not atomic.  When a message
    announces [numColors] colours but the input ends after the complete
    entries [cols], fewer than announced, the call fails with a Network
    error, and the colour map of the connection already holds [cols]
    from index [first] on. *)
Theorem SetColorMapEntries_partial_update (c : ClientState) (padding : Z) (first : nat)
  (numColors : nat) (cols : list Color) (tail : list Z) :
  List.length (ColorMap c) = 256%nat ->
  (List.length cols < numColors)%nat ->
  (first + numColors <= 256)%nat ->
  Forall is_color cols ->
  (List.length tail < 6)%nat ->
  exists err,
    SetColorMapEntriesMessage_Read c
      (color_map_entries_body padding (Z.of_nat first) (Z.of_nat numColors) cols ++ tail)
    = (mkClientState (store_colors first cols (ColorMap c)) (FrameBufferWidth c)
         (FrameBufferHeight c) (DesktopName c) (PixelFormat_ c),
       Fail err)
    /\ GetErrorCode err = Some ErrNetwork.
Proof.
  intros Hcm Hk Hlen Hcols Htail.
  unfold color_map_entries_body. rewrite <- !app_assoc.
  rewrite SetColorMapEntries_header by (unfold is_u16; lia).
  assert (Hv : ValidateColorMapEntries (Z.of_nat first) (Z.of_nat numColors) 256 = None)
    by (apply ValidateColorMapEntries_accepts_iff; unfold is_u16; lia).
  rewrite Hv, Nat2Z.id.
  assert (En : exists m, numColors = (List.length cols + S m)%nat)
    by (exists (numColors - S (List.length cols))%nat; lia).
  destruct En as [m ->].
  pose proof (readColorEntries_prefix cols (S m) 0 first
                (ColorMap c) (repeat zeroColor (List.length cols + S m)) tail Hcols)
    as Hloop.
  rewrite !Nat.add_0_r in Hloop. change (Z.of_nat 0) with 0 in Hloop.
  rewrite Hloop by lia.
  destruct (readColorEntries_short m
              (Z.of_nat (0 + List.length cols)) (Z.of_nat first)
              (list_inserts first cols (ColorMap c))
              (list_inserts 0 cols (repeat zeroColor (List.length cols + S m))) tail Htail)
    as (err & Hshort & Hcode).
  rewrite Hshort. exists err. split; [reflexivity|exact Hcode].
Qed.

Lemma SetColorMapEntries_partial_update_witness :
  exists err,
    SetColorMapEntriesMessage_Read (state sample_conn)
      (color_map_entries_body 0 (Z.of_nat 0) (Z.of_nat 2) [mkColor 1 2 3] ++ [0; 4; 0])
    = (mkClientState (store_colors 0 [mkColor 1 2 3] (ColorMap (state sample_conn)))
         (FrameBufferWidth (state sample_conn)) (FrameBufferHeight (state sample_conn))
         (DesktopName (state sample_conn)) (PixelFormat_ (state sample_conn)),
       Fail err)
    /\ GetErrorCode err = Some ErrNetwork.
Proof.
  apply (SetColorMapEntries_partial_update (state sample_conn) 0 0 2 [mkColor 1 2 3]
           [0; 4; 0]).
  - reflexivity.
  - cbn. lia.
  - lia.
  - repeat constructor; cbn; lia.
  - cbn. lia.
Defined.

(** ** Server messages: ServerCutText *)

Lemma read_u32_zero_prefix (v : Z) (r : Reader) :
  0 <= v < 65536 ->
  read_u32 (0 :: 0 :: BigEndian_PutUint32 v ++ r)
  = Ok (0, skipn 2 (BigEndian_PutUint32 v) ++ r).
Proof.
  intros Hv. unfold BigEndian_PutUint32, u8.
  rewrite !Z.shiftr_div_pow2 by lia.
  rewrite (Z.div_small v (2 ^ 24)) by lia.
  rewrite (Z.div_small v (2 ^ 16)) by lia.
  reflexivity.
Qed.

(** X9.  [ServerCutTextMessage.Read] takes one padding byte before the
    length, where RFC 6143 has three.  On the body of a message laid out
    by the RFC (three zero padding bytes, the length, the text) with a
    text shorter than 65536 bytes, it therefore reads a length of zero
    and fails with a Protocol error: no such message can be received. *)
Theorem ServerCutText_rfc_layout_rejected (IsPrint_wide : Z -> bool) (c : ClientState)
  (text rest : list Z) :
  Z.of_nat (List.length text) < 65536 ->
  exists err,
    ServerCutTextMessage_Read IsPrint_wide c (server_cut_text_body text ++ rest) = Fail err
    /\ GetErrorCode err = Some ErrProtocol.
Proof.
  intros Hlen. unfold ServerCutTextMessage_Read, server_cut_text_body.
  rewrite <- !app_assoc. cbn [app].
  rewrite ReadFull_1_cons. cbn [wrap obind].
  rewrite read_u32_zero_prefix by lia. cbn [wrap obind].
  rewrite ValidateMessageLength_zero.
  eexists. split; reflexivity.
Qed.

Lemma ServerCutText_rfc_layout_rejected_witness :
  exists err,
    ServerCutTextMessage_Read (fun _ => true) (state sample_conn)
      (server_cut_text_body [104; 105] ++ []) = Fail err
    /\ GetErrorCode err = Some ErrProtocol.
Proof.
  apply (ServerCutText_rfc_layout_rejected (fun _ => true) (state sample_conn)
           [104; 105] []).
  cbn. lia.
Defined.

(** X10.  What [ServerCutTextMessage.Read] does accept is one padding
    byte, the length and the text.  For a text of printable ASCII, tabs
    and line ends, between 1 byte and 10 MiB long, it returns the text
    unchanged and leaves the input at the byte after it; a length of
    zero is refused with a Protocol error, so an empty clipboard cannot
    be received either. *)
Theorem ServerCutText_one_padding_byte (IsPrint_wide : Z -> bool) (c : ClientState)
  (padding : Z) (text rest : list Z) :
  Forall plain_ascii text ->
  Z.of_nat (List.length text) <= MaxServerClipboardLength ->
  (text <> [] ->
   ServerCutTextMessage_Read IsPrint_wide c
     ([padding] ++ BigEndian_PutUint32 (Z.of_nat (List.length text)) ++ text ++ rest)
   = Ok (text, rest))
  /\ (text = [] ->
      exists err,
        ServerCutTextMessage_Read IsPrint_wide c
          ([padding] ++ BigEndian_PutUint32 (Z.of_nat (List.length text)) ++ text ++ rest)
        = Fail err
        /\ GetErrorCode err = Some ErrProtocol).
Proof.
  intros Hplain Hlen. unfold MaxServerClipboardLength in Hlen.
  assert (Hu : is_u32 (Z.of_nat (List.length text))) by (unfold is_u32; lia).
  unfold ServerCutTextMessage_Read. cbn [app].
  rewrite ReadFull_1_cons. cbn [wrap obind].
  rewrite (read_u32_put _ _ Hu). cbn [wrap obind].
  split.
  - intros Hne.
    assert (Hpos : (0 < List.length text)%nat)
      by (destruct text; [contradiction|cbn; lia]).
    rewrite (proj2 (ValidateMessageLength_accepts _ _))
      by (unfold MaxServerClipboardLength; lia).
    rewrite Nat2Z.id, ReadFull_app. cbn [wrap obind].
    rewrite ValidateTextData_plain
      by (first [exact Hplain|unfold MaxServerClipboardLength; lia]).
    reflexivity.
  - intros ->. cbn [List.length]. change (Z.of_nat 0) with 0.
    rewrite ValidateMessageLength_zero. eexists. split; reflexivity.
Qed.

Lemma ServerCutText_one_padding_byte_witness :
  ServerCutTextMessage_Read (fun _ => true) (state sample_conn)
    ([0] ++ BigEndian_PutUint32 (Z.of_nat (List.length [104; 105])) ++ [104; 105] ++ [2])
  = Ok ([104; 105], [2]).
Proof.
  destruct (ServerCutText_one_padding_byte (fun _ => true) (state sample_conn) 0
              [104; 105] [2]) as [H _].
  - repeat constructor; unfold plain_ascii; lia.
  - unfold MaxServerClipboardLength. cbn. lia.
  - apply H. discriminate.
Defined.

Lemma utf8_scan_app_ascii (pre s : list Z) :
  Forall (fun b => b < 0x80) pre ->
  utf8_scan (pre ++ s) = map (fun b => (b, true)) pre ++ utf8_scan s.
Proof.
  induction 1 as [|b pre Hb _ IH]; [reflexivity|].
  cbn [app utf8_scan map].
  assert (E : (b <? 0x80) = true) by (apply Z.ltb_lt; exact Hb).
  rewrite E, IH. reflexivity.
Qed.

Lemma utf8_first_lo (p0 : Z) (sz : nat) (lo hi : Z) :
  utf8_first p0 = Some (sz, lo, hi) -> 0x80 <= lo.
Proof.
  unfold utf8_first.
  repeat match goal with
         | |- context [if ?b then _ else _] => destruct b
         end; intros E; inversion E; lia.
Qed.

(** A byte above 0x7F that is followed by plain ASCII, or by nothing,
    starts no well-formed sequence. *)
Lemma utf8_scan_lone_high_byte (b : Z) (post : list Z) :
  0x80 <= b ->
  Forall (fun b => b < 0x80) post ->
  utf8_scan (b :: post) = (RuneError, false) :: map (fun b => (b, true)) post.
Proof.
  intros Hb Hpost. rewrite <- (utf8_scan_ascii _ Hpost).
  cbn [utf8_scan].
  assert (E : (b <? 0x80) = false) by (apply Z.ltb_ge; exact Hb).
  rewrite E.
  destruct (utf8_first b) as [[[sz lo] hi]|] eqn:Ef; [|reflexivity].
  destruct post as [|b1 post]; [reflexivity|].
  apply utf8_first_lo in Ef.
  inversion Hpost as [|? ? Hb1 _]; subst.
  assert (E1 : (b1 <? lo) = true) by (apply Z.ltb_lt; lia).
  rewrite E1. reflexivity.
Qed.

Lemma sanitizeRune_RuneError (IsPrint_wide : Z -> bool) :
  sanitizeRune IsPrint_wide RuneError = RuneError.
Proof.
  unfold sanitizeRune. change (RuneError =? 9) with false.
  change (RuneError =? 10) with false. change (RuneError =? 13) with false.
  change (RuneError <? 32) with false. cbn [orb].
  destruct (IsPrint IsPrint_wide RuneError); reflexivity.
Qed.

(** X11.  The text of a ServerCutText message is checked as UTF-8, not
    as the Latin-1 the protocol prescribes.  A byte from 0x80 to 0xFF
    that stands between plain ASCII text does not pass that check, and
    the text is then returned with the three bytes EF BF BD (U+FFFD in
    UTF-8) in the place of that byte: the character is lost and the text
    grows by two bytes. *)
Theorem ServerCutText_latin1_byte_replaced (IsPrint_wide : Z -> bool) (c : ClientState)
  (padding b : Z) (pre post rest : list Z) :
  Forall plain_ascii pre -> Forall plain_ascii post ->
  0x80 <= b <= 0xFF ->
  Z.of_nat (List.length (pre ++ [b] ++ post)) <= MaxServerClipboardLength ->
  ServerCutTextMessage_Read IsPrint_wide c
    ([padding] ++ BigEndian_PutUint32 (Z.of_nat (List.length (pre ++ [b] ++ post)))
     ++ (pre ++ [b] ++ post) ++ rest)
  = Ok (pre ++ [0xEF; 0xBF; 0xBD] ++ post, rest).
Proof.
  intros Hpre Hpost Hb Hlen.
  set (text := pre ++ [b] ++ post) in *.
  assert (Hscan : utf8_scan text
                  = map (fun b => (b, true)) pre
                    ++ (RuneError, false) :: map (fun b => (b, true)) post).
  { unfold text. rewrite (utf8_scan_app_ascii _ _ (plain_ascii_below _ Hpre)).
    cbn [app]. rewrite (utf8_scan_lone_high_byte _ _ (proj1 Hb) (plain_ascii_below _ Hpost)).
    reflexivity. }
  assert (Hpos : (0 < List.length text)%nat).
  { unfold text. rewrite !length_app. cbn [List.length]. lia. }
  assert (Hu : is_u32 (Z.of_nat (List.length text)))
    by (unfold is_u32, MaxServerClipboardLength in *; lia).
  unfold ServerCutTextMessage_Read. cbn [app].
  rewrite ReadFull_1_cons. cbn [wrap obind].
  rewrite (read_u32_put _ _ Hu). cbn [wrap obind].
  rewrite (proj2 (ValidateMessageLength_accepts _ _)) by lia.
  rewrite Nat2Z.id, ReadFull_app. cbn [wrap obind].
  assert (Hinvalid : exists e, ValidateTextData text MaxServerClipboardLength = Some e).
  { unfold ValidateTextData.
    assert (E : (Z.of_nat (List.length text) >? MaxServerClipboardLength) = false)
      by (rewrite Z.gtb_ltb; apply Z.ltb_ge; exact Hlen).
    rewrite E. unfold ValidString. rewrite Hscan, forallb_app. cbn [forallb snd].
    rewrite andb_false_r. cbn [negb]. eexists. reflexivity. }
  destruct Hinvalid as [e ->].
  f_equal. f_equal.
  unfold SanitizeText.
  destruct text as [|t0 text'] eqn:Et; [cbn in Hpos; lia|]. rewrite <- Et in *.
  unfold runes. rewrite Hscan, !map_app. cbn [map fst].
  rewrite !map_map. cbn [fst].
  unfold string_of_runes. rewrite flat_map_app. cbn [flat_map].
  rewrite sanitizeRune_RuneError.
  assert (Hs : forall l, Forall plain_ascii l ->
                         flat_map EncodeRune
                           (map (fun x => sanitizeRune IsPrint_wide x) l) = l).
  { intros l Hl. rewrite (map_ext_in _ (fun b => b)).
    - rewrite map_id. apply string_of_runes_plain. exact Hl.
    - intros a Hin. apply sanitizeRune_plain.
      rewrite Forall_forall in Hl. apply Hl. apply list_elem_of_In. exact Hin. }
  rewrite (Hs _ Hpre), (Hs _ Hpost). reflexivity.
Qed.

Lemma ServerCutText_latin1_byte_replaced_witness :
  ServerCutTextMessage_Read (fun _ => true) (state sample_conn)
    ([0] ++ BigEndian_PutUint32 (Z.of_nat (List.length ([99; 97; 102] ++ [0xE9] ++ [])))
     ++ ([99; 97; 102] ++ [0xE9] ++ []) ++ [])
  = Ok ([99; 97; 102] ++ [0xEF; 0xBF; 0xBD] ++ [], []).
Proof.
  apply (ServerCutText_latin1_byte_replaced (fun _ => true) (state sample_conn) 0 0xE9
           [99; 97; 102] [] []).
  - repeat constructor; unfold plain_ascii; lia.
  - constructor.
  - lia.
  - unfold MaxServerClipboardLength. cbn. lia.
Defined.

(** ** Loops: invariants and progress *)

Lemma for_loop_inv_from {St : Type} (I : nat -> St -> Prop) (body : Z -> St -> outcome St)
  (i : Z) :
  forall (n k0 : nat) (s s' : St),
    (forall (k : nat) (t t' : St),
        (k0 <= k < k0 + n)%nat -> I k t -> body (i + Z.of_nat k) t = Ok t' -> I (S k) t') ->
    I k0 s ->
    for_loop n (i + Z.of_nat k0) body s = Ok s' ->
    I (k0 + n)%nat s'.
Proof.
  induction n as [|n IH]; intros k0 s s' Hstep H0 Hloop.
  - cbn [for_loop] in Hloop. injection Hloop as <-. rewrite Nat.add_0_r. exact H0.
  - cbn [for_loop] in Hloop.
    destruct (body (i + Z.of_nat k0) s) as [t| |] eqn:Eb; cbn [obind] in Hloop;
      try discriminate.
    replace (i + Z.of_nat k0 + 1) with (i + Z.of_nat (S k0)) in Hloop by lia.
    replace (k0 + S n)%nat with (S k0 + n)%nat by lia.
    apply (IH (S k0) t s').
    + intros k u u' Hk. apply Hstep. lia.
    + apply (Hstep k0 s t); [lia|exact H0|exact Eb].
    + exact Hloop.
Qed.

(** An invariant that every round keeps holds after the loop. *)
Lemma for_loop_inv {St : Type} (I : nat -> St -> Prop) (body : Z -> St -> outcome St)
  (n : nat) (i : Z) (s s' : St) :
  (forall (k : nat) (t t' : St),
      (k < n)%nat -> I k t -> body (i + Z.of_nat k) t = Ok t' -> I (S k) t') ->
  I 0%nat s ->
  for_loop n i body s = Ok s' ->
  I n s'.
Proof.
  intros Hstep H0 Hloop.
  apply (for_loop_inv_from I body i n 0 s s').
  - intros k t t' Hk. apply Hstep. lia.
  - exact H0.
  - change (Z.of_nat 0) with 0. rewrite Z.add_0_r. exact Hloop.
Qed.

Lemma for_loop_total_from {St : Type} (I : nat -> St -> Prop)
  (body : Z -> St -> outcome St) (i : Z) :
  forall (n k0 : nat) (s : St),
    (forall (k : nat) (t : St),
        (k0 <= k < k0 + n)%nat -> I k t ->
        exists t', body (i + Z.of_nat k) t = Ok t' /\ I (S k) t') ->
    I k0 s ->
    exists s', for_loop n (i + Z.of_nat k0) body s = Ok s' /\ I (k0 + n)%nat s'.
Proof.
  induction n as [|n IH]; intros k0 s Hstep H0.
  - exists s. cbn [for_loop]. rewrite Nat.add_0_r. split; [reflexivity|exact H0].
  - destruct (Hstep k0 s ltac:(lia) H0) as (t & Eb & Ht).
    destruct (IH (S k0) t) as (s' & Hloop & Hs').
    + intros k u Hk. apply Hstep. lia.
    + exact Ht.
    + exists s'. cbn [for_loop]. rewrite Eb. cbn [obind].
      replace (i + Z.of_nat k0 + 1) with (i + Z.of_nat (S k0)) by lia.
      replace (k0 + S n)%nat with (S k0 + n)%nat by lia.
      split; [exact Hloop|exact Hs'].
Qed.

(** A loop whose every round succeeds under the invariant runs to its
    end. *)
Lemma for_loop_total {St : Type} (I : nat -> St -> Prop) (body : Z -> St -> outcome St)
  (n : nat) (i : Z) (s : St) :
  (forall (k : nat) (t : St),
      (k < n)%nat -> I k t -> exists t', body (i + Z.of_nat k) t = Ok t' /\ I (S k) t') ->
  I 0%nat s ->
  exists s', for_loop n i body s = Ok s' /\ I n s'.
Proof.
  intros Hstep H0.
  destruct (for_loop_total_from I body i n 0 s) as (s' & Hloop & Hs').
  - intros k t Hk. apply Hstep. lia.
  - exact H0.
  - exists s'. change (Z.of_nat 0) with 0 in Hloop. rewrite Z.add_0_r in Hloop.
    split; [exact Hloop|exact Hs'].
Qed.

(** ** Readers: what a successful read leaves *)

Lemma ReadFull_ok (n : nat) (r bs r' : Reader) :
  ReadFull n r = Ok (bs, r') ->
  (n <= List.length r)%nat /\ bs = firstn n r /\ r' = skipn n r.
Proof.
  unfold ReadFull. destruct (n <=? List.length r)%nat eqn:E.
  - intros H. injection H as <- <-. apply Nat.leb_le in E. auto.
  - destruct r; discriminate.
Qed.

Lemma ReadFull_enough (n : nat) (r : Reader) :
  (n <= List.length r)%nat -> ReadFull n r = Ok (firstn n r, skipn n r).
Proof.
  intros H. unfold ReadFull. apply Nat.leb_le in H. rewrite H. reflexivity.
Qed.

Lemma ReadPixelColor_ok (pr : PixelReader) (r r' : Reader) (col : Color) :
  ReadPixelColor pr r = Ok (col, r') ->
  (BytesPerPixel pr <= List.length r)%nat /\ r' = skipn (BytesPerPixel pr) r.
Proof.
  unfold ReadPixelColor.
  destruct (ReadFull (BytesPerPixel pr) r) as [[bs r1]| |] eqn:E; cbn [obind];
    try discriminate.
  apply ReadFull_ok in E as (Hle & _ & ->).
  destruct (pixelToColor pr (bytesToPixel pr bs)); cbn [obind]; try discriminate.
  intros H. injection H as _ <-. auto.
Qed.

Lemma ReadPixelColor_true_color (pr : PixelReader) (r : Reader) :
  TrueColor (pixelFormat pr) = true ->
  (BytesPerPixel pr <= List.length r)%nat ->
  exists col, ReadPixelColor pr r = Ok (col, skipn (BytesPerPixel pr) r).
Proof.
  intros Htc Hle. unfold ReadPixelColor.
  rewrite (ReadFull_enough _ _ Hle). cbn [obind].
  unfold pixelToColor. rewrite Htc. cbn [obind]. eexists. reflexivity.
Qed.

Lemma read_u16_ok (r r' : Reader) (v : Z) :
  Forall is_u8 r -> read_u16 r = Ok (v, r') -> is_u16 v /\ Forall is_u8 r'.
Proof.
  intros Hr. destruct r as [|a [|b r0]]; try discriminate.
  rewrite read_u16_cons. intros H. injection H as <- <-.
  inversion Hr as [|? ? Ha Hr1]; subst. inversion Hr1 as [|? ? Hb Hr2]; subst.
  split; [apply BigEndian_Uint16_range; assumption|exact Hr2].
Qed.

(** ** Decoders: Raw *)

Lemma raw_pixel_step (pr : PixelReader) (total : nat) (r : Reader) (m index : nat)
  (s s' : list Color * Reader) :
  raw_progress total (BytesPerPixel pr) r m s ->
  (let! (color, r1) :=
     wrap (encodingError "RawEncoding.Read" "failed to read pixel data")
          (ReadPixelColor pr (snd s)) in
   Ok (<[index := color]> (fst s), r1)) = Ok s' ->
  raw_progress total (BytesPerPixel pr) r (S m) s'.
Proof.
  intros (Hlen & Hle & Hr) Hbody.
  destruct (ReadPixelColor pr (snd s)) as [[color r1]| |] eqn:E; cbn [wrap obind] in Hbody;
    try discriminate.
  injection Hbody as <-.
  apply ReadPixelColor_ok in E as (Hbpp & ->).
  rewrite Hr in *. rewrite length_drop in Hbpp.
  unfold raw_progress. cbn [fst snd].
  rewrite length_insert, drop_drop.
  split; [exact Hlen|]. split; [lia|]. f_equal. lia.
Qed.

Lemma raw_pixel_progress (pr : PixelReader) (total : nat) (r : Reader) (m index : nat)
  (s : list Color * Reader) :
  TrueColor (pixelFormat pr) = true ->
  (S m * BytesPerPixel pr <= List.length r)%nat ->
  raw_progress total (BytesPerPixel pr) r m s ->
  exists s',
    (let! (color, r1) :=
       wrap (encodingError "RawEncoding.Read" "failed to read pixel data")
            (ReadPixelColor pr (snd s)) in
     Ok (<[index := color]> (fst s), r1)) = Ok s'
    /\ raw_progress total (BytesPerPixel pr) r (S m) s'.
Proof.
  intros Htc Hnext (Hlen & Hle & Hr).
  destruct (ReadPixelColor_true_color pr (snd s) Htc) as (col & E).
  { rewrite Hr, length_drop. lia. }
  rewrite E. cbn [wrap obind]. eexists. split; [reflexivity|].
  unfold raw_progress. cbn [fst snd].
  rewrite length_insert, Hr, drop_drop.
  split; [exact Hlen|]. split; [lia|]. f_equal. lia.
Qed.

(** X12.  [RawEncoding.Read] on a rectangle of [Width] x [Height] pixels
    takes exactly [Width * Height * (BPP / 8)] bytes.  Whenever it
    succeeds it returns [Width * Height] colours and leaves the input at
    the byte after the pixel data; with a true-colour format it succeeds
    as soon as that many bytes are there. *)
Theorem RawEncoding_Read_consumes (c : ClientState) (rect : Rectangle) (r : Reader) :
  0 <= Width rect -> 0 <= Height rect ->
  let n := Z.to_nat (Height rect * Width rect) in
  let size := (n * Z.to_nat (BPP (PixelFormat_ c) / 8))%nat in
  (forall d r',
      RawEncoding_Read c rect r = Ok (d, r') ->
      exists colors,
        d = mkDecoded 0 (RawData colors) None
        /\ List.length colors = n
        /\ (size <= List.length r)%nat
        /\ r' = skipn size r)
  /\ (TrueColor (PixelFormat_ c) = true ->
      (size <= List.length r)%nat ->
      exists d, RawEncoding_Read c rect r = Ok (d, skipn size r)).
Proof.
  intros Hw Hh n size.
  set (pr := NewPixelReader (PixelFormat_ c) (ColorMap c)).
  set (Wn := Z.to_nat (Width rect)). set (Hn := Z.to_nat (Height rect)).
  assert (Hn_eq : n = (Hn * Wn)%nat) by (unfold n, Hn, Wn; apply Z2Nat.inj_mul; lia).
  assert (Hbpp : BytesPerPixel pr = Z.to_nat (BPP (PixelFormat_ c) / 8)) by reflexivity.
  assert (Hinit : raw_progress n (BytesPerPixel pr) r 0 (repeat zeroColor n, r)).
  { unfold raw_progress. cbn [fst snd Nat.mul]. rewrite repeat_length.
    split; [reflexivity|]. split; [lia|reflexivity]. }
  split.
  - intros d r' Hread. unfold RawEncoding_Read in Hread. fold pr n Wn Hn in Hread.
    match type of Hread with
    | obind ?loop _ = _ => destruct loop as [[colors r1]| |] eqn:Eloop
    end; cbn [obind] in Hread; try discriminate.
    injection Hread as <- <-.
    assert (Hfin : raw_progress n (BytesPerPixel pr) r (Hn * Wn) (colors, r1)).
    { refine (for_loop_inv
                (fun ky s => raw_progress n (BytesPerPixel pr) r (ky * Wn) s)
                _ _ _ _ _ _ Hinit Eloop).
      intros ky t t' _ Ht Hrow. cbn beta in Ht, Hrow |- *.
      replace (S ky * Wn)%nat with (ky * Wn + Wn)%nat by lia.
      refine (for_loop_inv
                (fun kx s => raw_progress n (BytesPerPixel pr) r (ky * Wn + kx) s)
                _ _ _ _ _ _ _ Hrow).
      - intros kx u u' _ Hu Hpix. cbn beta in Hu, Hpix |- *.
        replace (ky * Wn + S kx)%nat with (S (ky * Wn + kx)) by lia.
        exact (raw_pixel_step pr n r _ _ u u' Hu Hpix).
      - cbn beta. rewrite Nat.add_0_r. exact Ht. }
    destruct Hfin as (Hlen & Hle & Hr). cbn [fst snd] in Hlen, Hr.
    exists colors. unfold size. rewrite <- Hbpp, Hn_eq.
    split; [reflexivity|]. split; [rewrite <- Hn_eq; exact Hlen|]. split; assumption.
  - intros Htc Hsize. unfold RawEncoding_Read. fold pr n Wn Hn.
    destruct (for_loop_total
                (fun ky s => raw_progress n (BytesPerPixel pr) r (ky * Wn) s)
                (fun y s =>
                   for_loop Wn 0
                     (fun x (s : list Color * Reader) =>
                        let! (color, r1) :=
                          wrap (encodingError "RawEncoding.Read" "failed to read pixel data")
                               (ReadPixelColor pr (snd s)) in
                        Ok (<[Z.to_nat (y * Width rect + x) := color]> (fst s), r1)) s)
                Hn 0 (repeat zeroColor n, r)) as ([colors r1] & Eloop & Hfin).
    + intros ky s Hky Hs.
      destruct (for_loop_total
                  (fun kx s => raw_progress n (BytesPerPixel pr) r (ky * Wn + kx) s)
                  (fun x (s : list Color * Reader) =>
                     let! (color, r1) :=
                       wrap (encodingError "RawEncoding.Read" "failed to read pixel data")
                            (ReadPixelColor pr (snd s)) in
                     Ok (<[Z.to_nat ((0 + Z.of_nat ky) * Width rect + x) := color]> (fst s),
                         r1))
                  Wn 0 s) as (s' & Einner & Hs').
      * intros kx t Hkx Ht.
        cbn beta in Ht |- *.
        replace (ky * Wn + S kx)%nat with (S (ky * Wn + kx)) by lia.
        apply raw_pixel_progress; [exact Htc| |exact Ht].
        unfold size in Hsize. rewrite <- Hbpp, Hn_eq in Hsize.
        assert (S (ky * Wn + kx) <= Hn * Wn)%nat by nia.
        nia.
      * rewrite Nat.add_0_r. exact Hs.
      * exists s'. split; [exact Einner|].
        replace (S ky * Wn)%nat with (ky * Wn + Wn)%nat by lia. exact Hs'.
    + exact Hinit.
    + rewrite Eloop. cbn [obind].
      destruct Hfin as (_ & _ & Hr). cbn [snd] in Hr.
      eexists. unfold size. rewrite <- Hbpp, Hn_eq, Hr. reflexivity.
Qed.

Lemma RawEncoding_Read_consumes_witness :
  exists d,
    RawEncoding_Read (state sample_conn) (mkRectangle 0 0 2 1 None)
      [0; 0; 255; 0; 0; 255; 0; 0; 7]
    = Ok (d, [7]).
Proof.
  destruct (RawEncoding_Read_consumes (state sample_conn) (mkRectangle 0 0 2 1 None)
              [0; 0; 255; 0; 0; 255; 0; 0; 7]) as [_ H].
  - cbn. lia.
  - cbn. lia.
  - apply H; [reflexivity|]. vm_compute. lia.
Defined.

(** ** Decoders: CopyRect and RRE *)

(** X13.  [CopyRectEncoding.Read] takes four bytes, the source position,
    and accepts it exactly when both coordinates are at most 32767.  It
    looks neither at the rectangle nor at the framebuffer size, so a
    source area that lies outside the framebuffer is accepted. *)
Theorem CopyRect_source_check (c : ClientState) (rect : Rectangle) (srcX srcY : Z)
  (rest : list Z) :
  is_u16 srcX -> is_u16 srcY ->
  (srcX <= 32767 /\ srcY <= 32767 ->
   CopyRectEncoding_Read c rect
     (BigEndian_PutUint16 srcX ++ BigEndian_PutUint16 srcY ++ rest)
   = Ok (mkCopyRect srcX srcY, rest))
  /\ (32767 < srcX \/ 32767 < srcY ->
      exists err,
        CopyRectEncoding_Read c rect
          (BigEndian_PutUint16 srcX ++ BigEndian_PutUint16 srcY ++ rest)
        = Fail err
        /\ GetErrorCode err = Some ErrEncoding).
Proof.
  intros Hx Hy. unfold CopyRectEncoding_Read.
  rewrite (read_u16_put _ _ Hx). cbn [wrap obind].
  rewrite (read_u16_put _ _ Hy). cbn [wrap obind].
  rewrite !Z.gtb_ltb. split.
  - intros [Hsx Hsy].
    assert (E1 : (32767 <? srcX) = false) by (apply Z.ltb_ge; exact Hsx).
    assert (E2 : (32767 <? srcY) = false) by (apply Z.ltb_ge; exact Hsy).
    rewrite E1, E2. reflexivity.
  - intros Hbad.
    destruct (32767 <? srcX) eqn:E1.
    + eexists. split; reflexivity.
    + destruct (32767 <? srcY) eqn:E2.
      * eexists. split; reflexivity.
      * apply Z.ltb_ge in E1, E2. lia.
Qed.

Lemma CopyRect_source_check_witness :
  CopyRectEncoding_Read (state sample_conn) (mkRectangle 0 0 800 600 None)
    (BigEndian_PutUint16 30000 ++ BigEndian_PutUint16 30000 ++ [])
  = Ok (mkCopyRect 30000 30000, []).
Proof.
  destruct (CopyRect_source_check (state sample_conn) (mkRectangle 0 0 800 600 None)
              30000 30000 []) as [H _].
  - unfold is_u16; lia.
  - unfold is_u16; lia.
  - apply H. lia.
Defined.

Lemma ValidateRectangle_within (x y width height fbWidth fbHeight : Z) :
  is_u16 x -> is_u16 y -> is_u16 width -> is_u16 height ->
  InputValidator.ValidateRectangle x y width height fbWidth fbHeight = None ->
  0 < width /\ 0 < height /\ x + width <= fbWidth /\ y + height <= fbHeight.
Proof.
  intros Hx Hy Hw Hh Hv.
  pose proof (proj1 (ValidateRectangle_accepts
                       (mkClientState [] fbWidth fbHeight [] zeroPixelFormat)
                       (mkRectangle x y width height None) Hx Hy Hw Hh) Hv) as Hin.
  unfold within_framebuffer in Hin. cbn in Hin. lia.
Qed.

Lemma read_rre_subrect_step (c : ClientState) (rect : Rectangle) (total k : nat)
  (s s' : list RRESubrectangle * Reader) :
  (k < total)%nat ->
  rre_progress total (Width rect) (Height rect) k s ->
  read_rre_subrect c rect (0 + Z.of_nat k) s = Ok s' ->
  rre_progress total (Width rect) (Height rect) (S k) s'.
Proof.
  intros Hk (Hlen & Hbytes & Hin) Hbody.
  destruct s as [subrects r]. cbn [fst snd] in *.
  unfold read_rre_subrect in Hbody.
  destruct (readPixelColor r (PixelFormat_ c) (ColorMap c)) as [[color r0]| |] eqn:Ec;
    cbn [wrap obind] in Hbody; try discriminate.
  apply ReadPixelColor_ok in Ec as (_ & ->).
  pose proof (Forall_drop _ (BytesPerPixel (NewPixelReader (PixelFormat_ c) (ColorMap c)))
                _ Hbytes) as Hb0.
  destruct (read_u16 _) as [[x r1]| |] eqn:Ex in Hbody; cbn [wrap obind] in Hbody;
    try discriminate.
  apply (read_u16_ok _ _ _ Hb0) in Ex as (Hx & Hb1).
  destruct (read_u16 r1) as [[y r2]| |] eqn:Ey; cbn [wrap obind] in Hbody;
    try discriminate.
  apply (read_u16_ok _ _ _ Hb1) in Ey as (Hy & Hb2).
  destruct (read_u16 r2) as [[w r3]| |] eqn:Ew; cbn [wrap obind] in Hbody;
    try discriminate.
  apply (read_u16_ok _ _ _ Hb2) in Ew as (Hw & Hb3).
  destruct (read_u16 r3) as [[h r4]| |] eqn:Eh; cbn [wrap obind] in Hbody;
    try discriminate.
  apply (read_u16_ok _ _ _ Hb3) in Eh as (Hh & Hb4).
  destruct (InputValidator.ValidateRectangle x y w h (Width rect) (Height rect))
    as [err|] eqn:Ev; [discriminate|].
  injection Hbody as <-.
  apply (ValidateRectangle_within _ _ _ _ _ _ Hx Hy Hw Hh) in Ev.
  unfold rre_progress. cbn [fst snd].
  rewrite length_insert. split; [exact Hlen|]. split; [exact Hb4|].
  replace (Z.to_nat (0 + Z.of_nat k)) with k by lia.
  rewrite (take_S_r _ _ (mkRRESubrectangle color x y w h))
    by (apply list_lookup_insert_eq; lia).
  rewrite take_insert_ge by lia.
  apply Forall_app. split; [exact Hin|].
  constructor; [|constructor]. unfold rre_within. cbn. exact Ev.
Qed.

(** X14.  Whenever [RREEncoding.Read] succeeds, it returns as many
    sub-rectangles as the message announced, at most 1000000, and every
    one of them is non-empty and lies within the rectangle being
    decoded: [x + width <= Width] and [y + height <= Height]. *)
Theorem RRE_subrectangles_within (c : ClientState) (rect : Rectangle) (r r' : Reader)
  (enc : RREEncoding) :
  Forall is_u8 r ->
  RREEncoding_Read c rect r = Ok (enc, r') ->
  Z.of_nat (List.length (Subrectangles enc)) = BigEndian_Uint32 (firstn 4 r)
  /\ Z.of_nat (List.length (Subrectangles enc)) <= 1000000
  /\ Forall (rre_within (Width rect) (Height rect)) (Subrectangles enc).
Proof.
  intros Hbytes Hread. unfold RREEncoding_Read in Hread.
  match type of Hread with
  | obind ?chk _ = _ => destruct chk as [[]| |]
  end; cbn [obind] in Hread; try discriminate.
  destruct (read_u32 r) as [[numSubrects r0]| |] eqn:En; cbn [wrap obind] in Hread;
    try discriminate.
  assert (Hn : numSubrects = BigEndian_Uint32 (firstn 4 r)
               /\ 0 <= numSubrects /\ Forall is_u8 r0).
  { destruct r as [|a [|b [|c0 [|d r1]]]]; try discriminate.
    rewrite read_u32_cons in En. injection En as <- <-.
    inversion Hbytes as [|? ? Ha H1]; subst. inversion H1 as [|? ? Hb H2]; subst.
    inversion H2 as [|? ? Hc H3]; subst. inversion H3 as [|? ? Hd H4]; subst.
    destruct (Uint32_assemble true a b c0 d Ha Hb Hc Hd) as [E Hr].
    cbn [byteOrder_Uint32] in E.
    split; [reflexivity|]. split; [rewrite E; lia|exact H4]. }
  destruct Hn as (Hcount & Hpos & Hb0).
  unfold maxSubrects in Hread. rewrite Z.gtb_ltb in Hread.
  destruct (1000000 <? numSubrects) eqn:Emax; [discriminate|].
  apply Z.ltb_ge in Emax.
  destruct (readPixelColor r0 (PixelFormat_ c) (ColorMap c)) as [[bg r1]| |] eqn:Ebg;
    cbn [wrap obind] in Hread; try discriminate.
  apply ReadPixelColor_ok in Ebg as (_ & ->).
  match type of Hread with
  | obind ?loop _ = _ => destruct loop as [[subrects r2]| |] eqn:Eloop
  end; cbn [obind] in Hread; try discriminate.
  injection Hread as <- <-. cbn [Subrectangles].
  assert (Hfin : rre_progress (Z.to_nat numSubrects) (Width rect) (Height rect)
                   (Z.to_nat numSubrects) (subrects, r2)).
  { refine (for_loop_inv
              (fun k s => rre_progress (Z.to_nat numSubrects) (Width rect) (Height rect) k s)
              _ _ _ _ _ _ _ Eloop).
    - intros k t t' Hk Ht Hbody. exact (read_rre_subrect_step c rect _ k t t' Hk Ht Hbody).
    - unfold rre_progress. cbn [fst snd firstn].
      rewrite repeat_length. split; [reflexivity|].
      split; [apply Forall_drop; exact Hb0|constructor]. }
  destruct Hfin as (Hlen & _ & Hall). cbn [fst] in Hlen, Hall.
  rewrite <- Hlen, firstn_all in Hall.
  rewrite Hlen, Z2Nat.id by exact Hpos.
  split; [exact Hcount|]. split; [exact Emax|exact Hall].
Qed.

Lemma RRE_subrectangles_within_witness :
  Z.of_nat (List.length [mkRRESubrectangle (mkColor 0 255 0) 1 2 3 4])
  = BigEndian_Uint32 (firstn 4 ([0; 0; 0; 1] ++ [0; 0; 255; 0] ++ [0; 255; 0; 0]
                                ++ [0; 1; 0; 2; 0; 3; 0; 4]))
  /\ Z.of_nat (List.length [mkRRESubrectangle (mkColor 0 255 0) 1 2 3 4]) <= 1000000
  /\ Forall (rre_within 10 10) [mkRRESubrectangle (mkColor 0 255 0) 1 2 3 4].
Proof.
  apply (RRE_subrectangles_within (state sample_conn) (mkRectangle 0 0 10 10 None)
           ([0; 0; 0; 1] ++ [0; 0; 255; 0] ++ [0; 255; 0; 0] ++ [0; 1; 0; 2; 0; 3; 0; 4])
           [] (mkRRE (mkColor 255 0 0) [mkRRESubrectangle (mkColor 0 255 0) 1 2 3 4])).
  - repeat constructor; unfold is_u8; lia.
  - reflexivity.
Defined.

(** ** The decoder table and the DesktopSize pseudo-encoding *)

Lemma encMap_configured (encs : list Encoding) (t : Z) :
  forall m : gmap Z Encoding,
    (Forall (fun enc => Type_ enc <> t) encs ->
     foldl (fun m enc => <[Type_ enc := enc]> m) m encs !! t = m !! t)
    /\ (forall pre e post,
           encs = pre ++ e :: post -> Type_ e = t ->
           Forall (fun enc => Type_ enc <> t) post ->
           foldl (fun m enc => <[Type_ enc := enc]> m) m encs !! t = Some e).
Proof.
  induction encs as [|enc encs IH]; intros m; split.
  - intros _. reflexivity.
  - intros pre e post E. destruct pre; discriminate.
  - intros Hall. inversion Hall as [|? ? Hne Hrest]; subst.
    cbn [foldl]. rewrite (proj1 (IH _) Hrest). apply lookup_insert_ne. exact Hne.
  - intros pre e post E Ht Hpost. cbn [foldl].
    destruct pre as [|p pre]; cbn [app] in E; injection E as -> ->.
    + rewrite (proj1 (IH _) Hpost). rewrite Ht. apply lookup_insert_eq.
    + apply (proj2 (IH _) pre e post eq_refl Ht Hpost).
Qed.

(** The three built-in decoders are entered last. *)
Lemma buildEncMap_builtins (encs : list Encoding) :
  buildEncMap encs !! 0 = Some RawEncoding
  /\ buildEncMap encs !! (-239) = Some CursorPseudoEncoding
  /\ buildEncMap encs !! (-223) = Some DesktopSizePseudoEncoding.
Proof.
  unfold buildEncMap. cbn [Type_ RawEncoding CursorPseudoEncoding DesktopSizePseudoEncoding].
  split; [|split].
  - rewrite !lookup_insert_ne by lia. apply lookup_insert_eq.
  - rewrite lookup_insert_ne by lia. apply lookup_insert_eq.
  - apply lookup_insert_eq.
Qed.

(** X15.  The decoder table of [FramebufferUpdateMessage.Read] always
    maps type 0 to the built-in Raw decoder, -239 to the built-in Cursor
    decoder and -223 to the built-in DesktopSize decoder, whatever is
    configured in [Encs].  Every other type is decoded by the last
    configured encoding of that type, and has no decoder when none is
    configured. *)
Theorem buildEncMap_lookup (encs : list Encoding) :
  buildEncMap encs !! 0 = Some RawEncoding
  /\ buildEncMap encs !! (-239) = Some CursorPseudoEncoding
  /\ buildEncMap encs !! (-223) = Some DesktopSizePseudoEncoding
  /\ forall t : Z,
       t <> 0 -> t <> -239 -> t <> -223 ->
       (Forall (fun enc => Type_ enc <> t) encs -> buildEncMap encs !! t = None)
       /\ (forall pre e post,
              encs = pre ++ e :: post -> Type_ e = t ->
              Forall (fun enc => Type_ enc <> t) post ->
              buildEncMap encs !! t = Some e).
Proof.
  unfold buildEncMap. cbn [Type_ RawEncoding CursorPseudoEncoding DesktopSizePseudoEncoding].
  split; [|split; [|split]].
  - rewrite !lookup_insert_ne by lia. apply lookup_insert_eq.
  - rewrite lookup_insert_ne by lia. apply lookup_insert_eq.
  - apply lookup_insert_eq.
  - intros t H0 H239 H223.
    rewrite !lookup_insert_ne by congruence.
    destruct (encMap_configured encs t ∅) as [Hnone Hsome].
    split; [|exact Hsome].
    intros Hall. rewrite (Hnone Hall). apply lookup_empty.
Qed.

(** X16.  A FramebufferUpdate message whose only rectangle has the
    DesktopSize type -223 and a size from 1 x 1 to 32767 x 32767 with at
    most 100 * 2^20 pixels is accepted without any check against the
    current framebuffer and without pixel data: the message ends after
    the rectangle header, and the connection then has the size of the
    rectangle as its framebuffer size, all other fields as before. *)
Theorem FramebufferUpdate_DesktopSize (c : ClientConn) (padding x y w h : Z)
  (rest : list Z) :
  is_u16 x -> is_u16 y ->
  1 <= w <= 32767 -> 1 <= h <= 32767 -> w * h <= 100 * 1024 * 1024 ->
  FramebufferUpdateMessage_Read c
    ([padding] ++ BigEndian_PutUint16 1
     ++ BigEndian_PutUint16 x ++ BigEndian_PutUint16 y
     ++ BigEndian_PutUint16 w ++ BigEndian_PutUint16 h
     ++ BigEndian_PutUint32 (u32 (-223)) ++ rest)
  = Ok ([mkRectangle x y w h
           (Some (mkDecoded (-223) (DesktopSizeData w h)
                    (Some (DesktopSizePseudoEncoding_Handle w h))))],
        mkClientConn
          (mkClientState (ColorMap (state c)) w h (DesktopName (state c))
             (PixelFormat_ (state c)))
          (Encs c) (sent c),
        rest).
Proof.
  intros Hx Hy Hw Hh Harea.
  unfold FramebufferUpdateMessage_Read. cbn [app].
  rewrite ReadFull_1_cons. cbn [wrap obind].
  rewrite read_u16_put by (unfold is_u16; lia). cbn [wrap obind].
  change (1 >? MaxRectanglesPerUpdate) with false. cbv iota.
  change (Z.to_nat 1) with 1%nat. cbn [for_loop].
  unfold readRectangle at 1. cbn [input conn rects].
  rewrite (read_u16_put _ _ Hx). cbn [wrap obind].
  rewrite (read_u16_put _ _ Hy). cbn [wrap obind].
  rewrite read_u16_put by (unfold is_u16; lia). cbn [wrap obind].
  rewrite read_u16_put by (unfold is_u16; lia). cbn [wrap obind].
  rewrite read_i32_put by (unfold is_i32; lia). cbn [wrap obind].
  unfold selectEncoding.
  change (InputValidator.ValidateEncodingType (-223)) with (@None error).
  change (-223 <? 0) with true. cbn [negb obind].
  destruct (buildEncMap_builtins (Encs c)) as [_ [_ ->]].
  cbn [obind Read DesktopSizePseudoEncoding X Y Width Height].
  unfold DesktopSizePseudoEncoding_Read. cbn [Width Height].
  assert (E1 : (w =? 0) = false) by (apply Z.eqb_neq; lia).
  assert (E2 : (h =? 0) = false) by (apply Z.eqb_neq; lia).
  assert (E3 : (w >? 32767) = false) by (rewrite Z.gtb_ltb; apply Z.ltb_ge; lia).
  assert (E4 : (h >? 32767) = false) by (rewrite Z.gtb_ltb; apply Z.ltb_ge; lia).
  assert (E5 : (w * h >? 100 * 1024 * 1024) = false)
    by (rewrite Z.gtb_ltb; apply Z.ltb_ge; lia).
  rewrite E1, E2, E3, E4, E5. cbn [orb wrap obind dec_Handle].
  reflexivity.
Qed.

Lemma FramebufferUpdate_DesktopSize_witness :
  FramebufferUpdateMessage_Read sample_conn
    ([0] ++ BigEndian_PutUint16 1
     ++ BigEndian_PutUint16 0 ++ BigEndian_PutUint16 0
     ++ BigEndian_PutUint16 1024 ++ BigEndian_PutUint16 768
     ++ BigEndian_PutUint32 (u32 (-223)) ++ [])
  = Ok ([mkRectangle 0 0 1024 768
           (Some (mkDecoded (-223) (DesktopSizeData 1024 768)
                    (Some (DesktopSizePseudoEncoding_Handle 1024 768))))],
        mkClientConn
          (mkClientState (ColorMap (state sample_conn)) 1024 768
             (DesktopName (state sample_conn)) (PixelFormat_ (state sample_conn)))
          (Encs sample_conn) (sent sample_conn),
        []).
Proof.
  apply (FramebufferUpdate_DesktopSize sample_conn 0 0 0 1024 768 []);
    unfold is_u16; lia.
Defined.

(** ** Decoders: the Cursor pseudo-encoding *)

(** X17.  For a cursor of [Width] x [Height] pixels, both at most 256
    and not both zero, [CursorPseudoEncoding.Read] takes
    [Width * Height * (BPP / 8)] bytes of pixel data and then
    [((Width + 7) / 8) * Height] bytes of mask, returns both unchanged
    with the position of the rectangle as the hotspot, and leaves the
    input at the byte after the mask. *)
Theorem Cursor_data_layout (c : ClientState) (rect : Rectangle)
  (pixels mask rest : list Z) :
  0 <= Width rect <= 256 -> 0 <= Height rect <= 256 ->
  Width rect <> 0 \/ Height rect <> 0 ->
  List.length pixels
  = Z.to_nat (Width rect * Height rect * (BPP (PixelFormat_ c) / 8)) ->
  List.length mask = Z.to_nat ((Width rect + 7) / 8 * Height rect) ->
  CursorPseudoEncoding_Read c rect (pixels ++ mask ++ rest)
  = Ok (mkDecoded (-239)
          (CursorData (Width rect) (Height rect) (X rect) (Y rect) pixels mask)
          (Some (fun c => c)),
        rest).
Proof.
  intros Hw Hh Hnz Hpix Hmask. unfold CursorPseudoEncoding_Read.
  assert (E0 : (Width rect =? 0) && (Height rect =? 0) = false).
  { apply andb_false_iff. destruct Hnz as [H|H]; [left|right]; apply Z.eqb_neq; exact H. }
  assert (E1 : (Width rect >? 256) = false) by (rewrite Z.gtb_ltb; apply Z.ltb_ge; lia).
  assert (E2 : (Height rect >? 256) = false) by (rewrite Z.gtb_ltb; apply Z.ltb_ge; lia).
  rewrite E0, E1, E2. cbn [orb].
  unfold ReadPixelData, calculatePixelDataSize, calculateMaskDataSize.
  rewrite <- Hpix, ReadFull_app. cbn [wrap obind].
  rewrite (u16_id (Width rect + 7)) by (unfold is_u16; lia).
  rewrite <- Hmask, ReadFull_app. cbn [wrap obind].
  reflexivity.
Qed.

Lemma Cursor_data_layout_witness :
  CursorPseudoEncoding_Read (state sample_conn) (mkRectangle 3 4 2 1 None)
    ([1; 2; 3; 4; 5; 6; 7; 8] ++ [192] ++ [9])
  = Ok (mkDecoded (-239) (CursorData 2 1 3 4 [1; 2; 3; 4; 5; 6; 7; 8] [192])
          (Some (fun c => c)),
        [9]).
Proof.
  apply (Cursor_data_layout (state sample_conn) (mkRectangle 3 4 2 1 None)
           [1; 2; 3; 4; 5; 6; 7; 8] [192] [9]).
  - cbn. lia.
  - cbn. lia.
  - left. cbn. lia.
  - reflexivity.
  - reflexivity.
Defined.

(** ** Authentication: negotiation *)

Lemma negotiate_server_Some (r : AuthRegistry) (p : Z) (serverTypes : list Z)
  (auth : ClientAuth) (t : Z) :
  negotiate_server r p serverTypes = Some (auth, t)
  <-> t = p /\ In p serverTypes /\ r !! p = Some auth.
Proof.
  induction serverTypes as [|s rest IH]; cbn [negotiate_server In].
  - split; [discriminate|intros (_ & [] & _)].
  - unfold IsSupported, CreateAuth.
    destruct (p =? s) eqn:Eps; [apply Z.eqb_eq in Eps|apply Z.eqb_neq in Eps].
    + subst s. destruct (r !! p) as [a|] eqn:Er; cbn [andb].
      * split.
        -- intros H. injection H as <- <-. auto.
        -- intros (-> & _ & H). injection H as <-. reflexivity.
      * rewrite IH. split; [intros (_ & _ & H); discriminate|intros (_ & _ & H); discriminate].
    + cbn [andb]. rewrite IH. split.
      * intros (-> & Hin & Hr). auto.
      * intros (-> & [Hs|Hin] & Hr); [congruence|auto].
Qed.

Lemma negotiate_server_None (r : AuthRegistry) (p : Z) (serverTypes : list Z) :
  negotiate_server r p serverTypes = None
  <-> ~ (In p serverTypes /\ is_Some (r !! p)).
Proof.
  split.
  - intros Hnone (Hin & a & Ha).
    assert (H : negotiate_server r p serverTypes = Some (a, p))
      by (apply negotiate_server_Some; auto).
    congruence.
  - intros Hno. destruct (negotiate_server r p serverTypes) as [[a t]|] eqn:E;
      [|reflexivity].
    apply negotiate_server_Some in E as (_ & Hin & Ha).
    exfalso. apply Hno. split; [exact Hin|exists a; exact Ha].
Qed.

Lemma negotiate_preferred_Some (r : AuthRegistry) (preferredOrder serverTypes : list Z)
  (auth : ClientAuth) (t : Z) :
  negotiate_preferred r preferredOrder serverTypes = Some (auth, t)
  <-> exists pre post,
        preferredOrder = pre ++ t :: post
        /\ Forall (fun p => ~ (In p serverTypes /\ is_Some (r !! p))) pre
        /\ In t serverTypes /\ r !! t = Some auth.
Proof.
  induction preferredOrder as [|p rest IH]; cbn [negotiate_preferred].
  - split; [discriminate|]. intros (pre & post & E & _). destruct pre; discriminate.
  - destruct (negotiate_server r p serverTypes) as [[a t']|] eqn:Es.
    + apply negotiate_server_Some in Es as (-> & Hin & Ha). split.
      * intros H. injection H as <- <-. exists [], rest. repeat split; auto.
      * intros (pre & post & E & Hpre & Hint & Hat).
        destruct pre as [|q pre]; cbn [app] in E; injection E as -> ->.
        -- congruence.
        -- inversion Hpre as [|? ? Hq _]; subst. exfalso. apply Hq.
           split; [exact Hin|exists a; exact Ha].
    + apply negotiate_server_None in Es. rewrite IH. split.
      * intros (pre & post & -> & Hpre & Hin & Ha).
        exists (p :: pre), post. repeat split; auto.
      * intros (pre & post & E & Hpre & Hin & Ha).
        destruct pre as [|q pre]; cbn [app] in E; injection E as -> ->.
        -- exfalso. apply Es. split; [exact Hin|exists auth; exact Ha].
        -- inversion Hpre; subst. exists pre, post. repeat split; auto.
Qed.

Lemma negotiate_preferred_None (r : AuthRegistry) (preferredOrder serverTypes : list Z) :
  negotiate_preferred r preferredOrder serverTypes = None
  <-> Forall (fun p => ~ (In p serverTypes /\ is_Some (r !! p))) preferredOrder.
Proof.
  induction preferredOrder as [|p rest IH]; cbn [negotiate_preferred].
  - split; [constructor|reflexivity].
  - destruct (negotiate_server r p serverTypes) as [[a t]|] eqn:Es.
    + apply negotiate_server_Some in Es as (-> & Hin & Ha).
      split; [discriminate|]. intros H. inversion H as [|? ? Hp _]; subst.
      exfalso. apply Hp. split; [exact Hin|exists a; exact Ha].
    + apply negotiate_server_None in Es. rewrite IH. split.
      * intros H. constructor; assumption.
      * intros H. inversion H; assumption.
Qed.

(** X18.  [NegotiateAuth] walks the preferred order (the server's order
    when none is given) and returns the first type in it that the server
    offers and the registry has a factory for, with the method that this
    factory makes; it fails with an Unsupported error exactly when no
    type of the preferred order is both offered and registered. *)
Theorem NegotiateAuth_first_preferred (r : AuthRegistry) (serverTypes : list Z)
  (preferredOrder : option (list Z)) :
  let order := match preferredOrder with
               | None => serverTypes
               | Some preferredOrder => preferredOrder
               end in
  (forall auth t,
      NegotiateAuth r serverTypes preferredOrder = Ok (auth, t)
      <-> exists pre post,
            order = pre ++ t :: post
            /\ Forall (fun p => ~ (In p serverTypes /\ is_Some (r !! p))) pre
            /\ In t serverTypes /\ r !! t = Some auth)
  /\ ((exists err,
          NegotiateAuth r serverTypes preferredOrder = Fail err
          /\ GetErrorCode err = Some ErrUnsupported)
      <-> Forall (fun p => ~ (In p serverTypes /\ is_Some (r !! p))) order).
Proof.
  intros order. unfold NegotiateAuth. fold order. split.
  - intros auth t. rewrite <- negotiate_preferred_Some.
    destruct (negotiate_preferred r order serverTypes) as [[a t']|].
    + split; intros H; injection H as <- <-; reflexivity.
    + split; discriminate.
  - rewrite <- negotiate_preferred_None.
    destruct (negotiate_preferred r order serverTypes) as [[a t']|].
    + split; [intros (err & H & _); discriminate|discriminate].
    + split; [reflexivity|]. intros _. eexists. split; reflexivity.
Qed.

(** ** Authentication: the VNC password handshake *)

Lemma des_ecb_block_length (cryptBlock : list Z -> Z -> Z) (key block : list Z) :
  List.length (des_ecb_block cryptBlock key block) = 8%nat.
Proof. reflexivity. Qed.

(** X19.  [PasswordAuth.Handshake] reads the 16-byte challenge, writes
    as its only output the 16-byte response (the two halves of the
    challenge encrypted under the key made from the password) and leaves
    the input at the byte after the challenge.  When the input ends
    before the challenge is complete, it fails with a Network error and
    writes nothing. *)
Theorem PasswordAuth_Handshake_response (cryptBlock : list Z -> Z -> Z)
  (password challenge rest : list Z) (c : ClientConn) :
  List.length challenge = 16%nat ->
  PasswordAuth_Handshake cryptBlock password c (challenge ++ rest) WriteOk
  = (mkClientConn (state c) (Encs c)
       (sent c
        ++ des_ecb_block cryptBlock (prepareKey password) (firstn 8 challenge)
        ++ des_ecb_block cryptBlock (prepareKey password) (skipn 8 challenge)),
     Ok rest)
  /\ forall (k : nat) (w : WriteResult),
       (k < 16)%nat ->
       exists err,
         PasswordAuth_Handshake cryptBlock password c (firstn k challenge) w
         = (c, Fail err)
         /\ GetErrorCode err = Some ErrNetwork.
Proof.
  intros Hlen. split.
  - unfold PasswordAuth_Handshake.
    change VNCChallengeSize with 16%nat. rewrite <- Hlen, ReadFull_app.
    cbn [wrap]. rewrite (EncryptVNCChallenge_key _ _ _ Hlen). cbn [wrap].
    unfold NewProtectedBytes, ProtectedBytes_Copy.
    rewrite repeat_length, Nat.ltb_irrefl. cbn [wrap].
    rewrite length_app, !des_ecb_block_length. cbn [Nat.add repeat skipn].
    rewrite app_nil_r. reflexivity.
  - intros k w Hk. unfold PasswordAuth_Handshake, ReadFull.
    change VNCChallengeSize with 16%nat.
    assert (E : (16 <=? List.length (firstn k challenge))%nat = false).
    { apply Nat.leb_gt. rewrite length_take. lia. }
    rewrite E. destruct (firstn k challenge); eexists; split; reflexivity.
Qed.

Lemma PasswordAuth_Handshake_response_witness :
  PasswordAuth_Handshake xor_cipher [0x31; 0x32] sample_conn
    ([0; 1; 2; 3; 4; 5; 6; 7; 8; 9; 10; 11; 12; 13; 14; 15] ++ [0; 0; 0; 0]) WriteOk
  = (mkClientConn (state sample_conn) (Encs sample_conn)
       (sent sample_conn
        ++ des_ecb_block xor_cipher (prepareKey [0x31; 0x32])
             (firstn 8 [0; 1; 2; 3; 4; 5; 6; 7; 8; 9; 10; 11; 12; 13; 14; 15])
        ++ des_ecb_block xor_cipher (prepareKey [0x31; 0x32])
             (skipn 8 [0; 1; 2; 3; 4; 5; 6; 7; 8; 9; 10; 11; 12; 13; 14; 15])),
     Ok [0; 0; 0; 0]).
Proof.
  destruct (PasswordAuth_Handshake_response xor_cipher [0x31; 0x32]
              [0; 1; 2; 3; 4; 5; 6; 7; 8; 9; 10; 11; 12; 13; 14; 15] [0; 0; 0; 0]
              sample_conn eq_refl) as [H _].
  exact H.
Defined.

(** ** The security part of the handshake *)

Lemma ValidateSecurityTypes_accepts (securityTypes : list Z) :
  (0 < List.length securityTypes <= 255)%nat ->
  Forall (fun t => t <> 0) securityTypes ->
  ValidateSecurityTypes securityTypes = None.
Proof.
  intros Hlen Hnz. unfold ValidateSecurityTypes.
  assert (E0 : (List.length securityTypes =? 0)%nat = false) by (apply Nat.eqb_neq; lia).
  assert (E1 : (255 <? List.length securityTypes)%nat = false) by (apply Nat.ltb_ge; lia).
  rewrite E0, E1. clear Hlen E0 E1.
  induction Hnz as [|t rest Ht _ IH]; [reflexivity|].
  cbn [validateSecurityTypes_loop]. unfold ValidateSecurityType.
  apply Z.eqb_neq in Ht. rewrite Ht. exact IH.
Qed.

(** The security types as the server sends them: the count, then the
    types. *)
Lemma read_security_types (securityTypes rest : list Z) :
  (0 < List.length securityTypes <= 255)%nat ->
  read_u8 ([Z.of_nat (List.length securityTypes)] ++ securityTypes ++ rest)
  = Ok (Z.of_nat (List.length securityTypes), securityTypes ++ rest)
  /\ (Z.of_nat (List.length securityTypes) =? 0) = false
  /\ ReadFull (Z.to_nat (Z.of_nat (List.length securityTypes))) (securityTypes ++ rest)
     = Ok (securityTypes, rest).
Proof.
  intros Hlen. split; [reflexivity|]. split; [apply Z.eqb_neq; lia|].
  rewrite Nat2Z.id. apply ReadFull_app.
Qed.

(** X20.  With a registry made by [NewAuthRegistry], a negotiation that
    selects security type 2 cannot complete the handshake: the method
    used is the one made by the registry's factory, whose password is
    empty, and not the one configured in [Auth], so after the byte 2 is
    written the handshake fails with an Authentication error, whatever
    passwords are configured. *)
Theorem handshake_registry_password_rejected (cryptBlock : list Z -> Z -> Z)
  (IsPrint_wide : Z -> bool) (cfg : ClientConfig) (c : ClientConn)
  (serverTypes rest : list Z) (auth : ClientAuth) (w2 w3 : WriteResult) :
  AuthRegistry_ cfg = Some NewAuthRegistry ->
  (0 < List.length serverTypes <= 255)%nat ->
  Forall (fun t => t <> 0) serverTypes ->
  NegotiateAuth NewAuthRegistry serverTypes (option_map (map SecurityType) (Auth cfg))
  = Ok (auth, 2) ->
  auth = PasswordAuth []
  /\ exists err,
       handshake_security cryptBlock IsPrint_wide cfg c
         ([Z.of_nat (List.length serverTypes)] ++ serverTypes ++ rest) WriteOk w2 w3
       = (mkClientConn (state c) (Encs c) (sent c ++ [2]), Fail err)
       /\ GetErrorCode err = Some ErrAuthentication.
Proof.
  intros Hreg Hlen Hnz Hneg.
  assert (Hauth : auth = PasswordAuth []).
  { unfold NegotiateAuth in Hneg.
    destruct (negotiate_preferred _ _ _) as [[a t]|] eqn:E; [|discriminate].
    injection Hneg as -> ->.
    apply negotiate_preferred_Some in E as (_ & _ & _ & _ & _ & Hr).
    assert (E2 : NewAuthRegistry !! 2 = Some (PasswordAuth [])) by reflexivity.
    rewrite E2 in Hr. injection Hr as <-. reflexivity. }
  split; [exact Hauth|]. subst auth.
  destruct (read_security_types serverTypes rest Hlen) as (Hn & Hz & Hts).
  unfold handshake_security.
  rewrite Hn. cbn [wrap obind]. rewrite Hz, Hts. cbn [wrap obind].
  rewrite (ValidateSecurityTypes_accepts _ Hlen Hnz), Hreg, Hneg.
  cbn [wrap obind writeWithContext ValidateAuthMethod SecurityType].
  change (2 =? 0) with false. cbv iota.
  eexists. split; reflexivity.
Qed.

Lemma handshake_registry_password_rejected_witness :
  exists err,
    handshake_security xor_cipher (fun _ => true)
      (mkClientConfig (Some [PasswordAuth [115; 101; 99; 114; 101; 116]])
         (Some NewAuthRegistry) false)
      sample_conn ([Z.of_nat (List.length [2])] ++ [2] ++ [1; 2; 3]) WriteOk WriteOk WriteOk
    = (mkClientConn (state sample_conn) (Encs sample_conn) (sent sample_conn ++ [2]),
       Fail err)
    /\ GetErrorCode err = Some ErrAuthentication.
Proof.
  destruct (handshake_registry_password_rejected xor_cipher (fun _ => true)
              (mkClientConfig (Some [PasswordAuth [115; 101; 99; 114; 101; 116]])
                 (Some NewAuthRegistry) false)
              sample_conn [2] [1; 2; 3] (PasswordAuth []) WriteOk WriteOk)
    as [_ H].
  - reflexivity.
  - cbn. lia.
  - repeat constructor; lia.
  - reflexivity.
  - exact H.
Defined.

Lemma findAuth_server_In (auth : ClientAuth) (securityTypes : list Z) :
  In (SecurityType auth) securityTypes ->
  findAuth_server auth securityTypes = Some (auth, SecurityType auth).
Proof.
  induction securityTypes as [|s rest IH]; intros Hin; [destruct Hin|].
  cbn [findAuth_server].
  destruct (SecurityType auth =? s) eqn:E.
  - apply Z.eqb_eq in E. subst s. reflexivity.
  - apply Z.eqb_neq in E. destruct Hin as [Hs|Hin]; [congruence|]. exact (IH Hin).
Qed.

(** X21.  Without a registry and without configured methods the
    handshake uses [ClientAuthNone] whenever the server offers type 1.
    It then takes every security result other than 1 as success, also
    the value 2 that RFC 6143 gives to a failure: it sends the shared
    flag (0 when exclusive access is asked for, else 1) and leaves the
    input at the byte after the result.  On the result 1 it fails with
    an Authentication error after the byte 1 of the selected type. *)
Theorem handshake_security_result (cryptBlock : list Z -> Z -> Z)
  (IsPrint_wide : Z -> bool) (c : ClientConn) (exclusive : bool)
  (serverTypes rest : list Z) (result : Z) (w2 : WriteResult) :
  (0 < List.length serverTypes <= 255)%nat ->
  Forall (fun t => t <> 0) serverTypes ->
  In 1 serverTypes ->
  is_u32 result ->
  handshake_security cryptBlock IsPrint_wide (mkClientConfig None None exclusive) c
    ([Z.of_nat (List.length serverTypes)] ++ serverTypes
     ++ BigEndian_PutUint32 result ++ rest) WriteOk w2 WriteOk
  = if result =? 1 then
      (mkClientConn (state c) (Encs c) (sent c ++ [1]),
       Fail (authenticationError "handshake" "security handshake failed: %s" None))
    else
      (mkClientConn (state c) (Encs c)
         ((sent c ++ [1]) ++ [if exclusive then 0 else 1]),
       Ok rest).
Proof.
  intros Hlen Hnz Hin Hres.
  destruct (read_security_types serverTypes (BigEndian_PutUint32 result ++ rest) Hlen)
    as (Hn & Hz & Hts).
  unfold handshake_security.
  rewrite Hn. cbn [wrap obind]. rewrite Hz, Hts. cbn [wrap obind].
  rewrite (ValidateSecurityTypes_accepts _ Hlen Hnz).
  cbn [AuthRegistry_ Auth Exclusive findAuth].
  rewrite (findAuth_server_In ClientAuthNone serverTypes Hin).
  cbn [obind SecurityType writeWithContext auth_Handshake state Encs sent].
  rewrite (read_u32_put _ _ Hres). cbn [wrap].
  destruct (result =? 1); reflexivity.
Qed.

Lemma handshake_security_result_witness :
  handshake_security xor_cipher (fun _ => true) (mkClientConfig None None false) sample_conn
    ([Z.of_nat (List.length [2; 1])] ++ [2; 1] ++ BigEndian_PutUint32 2 ++ [9])
    WriteOk WriteOk WriteOk
  = (mkClientConn (state sample_conn) (Encs sample_conn)
       ((sent sample_conn ++ [1]) ++ [1]),
     Ok [9]).
Proof.
  apply (handshake_security_result xor_cipher (fun _ => true) sample_conn false
           [2; 1] [9] 2 WriteOk).
  - cbn. lia.
  - repeat constructor; lia.
  - right. left. reflexivity.
  - unfold is_u32. lia.
Defined.

(** ** ServerInit: the accepted messages *)

(** [ValidateFramebufferDimensions] accepts exactly the sizes from 1 x 1
    to 32768 x 32768; the area of such a size never exceeds 2^30, so the
    third check never fires. *)
Lemma ValidateFramebufferDimensions_accepts_iff (width height : Z) :
  is_u16 width -> is_u16 height ->
  InputValidator.ValidateFramebufferDimensions width height = None
  <-> 1 <= width <= 32768 /\ 1 <= height <= 32768.
Proof.
  unfold is_u16, InputValidator.ValidateFramebufferDimensions. intros Hw Hh.
  destruct (width =? 0) eqn:Ew; [apply Z.eqb_eq in Ew|apply Z.eqb_neq in Ew];
    cbn [orb]; [split; [discriminate|lia]|].
  destruct (height =? 0) eqn:Eh; [apply Z.eqb_eq in Eh|apply Z.eqb_neq in Eh];
    [split; [discriminate|lia]|].
  rewrite !Z.gtb_ltb.
  destruct (32768 <? width) eqn:Ew2; [apply Z.ltb_lt in Ew2|apply Z.ltb_ge in Ew2];
    cbn [orb]; [split; [discriminate|lia]|].
  destruct (32768 <? height) eqn:Eh2; [apply Z.ltb_lt in Eh2|apply Z.ltb_ge in Eh2];
    [split; [discriminate|lia]|].
  assert (Ea : (1024 * 1024 * 1024 <? width * height) = false) by (apply Z.ltb_ge; nia).
  rewrite Ea. split; [intros _; lia|reflexivity].
Qed.

(** The wire form of a true-colour format is read back as the format. *)
Lemma readPixelFormat_true_color (p : PixelFormat) (bs rest : list Z) :
  PixelFormat_wf p -> TrueColor p = true ->
  writePixelFormat p = Ok bs ->
  readPixelFormat (bs ++ rest) zeroPixelFormat = Ok (p, rest).
Proof.
  intros (Hb & Hd & Hr & Hg & Hbl & Hrs & Hgs & Hbs) Htc Hw.
  destruct p as [bpp depth be tc rm gm bm rs gs bs'].
  cbn [BPP Depth BigEndian TrueColor RedMax GreenMax BlueMax
       RedShift GreenShift BlueShift] in *.
  subst tc. unfold writePixelFormat in Hw.
  cbn [BPP Depth BigEndian TrueColor RedMax GreenMax BlueMax
       RedShift GreenShift BlueShift] in Hw.
  assert (Hbytes : bs = [u8 bpp; u8 depth; if be then 1 else 0; 1]
                        ++ BigEndian_PutUint16 rm ++ BigEndian_PutUint16 gm
                        ++ BigEndian_PutUint16 bm ++ [u8 rs; u8 gs; u8 bs'; 0; 0; 0]).
  { destruct be; injection Hw as <-; reflexivity. }
  subst bs.
  transitivity
    (@Ok (PixelFormat * Reader)
       (mkPixelFormat (u8 bpp) (u8 depth) be true
          (BigEndian_Uint16 (BigEndian_PutUint16 rm))
          (BigEndian_Uint16 (BigEndian_PutUint16 gm))
          (BigEndian_Uint16 (BigEndian_PutUint16 bm))
          (u8 rs) (u8 gs) (u8 bs'), rest)).
  - destruct be; reflexivity.
  - rewrite !be16_roundtrip, !u8_id by assumption. reflexivity.
Qed.

(** X22.  The ServerInit part of the handshake succeeds on a message
    with a framebuffer size from 1 x 1 to 32768 x 32768, a true-colour
    pixel format that [ValidatePixelFormat] accepts and a non-empty
    desktop name of at most 1 MiB of printable ASCII: the connection then
    holds that size, that pixel format and that name, the colour map and
    the encodings are as before, nothing is written, and the input is
    left at the byte after the name. *)
Theorem ServerInit_accepted (IsPrint_wide : Z -> bool) (c : ClientConn)
  (width height : Z) (pf : PixelFormat) (pfBytes name rest : list Z) :
  1 <= width <= 32768 -> 1 <= height <= 32768 ->
  PixelFormat_wf pf -> TrueColor pf = true ->
  InputValidator.ValidatePixelFormat (Some pf) = None ->
  writePixelFormat pf = Ok pfBytes ->
  Forall plain_ascii name -> name <> [] ->
  Z.of_nat (List.length name) <= maxDesktopNameLength ->
  handshake_ServerInit IsPrint_wide c
    (BigEndian_PutUint16 width ++ BigEndian_PutUint16 height ++ pfBytes
     ++ BigEndian_PutUint32 (Z.of_nat (List.length name)) ++ name ++ rest)
  = Ok (mkClientConn (mkClientState (ColorMap (state c)) width height name pf)
          (Encs c) (sent c),
        rest).
Proof.
  intros Hw Hh Hwf Htc Hval Hbytes Hname Hne Hlen.
  assert (Hpos : (0 < List.length name)%nat) by (destruct name; [contradiction|cbn; lia]).
  unfold maxDesktopNameLength in Hlen.
  unfold handshake_ServerInit.
  rewrite read_u16_put by (unfold is_u16; lia). cbn [wrap obind].
  rewrite read_u16_put by (unfold is_u16; lia). cbn [wrap obind].
  rewrite (proj2 (ValidateFramebufferDimensions_accepts_iff width height
                    ltac:(unfold is_u16; lia) ltac:(unfold is_u16; lia)))
    by (split; assumption).
  rewrite (readPixelFormat_true_color pf pfBytes _ Hwf Htc Hbytes).
  cbn [wrap obind PixelFormat_]. rewrite Hval.
  rewrite read_u32_put by (unfold is_u32; lia). cbn [wrap obind].
  rewrite (proj2 (ValidateMessageLength_accepts _ _))
    by (unfold maxDesktopNameLength; lia).
  rewrite Nat2Z.id, ReadFull_app. cbn [wrap obind].
  rewrite ValidateTextData_plain
    by (first [exact Hname|unfold maxDesktopNameLength; lia]).
  reflexivity.
Qed.

Lemma ServerInit_accepted_witness :
  handshake_ServerInit (fun _ => true) sample_conn
    (BigEndian_PutUint16 1024 ++ BigEndian_PutUint16 768
     ++ [32; 24; 0; 1; 0; 255; 0; 255; 0; 255; 16; 8; 0; 0; 0; 0]
     ++ BigEndian_PutUint32 (Z.of_nat (List.length [118; 110; 99])) ++ [118; 110; 99]
     ++ [])
  = Ok (mkClientConn
          (mkClientState (ColorMap (state sample_conn)) 1024 768 [118; 110; 99] pf_rgb888)
          (Encs sample_conn) (sent sample_conn),
        []).
Proof.
  apply (ServerInit_accepted (fun _ => true) sample_conn 1024 768 pf_rgb888
           [32; 24; 0; 1; 0; 255; 0; 255; 0; 255; 16; 8; 0; 0; 0; 0] [118; 110; 99] []).
  - lia.
  - lia.
  - unfold PixelFormat_wf, is_u8, is_u16. cbn. lia.
  - reflexivity.
  - reflexivity.
  - reflexivity.
  - repeat constructor; unfold plain_ascii; lia.
  - discriminate.
  - unfold maxDesktopNameLength. cbn. lia.
Defined.

(** ** The pixel format converter *)

Lemma le16_roundtrip (v : Z) :
  is_u16 v -> LittleEndian_Uint16 (LittleEndian_PutUint16 v) = v.
Proof.
  intros Hv.
  assert (Hall : all_from (Z.to_nat 65536) 0
                   (fun v => LittleEndian_Uint16 (LittleEndian_PutUint16 v) =? v) = true)
    by (vm_compute; reflexivity).
  apply Z.eqb_eq. apply (all_from_spec _ _ _ Hall). unfold is_u16 in Hv. lia.
Qed.

Lemma le32_roundtrip (v : Z) :
  is_u32 v -> LittleEndian_Uint32 (LittleEndian_PutUint32 v) = v.
Proof.
  unfold is_u32. intros Hv.
  assert (Hb : forall x, is_u8 (u8 x))
    by (intros x; unfold is_u8, u8; apply Z.mod_pos_bound; lia).
  unfold LittleEndian_PutUint32.
  destruct (Uint32_assemble false _ _ _ _ (Hb v) (Hb (Z.shiftr v 8))
              (Hb (Z.shiftr v 16)) (Hb (Z.shiftr v 24))) as [E _].
  cbn [byteOrder_Uint32] in E. rewrite E.
  unfold assemble, u8. cbn [fold_right].
  rewrite !Z.shiftr_div_pow2 by lia.
  change (2 ^ 24) with 16777216. change (2 ^ 16) with 65536. change (2 ^ 8) with 256.
  Z.div_mod_to_equations. lia.
Qed.

Lemma land_low_bits (v : Z) (n : Z) : 0 <= n -> Z.land v (2 ^ n - 1) = v mod 2 ^ n.
Proof.
  intros Hn. rewrite <- Z.land_ones by exact Hn.
  rewrite Z.ones_equiv, Z.sub_1_r. reflexivity.
Qed.

(** X23.  For a format of 8, 16 or 32 bits per pixel, the bytes that
    [WritePixel] hands to its writer are read back by [ReadPixel], in
    either byte order, as the pixel reduced to that many bits: the pixel
    itself whenever it fits the format. *)
Theorem WritePixel_ReadPixel (format : PixelFormat) (pixel : Z) (rest : list Z) :
  BPP format = 8 \/ BPP format = 16 \/ BPP format = 32 ->
  is_u32 pixel ->
  List.length (WritePixel_bytes format pixel) = Z.to_nat (BPP format / 8)
  /\ ReadPixel format (WritePixel_bytes format pixel ++ rest)
     = Ok (pixel mod 2 ^ BPP format, rest).
Proof.
  intros Hbpp Hp. unfold ReadPixel, WritePixel_bytes, Converter_BytesPerPixel.
  assert (H8 : is_u8 (pixel mod 256))
    by (unfold is_u8; apply Z.mod_pos_bound; lia).
  assert (H16 : is_u16 (pixel mod 65536))
    by (unfold is_u16; apply Z.mod_pos_bound; lia).
  destruct Hbpp as [->|[->| ->]].
  - change (8 / 8) with 1. change (1 =? 1) with true.
    change (Z.land pixel 255) with (Z.land pixel (2 ^ 8 - 1)).
    rewrite land_low_bits by lia. change (2 ^ 8) with 256.
    rewrite (u8_id _ H8).
    destruct (BigEndian format); (split; [reflexivity|]); reflexivity.
  - change (16 / 8) with 2. change (2 =? 1) with false. change (2 =? 2) with true.
    change (Z.land pixel 65535) with (Z.land pixel (2 ^ 16 - 1)).
    rewrite land_low_bits by lia. change (2 ^ 16) with 65536.
    rewrite (u16_id _ H16).
    destruct (BigEndian format); (split; [reflexivity|]); cbv iota.
    + change (ReadFull (Z.to_nat 2) (BigEndian_PutUint16 (pixel mod 65536) ++ rest))
        with (@Ok (list Z * Reader) (BigEndian_PutUint16 (pixel mod 65536), rest)).
      cbn [wrap obind]. rewrite (be16_roundtrip _ H16). reflexivity.
    + change (ReadFull (Z.to_nat 2) (LittleEndian_PutUint16 (pixel mod 65536) ++ rest))
        with (@Ok (list Z * Reader) (LittleEndian_PutUint16 (pixel mod 65536), rest)).
      cbn [wrap obind]. rewrite (le16_roundtrip _ H16). reflexivity.
  - change (32 / 8) with 4. change (4 =? 1) with false. change (4 =? 2) with false.
    change (4 =? 4) with true.
    replace (pixel mod 2 ^ 32) with pixel
      by (symmetry; apply Z.mod_small; unfold is_u32 in Hp; lia).
    destruct (BigEndian format); (split; [reflexivity|]); cbv iota.
    + change (ReadFull (Z.to_nat 4) (BigEndian_PutUint32 pixel ++ rest))
        with (@Ok (list Z * Reader) (BigEndian_PutUint32 pixel, rest)).
      cbn [wrap obind]. rewrite (be32_roundtrip _ Hp). reflexivity.
    + change (ReadFull (Z.to_nat 4) (LittleEndian_PutUint32 pixel ++ rest))
        with (@Ok (list Z * Reader) (LittleEndian_PutUint32 pixel, rest)).
      cbn [wrap obind]. rewrite (le32_roundtrip _ Hp). reflexivity.
Qed.

Lemma WritePixel_ReadPixel_witness :
  List.length (WritePixel_bytes pf_rgb565 0x12345) = Z.to_nat (BPP pf_rgb565 / 8)
  /\ ReadPixel pf_rgb565 (WritePixel_bytes pf_rgb565 0x12345 ++ [7])
     = Ok (0x12345 mod 2 ^ BPP pf_rgb565, [7]).
Proof.
  apply (WritePixel_ReadPixel pf_rgb565 0x12345 [7]).
  - right. left. reflexivity.
  - unfold is_u32. lia.
Defined.

Lemma extractComponent_exact (pixel shift max : Z) :
  0 <= pixel -> is_u16 max -> 0 < max ->
  extractComponent pixel shift max = Z.land (Z.shiftr pixel shift) max * 255 / max
  /\ 0 <= extractComponent pixel shift max <= 255.
Proof.
  intros Hp Hmax Hpos. unfold extractComponent.
  destruct (component_unscaled pixel shift max Hp Hmax) as [_ Hv].
  set (value := Z.land (Z.shiftr pixel shift) max) in *.
  assert (E : (max >? 0) = true) by (rewrite Z.gtb_ltb; apply Z.ltb_lt; exact Hpos).
  rewrite E. unfold is_u16 in Hmax.
  assert (Hu32 : u32 (value * 255) = value * 255)
    by (unfold u32; apply Z.mod_small; lia).
  rewrite Hu32.
  assert (Hq : 0 <= value * 255 / max <= 255).
  { split.
    - apply Z.div_pos; lia.
    - apply Z.div_le_upper_bound; [lia|nia]. }
  rewrite u8_id by (unfold is_u8; lia). split; [reflexivity|exact Hq].
Qed.

Lemma field_own (a s : Z) :
  is_u8 a -> 0 <= s -> Z.land (Z.shiftr (Z.shiftl a s) s) 255 = a.
Proof.
  unfold is_u8. intros Ha Hs.
  rewrite Z.shiftr_shiftl_l by exact Hs. rewrite Z.sub_diag, Z.shiftl_0_r.
  change 255 with (2 ^ 8 - 1). rewrite land_low_bits by lia.
  apply Z.mod_small. change (2 ^ 8) with 256. lia.
Qed.

Lemma field_foreign (b s s2 : Z) :
  is_u8 b -> 0 <= s -> 0 <= s2 -> fields_apart s s2 ->
  Z.land (Z.shiftr (Z.shiftl b s2) s) 255 = 0.
Proof.
  unfold is_u8, fields_apart. intros Hb Hs Hs2 Hapart.
  change 255 with (2 ^ 8 - 1). rewrite land_low_bits by lia.
  rewrite Z.shiftl_mul_pow2, Z.shiftr_div_pow2 by lia.
  destruct Hapart as [Hlo|Hhi].
  - replace s2 with ((s2 - s - 8) + 8 + s) by lia.
    rewrite !Z.pow_add_r by lia.
    rewrite !Z.mul_assoc, Z.div_mul by (apply Z.pow_nonzero; lia).
    apply Z.mod_mul. apply Z.pow_nonzero; lia.
  - rewrite Z.div_small; [reflexivity|].
    assert (H1 : 0 < 2 ^ s2) by (apply Z.pow_pos_nonneg; lia).
    assert (H2 : 2 ^ (s2 + 8) <= 2 ^ s) by (apply Z.pow_le_mono_r; lia).
    rewrite Z.pow_add_r in H2 by lia. change (2 ^ 8) with 256 in H2. nia.
Qed.

Lemma field_shift_fits (a s : Z) :
  is_u8 a -> 0 <= s <= 24 -> u32 (Z.shiftl (u32 (a * 255) / 255) s) = Z.shiftl a s.
Proof.
  unfold is_u8. intros Ha Hs.
  assert (E : u32 (a * 255) / 255 = a).
  { unfold u32. rewrite Z.mod_small by lia. apply Z.div_mul. lia. }
  rewrite E. unfold u32. apply Z.mod_small.
  rewrite Z.shiftl_mul_pow2 by lia.
  assert (H1 : 0 < 2 ^ s) by (apply Z.pow_pos_nonneg; lia).
  assert (H2 : 2 ^ s <= 2 ^ 24) by (apply Z.pow_le_mono_r; lia).
  change (2 ^ 24) with 16777216 in H2. nia.
Qed.

Lemma land_shiftr_lor (x y s m : Z) :
  Z.land (Z.shiftr (Z.lor x y) s) m
  = Z.lor (Z.land (Z.shiftr x s) m) (Z.land (Z.shiftr y s) m).
Proof. rewrite Z.shiftr_lor. apply Z.land_lor_distr_l. Qed.

Lemma extract_of_value (pixel shift a : Z) :
  is_u8 a -> Z.land (Z.shiftr pixel shift) 255 = a ->
  extractComponent pixel shift 255 = a.
Proof.
  unfold is_u8. intros Ha Hv. unfold extractComponent. rewrite Hv.
  change (255 >? 0) with true. cbv iota.
  unfold u32. rewrite Z.mod_small by lia. rewrite Z.div_mul by lia.
  apply u8_id. exact Ha.
Qed.

(** X24.  [ExtractRGB] never loses bits in its conversions to uint8:
    for a true-colour format each component is the masked value times
    255 divided by the maximum, which is at most 255.  For a format with
    three 8-bit components that do not overlap, [ExtractRGB] gives back
    the components that [CreatePixel] was called with. *)
Theorem ExtractRGB_CreatePixel (format : PixelFormat) :
  TrueColor format = true ->
  (forall pixel,
      0 <= pixel ->
      is_u16 (RedMax format) -> is_u16 (GreenMax format) -> is_u16 (BlueMax format) ->
      0 < RedMax format -> 0 < GreenMax format -> 0 < BlueMax format ->
      ExtractRGB format pixel
      = (Z.land (Z.shiftr pixel (RedShift format)) (RedMax format) * 255 / RedMax format,
         Z.land (Z.shiftr pixel (GreenShift format)) (GreenMax format) * 255
         / GreenMax format,
         Z.land (Z.shiftr pixel (BlueShift format)) (BlueMax format) * 255
         / BlueMax format)
      /\ 0 <= fst (fst (ExtractRGB format pixel)) <= 255
      /\ 0 <= snd (fst (ExtractRGB format pixel)) <= 255
      /\ 0 <= snd (ExtractRGB format pixel) <= 255)
  /\ (forall r g b,
         RedMax format = 255 -> GreenMax format = 255 -> BlueMax format = 255 ->
         0 <= RedShift format <= 24 -> 0 <= GreenShift format <= 24 ->
         0 <= BlueShift format <= 24 ->
         fields_apart (RedShift format) (GreenShift format) ->
         fields_apart (RedShift format) (BlueShift format) ->
         fields_apart (GreenShift format) (BlueShift format) ->
         is_u8 r -> is_u8 g -> is_u8 b ->
         ExtractRGB format (CreatePixel format r g b) = (r, g, b)).
Proof.
  intros Htc. split.
  - intros pixel Hp Hr Hg Hb Hr0 Hg0 Hb0. unfold ExtractRGB. rewrite Htc. cbn [negb fst snd].
    destruct (extractComponent_exact pixel (RedShift format) _ Hp Hr Hr0) as [Er Hrb].
    destruct (extractComponent_exact pixel (GreenShift format) _ Hp Hg Hg0) as [Eg Hgb].
    destruct (extractComponent_exact pixel (BlueShift format) _ Hp Hb Hb0) as [Eb Hbb].
    rewrite <- Er, <- Eg, <- Eb. auto.
  - intros r g b Mr Mg Mb Sr Sg Sb Arg Arb Agb Hr Hg Hb.
    unfold ExtractRGB, CreatePixel. rewrite Htc, Mr, Mg, Mb. cbn [negb].
    rewrite !field_shift_fits by assumption.
    assert (Agr : fields_apart (GreenShift format) (RedShift format))
      by (unfold fields_apart in *; lia).
    assert (Abr : fields_apart (BlueShift format) (RedShift format))
      by (unfold fields_apart in *; lia).
    assert (Abg : fields_apart (BlueShift format) (GreenShift format))
      by (unfold fields_apart in *; lia).
    f_equal; [f_equal|]; apply extract_of_value; try assumption;
      rewrite !land_shiftr_lor, ?field_own, ?field_foreign by (assumption || lia);
      rewrite ?Z.lor_0_r, ?Z.lor_0_l; reflexivity.
Qed.

Lemma ExtractRGB_CreatePixel_witness :
  ExtractRGB pf_rgb888 (CreatePixel pf_rgb888 18 52 86) = (18, 52, 86).
Proof.
  destruct (ExtractRGB_CreatePixel pf_rgb888 eq_refl) as [_ H].
  apply H; try reflexivity; cbn; unfold fields_apart, is_u8; lia.
Defined.

(** ** Colour maps and colour conversion *)

Lemma setRange_loop_inserts (newColors : list Color) :
  forall (i start : nat) (cm : list Color),
    (start + i + List.length newColors <= List.length cm)%nat ->
    Z.of_nat (List.length cm) <= 65536 ->
    setRange_loop (Z.of_nat i) (Z.of_nat start) newColors cm
    = CMOk (list_inserts (start + i) newColors cm).
Proof.
  induction newColors as [|color rest IH]; intros i start cm Hlen Hcm; [reflexivity|].
  cbn [List.length] in Hlen. cbn [setRange_loop].
  rewrite (u16_id (Z.of_nat i)) by (unfold is_u16; lia).
  rewrite (u16_id (Z.of_nat start + Z.of_nat i)) by (unfold is_u16; lia).
  rewrite <- Nat2Z.inj_add, Nat2Z.id.
  assert (E : (start + i <? List.length cm)%nat = true) by (apply Nat.ltb_lt; lia).
  rewrite E. replace (Z.of_nat i + 1) with (Z.of_nat (S i)) by lia.
  rewrite IH by (rewrite ?length_insert; lia).
  replace (start + S i)%nat with (S (start + i)) by lia.
  cbn [list_inserts]. rewrite list_insert_inserts_lt by lia. reflexivity.
Qed.

Lemma getRange_loop_reads (n : nat) :
  forall (i start : nat) (cm colors : list Color),
    (start + i + n <= List.length cm)%nat ->
    (i + n <= List.length colors)%nat ->
    Z.of_nat (List.length cm) <= 65536 ->
    getRange_loop n (Z.of_nat i) (Z.of_nat start) cm colors
    = CMOk (list_inserts i (firstn n (skipn (start + i) cm)) colors).
Proof.
  induction n as [|n IH]; intros i start cm colors Hcm Hcolors Hmax; [reflexivity|].
  cbn [getRange_loop].
  rewrite (u16_id (Z.of_nat start + Z.of_nat i)) by (unfold is_u16; lia).
  rewrite <- Nat2Z.inj_add, !Nat2Z.id.
  destruct (cm !! (start + i)%nat) as [c|] eqn:Ec;
    [|apply lookup_ge_None in Ec; lia].
  replace (Z.of_nat i + 1) with (Z.of_nat (S i)) by lia.
  rewrite IH by (rewrite ?length_insert; lia).
  rewrite (drop_S _ _ _ Ec). cbn [firstn list_inserts].
  replace (start + S i)%nat with (S (start + i)) by lia.
  rewrite list_insert_inserts_lt by lia. reflexivity.
Qed.

Lemma take_drop_inserts (start : nat) (newColors cm : list Color) :
  (start + List.length newColors <= List.length cm)%nat ->
  firstn (List.length newColors) (skipn start (list_inserts start newColors cm))
  = newColors.
Proof.
  intros Hlen. apply list_eq. intros j.
  destruct (Nat.lt_ge_cases j (List.length newColors)) as [Hlt|Hge].
  - rewrite lookup_take_lt by exact Hlt. rewrite lookup_drop.
    rewrite list_lookup_inserts by lia. f_equal. lia.
  - rewrite lookup_take_ge by exact Hge. symmetry. apply lookup_ge_None. exact Hge.
Qed.

(** X25.  [ColorMap.SetRange] stores the given colours from the start
    index on when the range lies within the 256 entries, leaving all
    other entries as they were, and [ColorMap.GetRange] on the same
    range then returns exactly those colours.  A start index above 255,
    also with an empty list of colours, or a range that ends beyond
    entry 255 gives a validation error. *)
Theorem ColorMap_SetRange_GetRange (cm : list Color) (start : nat)
  (newColors : list Color) :
  List.length cm = 256%nat ->
  ((start <= 255 /\ start + List.length newColors <= 256)%nat ->
   ColorMap_SetRange cm (Z.of_nat start) newColors
   = CMOk (store_colors start newColors cm)
   /\ ColorMap_GetRange (store_colors start newColors cm) (Z.of_nat start)
        (Z.of_nat (List.length newColors))
      = CMOk newColors)
  /\ ((255 < start \/ 256 < start + List.length newColors)%nat ->
      exists e, ColorMap_SetRange cm (Z.of_nat start) newColors = CMError e).
Proof.
  intros Hcm. unfold ColorMap_SetRange, ColorMap_GetRange.
  change (Z.of_nat ColorMapSize) with 256. rewrite !Z.gtb_ltb. split.
  - intros [Hs Hr].
    assert (E1 : (256 - 1 <? Z.of_nat start) = false) by (apply Z.ltb_ge; lia).
    assert (E2 : (256 <? Z.of_nat start + Z.of_nat (List.length newColors)) = false)
      by (apply Z.ltb_ge; lia).
    rewrite E1, E2. unfold store_colors. split.
    + pose proof (setRange_loop_inserts newColors 0 start cm) as H.
      rewrite Nat.add_0_r in H. change (Z.of_nat 0) with 0 in H. apply H; lia.
    + rewrite Nat2Z.id.
      pose proof (getRange_loop_reads (List.length newColors) 0 start
                    (list_inserts start newColors cm)
                    (repeat zeroColor (List.length newColors))) as H.
      rewrite Nat.add_0_r in H. change (Z.of_nat 0) with 0 in H.
      rewrite H by (rewrite ?length_inserts, ?repeat_length; lia).
      rewrite take_drop_inserts by lia.
      pose proof (list_inserts_0_l newColors [] (repeat zeroColor (List.length newColors)))
        as Ec.
      rewrite app_nil_r in Ec. rewrite Ec by (rewrite repeat_length; reflexivity).
      reflexivity.
  - intros Hbad.
    destruct (256 - 1 <? Z.of_nat start) eqn:E1; [eexists; reflexivity|].
    destruct (256 <? Z.of_nat start + Z.of_nat (List.length newColors)) eqn:E2;
      [eexists; reflexivity|].
    apply Z.ltb_ge in E1, E2. lia.
Qed.

Lemma ColorMap_SetRange_GetRange_witness :
  ColorMap_SetRange NewColorMap (Z.of_nat 254) [mkColor 1 2 3; mkColor 4 5 6]
  = CMOk (store_colors 254 [mkColor 1 2 3; mkColor 4 5 6] NewColorMap)
  /\ ColorMap_GetRange (store_colors 254 [mkColor 1 2 3; mkColor 4 5 6] NewColorMap)
       (Z.of_nat 254) (Z.of_nat (List.length [mkColor 1 2 3; mkColor 4 5 6]))
     = CMOk [mkColor 1 2 3; mkColor 4 5 6].
Proof.
  destruct (ColorMap_SetRange_GetRange NewColorMap 254 [mkColor 1 2 3; mkColor 4 5 6]
              eq_refl) as [H _].
  apply H. cbn. lia.
Defined.

(** X26.  [RGB8ToColor] followed by [ColorToRGB8] gives the three bytes
    back, and entry [i] of a new colour map is the grey
    [RGB8ToColor(i, i, i)], so the default map converts back to
    [(i, i, i)]. *)
Theorem RGB8_roundtrip (r g b : Z) :
  is_u8 r -> is_u8 g -> is_u8 b ->
  ColorToRGB8 (RGB8ToColor r g b) = (r, g, b)
  /\ ColorMap_Get NewColorMap r = CMOk (RGB8ToColor r r r)
  /\ ColorToRGB8 (RGB8ToColor r r r) = (r, r, r).
Proof.
  assert (Hone : forall v, is_u8 v -> u8 (u16 (v * 257) / 257) = v).
  { intros v Hv. unfold is_u8 in Hv.
    rewrite u16_id by (unfold is_u16; lia).
    rewrite Z.div_mul by lia. apply u8_id. exact Hv. }
  intros Hr Hg Hb. unfold ColorToRGB8, RGB8ToColor. cbn [R G B].
  rewrite !(Hone r Hr), (Hone g Hg), (Hone b Hb).
  split; [reflexivity|]. split; [|reflexivity].
  assert (Hall : all_from 256 0
                   (fun i => match NewColorMap !! Z.to_nat i with
                             | Some c => (R c =? u16 (i * 257)) && (G c =? u16 (i * 257))
                                         && (B c =? u16 (i * 257))
                             | None => false
                             end) = true)
    by (vm_compute; reflexivity).
  pose proof (all_from_spec _ _ _ Hall r) as Hentry. cbn beta in Hentry.
  unfold is_u8 in Hr. specialize (Hentry ltac:(lia)).
  unfold ColorMap_Get.
  destruct (NewColorMap !! Z.to_nat r) as [[cr cg cb]|]; [|discriminate].
  cbn [R G B] in Hentry.
  apply andb_prop in Hentry as [Hentry E3]. apply andb_prop in Hentry as [E1 E2].
  apply Z.eqb_eq in E1, E2, E3. subst. reflexivity.
Qed.

Lemma RGB8_roundtrip_witness :
  ColorToRGB8 (RGB8ToColor 255 128 0) = (255, 128, 0).
Proof.
  destruct (RGB8_roundtrip 255 128 0) as [H _]; try (unfold is_u8; lia).
  exact H.
Defined.

(** ** Decoders: Hextile sub-rectangles *)

Lemma nibble_bounds (v : Z) : 0 <= Z.land v 15 <= 15.
Proof.
  change 15 with (2 ^ 4 - 1) at 1 2. rewrite land_low_bits by lia.
  change (2 ^ 4) with 16. pose proof (Z.mod_pos_bound v 16). lia.
Qed.

Lemma read_subrect_step (c : ClientState) (subencoding tileWidth tileHeight : Z)
  (fg : Color) (i : Z) (s s' : list Hextile.HextileSubrectangle * Reader) :
  Forall (sub_within tileWidth tileHeight) (fst s) ->
  Hextile.read_subrect c subencoding tileWidth tileHeight fg i s = Ok s' ->
  Forall (sub_within tileWidth tileHeight) (fst s').
Proof.
  intros Hin H. destruct s as [subs r]. cbn [fst] in Hin.
  unfold Hextile.read_subrect in H.
  bind_inv H.
  all: injection H as <-; cbn [fst]; apply Forall_app; split; [exact Hin|];
    constructor; [|constructor]; unfold sub_within;
    cbn [Hextile.Sub_X Hextile.Sub_Y Hextile.Sub_Width Hextile.Sub_Height];
    repeat match goal with
           | Hc : (_ || _) = false |- _ => apply orb_false_elim in Hc as [? ?]
           end;
    repeat match goal with
           | Hc : (_ >? _) = false |- _ => rewrite Z.gtb_ltb in Hc; apply Z.ltb_ge in Hc
           end;
    match goal with
    | |- context [Z.land (Z.shiftr ?xy 4) 15] =>
        pose proof (nibble_bounds (Z.shiftr xy 4)); pose proof (nibble_bounds xy)
    end;
    match goal with
    | |- context [u8 (Z.land (Z.shiftr ?wh 4) 15 + 1)] =>
        pose proof (nibble_bounds (Z.shiftr wh 4)); pose proof (nibble_bounds wh);
        rewrite (u8_id (Z.land (Z.shiftr wh 4) 15 + 1)) in * by (unfold is_u8; lia);
        rewrite (u8_id (Z.land wh 15 + 1)) in * by (unfold is_u8; lia)
    end;
    repeat match goal with
           | Hc : context [u16 (?a + ?b)] |- _ =>
               rewrite (u16_id (a + b)) in Hc by (unfold is_u16; lia)
           end;
    lia.
Qed.

Lemma hextile_insert_tile (total : nat) (s : Hextile.TileLoop) (tile : Hextile.HextileTile)
  (bg fg : Color) (r : Reader) :
  (Hextile.tileIndex s < List.length (Hextile.tiles s))%nat ->
  hextile_progress total s ->
  tile_ok tile ->
  hextile_progress total
    (Hextile.mkTileLoop (<[Hextile.tileIndex s := tile]> (Hextile.tiles s))
       (S (Hextile.tileIndex s)) bg fg r).
Proof.
  intros Hlt (Hlen & Hall & Hrest) Htile. unfold hextile_progress.
  cbn [Hextile.tiles Hextile.tileIndex].
  rewrite length_insert. split; [exact Hlen|]. split.
  - apply Forall_insert; assumption.
  - rewrite drop_insert_lt by lia.
    replace (S (Hextile.tileIndex s)) with (Hextile.tileIndex s + 1)%nat by lia.
    rewrite <- drop_drop. apply Forall_drop. exact Hrest.
Qed.

Lemma read_tile_step (c : ClientState) (rectWidth rectHeight tileY tileX : Z)
  (total : nat) (s s' : Hextile.TileLoop) :
  hextile_progress total s ->
  Hextile.read_tile c rectWidth rectHeight tileY tileX s = Ok s' ->
  hextile_progress total s'.
Proof.
  intros Hs H. unfold Hextile.read_tile in H.
  destruct (Hextile.tiles s !! Hextile.tileIndex s) as [tile0|] eqn:Hlk; [|discriminate].
  pose proof (lookup_lt_Some _ _ _ Hlk) as Hlt.
  assert (Hempty : Hextile.Tile_Subrectangles tile0 = []).
  { destruct Hs as (_ & _ & Hrest).
    apply (Forall_lookup_1 _ _ 0%nat tile0 Hrest).
    rewrite lookup_drop, Nat.add_0_r. exact Hlk. }
  cbn [Hextile.Tile_Subrectangles Hextile.Tile_Colors Hextile.Tile_Background
       Hextile.Tile_Foreground] in H.
  rewrite Hempty in H.
  destruct (wrap _ (read_u8 (Hextile.rd s))) as [[subencoding r0]| |] eqn:Esub;
    cbn [obind] in H; try discriminate.
  destruct (negb (Z.land subencoding Hextile.HextileRaw =? 0)) eqn:Eraw.
  - destruct (Hextile.read_pixels _ _ _ _ _ _) as [[colors r1]| |] eqn:Epix;
      cbn [obind] in H; try discriminate.
    injection H as <-.
    apply hextile_insert_tile; [exact Hlt|exact Hs|].
    unfold tile_ok. cbn [Hextile.Tile_Subrectangles]. constructor.
  - match type of H with
    | obind ?m _ = _ => destruct m as [[bg r1]| |] eqn:Ebg
    end; cbn [obind] in H; try discriminate.
    match type of H with
    | obind ?m _ = _ => destruct m as [[fg r2]| |] eqn:Efg
    end; cbn [obind] in H; try discriminate.
    match type of H with
    | obind ?m _ = _ => destruct m as [[subrects r3]| |] eqn:Esubs
    end; cbn [obind] in H; try discriminate.
    injection H as <-.
    apply hextile_insert_tile; [exact Hlt|exact Hs|].
    unfold tile_ok.
    cbn [Hextile.Tile_Subrectangles Hextile.Tile_Width Hextile.Tile_Height].
    destruct (negb (Z.land subencoding Hextile.HextileAnySubrects =? 0)).
    + destruct (wrap _ (read_u8 r2)) as [[numSubrects r4]| |] eqn:En;
        cbn [obind] in Esubs; try discriminate.
      destruct (numSubrects >? Hextile.MaxSubrectsPerTile); [discriminate|].
      assert (Hfin : Forall (sub_within (Hextile.tileExtent rectWidth tileX)
                               (Hextile.tileExtent rectHeight tileY))
                       (fst (subrects, r3))).
      { refine (for_loop_inv
                  (fun _ t => Forall (sub_within (Hextile.tileExtent rectWidth tileX)
                                        (Hextile.tileExtent rectHeight tileY)) (fst t))
                  _ _ _ _ _ _ _ Esubs).
        - intros k t t' _ Ht Hb. cbn beta in Ht |- *.
          exact (read_subrect_step _ _ _ _ _ _ t t' Ht Hb).
        - constructor. }
      exact Hfin.
    + injection Esubs as <- _. constructor.
Qed.

(** X27.  Whenever [HextileEncoding.Read] succeeds, it returns one tile
    for every tile it counted, and every sub-rectangle of every tile
    lies within its tile: it is between 1 and 16 pixels wide and high
    and passes neither the right nor the bottom edge of the tile. *)
Theorem Hextile_subrectangles_within (c : ClientState) (X Y Width Height : Z)
  (r r' : Reader) (tiles : list Hextile.HextileTile) :
  Hextile.Read c X Y Width Height r = Ok (tiles, r') ->
  List.length tiles = Z.to_nat (Hextile.totalTiles Width Height)
  /\ Forall tile_ok tiles.
Proof.
  intros H. unfold Hextile.Read in H.
  match type of H with
  | obind ?chk _ = _ => destruct chk as [[]| |]
  end; cbn [obind] in H; try discriminate.
  destruct (Hextile.totalTiles Width Height >? Hextile.maxTiles); [discriminate|].
  match type of H with
  | obind ?loop _ = _ => destruct loop as [s| |] eqn:Eloop
  end; cbn [obind] in H; try discriminate.
  injection H as <- <-.
  set (total := Z.to_nat (Hextile.totalTiles Width Height)) in *.
  assert (Hinit : hextile_progress total
                    (Hextile.mkTileLoop (repeat Hextile.zeroTile total) 0
                       zeroColor zeroColor r)).
  { unfold hextile_progress. cbn [Hextile.tiles Hextile.tileIndex skipn].
    rewrite repeat_length. split; [reflexivity|].
    split; apply Forall_forall; intros t Ht;
      apply list_elem_of_In, repeat_spec in Ht; subst t.
    - unfold tile_ok. cbn. constructor.
    - reflexivity. }
  assert (Hfin : hextile_progress total s).
  { refine (for_loop_inv (fun _ t => hextile_progress total t) _ _ _ _ _ _ Hinit Eloop).
    intros ky t t' _ Ht Hrow. cbn beta in Ht, Hrow |- *.
    refine (for_loop_inv (fun _ u => hextile_progress total u) _ _ _ _ _ _ Ht Hrow).
    intros kx u u' _ Hu Htile. cbn beta in Hu, Htile |- *.
    exact (read_tile_step _ _ _ _ _ _ _ _ Hu Htile). }
  destruct Hfin as (Hlen & Hall & _). split; assumption.
Qed.

Lemma Hextile_subrectangles_within_witness :
  List.length
    [Hextile.mkTile 16 16 zeroColor zeroColor [] [Hextile.mkSubrect zeroColor 1 2 4 5];
     Hextile.mkTile 4 16 (mkColor 255 0 0) zeroColor [] []]
  = Z.to_nat (Hextile.totalTiles 20 16)
  /\ Forall tile_ok
       [Hextile.mkTile 16 16 zeroColor zeroColor [] [Hextile.mkSubrect zeroColor 1 2 4 5];
        Hextile.mkTile 4 16 (mkColor 255 0 0) zeroColor [] []].
Proof.
  apply (Hextile_subrectangles_within (state sample_conn) 0 0 20 16
           ([8; 1; 0x12; 0x34] ++ [2; 0; 0; 255; 0] ++ [7]) [7]).
  reflexivity.
Defined.

(** ** The pixel-format reader and colour-mapped pixels *)

(** X28.  [readPixelFormat] succeeds exactly when 16 bytes are there:
    with at least 16 bytes it returns a format and leaves the input at
    the seventeenth byte, so none of its field-level Protocol errors can
    occur, and with fewer it fails with a Network error. *)
Theorem readPixelFormat_needs_16_bytes (r : Reader) (result : PixelFormat) :
  ((16 <= List.length r)%nat ->
   exists pf, readPixelFormat r result = Ok (pf, skipn 16 r))
  /\ ((List.length r < 16)%nat ->
      exists err,
        readPixelFormat r result = Fail err /\ GetErrorCode err = Some ErrNetwork).
Proof.
  split.
  - intros Hlen.
    destruct (readPixelFormat_16 (firstn 16 r) (skipn 16 r) result) as [pf Hpf].
    { rewrite length_take. lia. }
    rewrite take_drop in Hpf. exists pf. exact Hpf.
  - intros Hlen. unfold readPixelFormat, ReadFull.
    assert (E : (16 <=? List.length r)%nat = false) by (apply Nat.leb_gt; exact Hlen).
    rewrite E. destruct r; eexists; split; reflexivity.
Qed.

(** X29.  A colour-mapped format with 16 bits per pixel passes
    [ValidatePixelFormat] whenever its depth is between 1 and 16, so a
    server can announce it; with such a format every pixel value from
    256 on indexes the 256-entry colour map out of range, and
    [RawEncoding.Read] on a non-empty rectangle whose first pixel has
    such a value ends in a run-time panic instead of an error. *)
Theorem Raw_colour_mapped_16bpp_panics (c : ClientState) (rect : Rectangle)
  (b0 b1 : Z) (rest : list Z) :
  TrueColor (PixelFormat_ c) = false ->
  BPP (PixelFormat_ c) = 16 ->
  1 <= Depth (PixelFormat_ c) <= 16 ->
  List.length (ColorMap c) = 256%nat ->
  1 <= Width rect -> 1 <= Height rect ->
  is_u8 b0 -> is_u8 b1 ->
  256 <= assemble (BigEndian (PixelFormat_ c)) [b0; b1] ->
  InputValidator.ValidatePixelFormat (Some (PixelFormat_ c)) = None
  /\ RawEncoding_Read c rect (b0 :: b1 :: rest) = Panic.
Proof.
  intros Htc Hbpp Hdepth Hcm Hw Hh H0 H1 Hraw. split.
  - unfold InputValidator.ValidatePixelFormat. rewrite Hbpp, Htc. cbn [existsb].
    change (16 =? 8) with false. change (16 =? 16) with true. cbn [orb negb].
    assert (E1 : (Depth (PixelFormat_ c) =? 0) = false) by (apply Z.eqb_neq; lia).
    assert (E2 : (Depth (PixelFormat_ c) >? 16) = false)
      by (rewrite Z.gtb_ltb; apply Z.ltb_ge; lia).
    rewrite E1, E2. reflexivity.
  - assert (Hpix : ReadPixelColor (NewPixelReader (PixelFormat_ c) (ColorMap c))
                     (b0 :: b1 :: rest) = Panic).
    { unfold ReadPixelColor, BytesPerPixel, NewPixelReader at 1. cbn [pixelFormat].
      rewrite Hbpp. change (Z.to_nat (16 / 8)) with 2%nat.
      rewrite ReadFull_2_cons. cbn [obind].
      destruct (bytesToPixel_assemble (PixelFormat_ c) (ColorMap c) [b0; b1])
        as [Eraw Hrange].
      { right. left. exact Hbpp. }
      { rewrite Hbpp. reflexivity. }
      { constructor; [exact H0|constructor; [exact H1|constructor]]. }
      rewrite Eraw. unfold pixelToColor, NewPixelReader. cbn [pixelFormat colorMap].
      rewrite Htc.
      assert (Hnone : ColorMap c
                      !! Z.to_nat (assemble (BigEndian (PixelFormat_ c)) [b0; b1]) = None)
        by (apply lookup_ge_None; lia).
      rewrite Hnone. reflexivity. }
    unfold RawEncoding_Read.
    destruct (Z.to_nat (Height rect)) as [|h] eqn:Eh; [lia|].
    destruct (Z.to_nat (Width rect)) as [|w] eqn:Ew; [lia|].
    cbn [for_loop snd]. rewrite Hpix. reflexivity.
Qed.

Lemma Raw_colour_mapped_16bpp_panics_witness :
  RawEncoding_Read
    (mkClientState zeroColorMap 800 600 [] (mkPixelFormat 16 16 false false 0 0 0 0 0 0))
    (mkRectangle 0 0 1 1 None) (0 :: 1 :: []) = Panic.
Proof.
  exact (proj2 (Raw_colour_mapped_16bpp_panics
                  (mkClientState zeroColorMap 800 600 []
                     (mkPixelFormat 16 16 false false 0 0 0 0 0 0))
                  (mkRectangle 0 0 1 1 None) 0 1 []
                  eq_refl eq_refl ltac:(cbn; lia) eq_refl ltac:(cbn; lia) ltac:(cbn; lia)
                  ltac:(unfold is_u8; lia) ltac:(unfold is_u8; lia) ltac:(cbn; lia))).
Defined.

(** ** The two pixel-format validators *)

Lemma countBits_bounds (m : Z) :
  is_u16 m -> 0 <= countBits m <= 16 /\ popcount16 m <= countBits m.
Proof.
  intros Hm.
  assert (Hall : all_from (Z.to_nat 65536) 0
                   (fun m => (0 <=? countBits m) && (countBits m <=? 16)
                             && (popcount16 m <=? countBits m)) = true)
    by (vm_compute; reflexivity).
  pose proof (all_from_spec _ _ _ Hall m) as H. cbn beta in H.
  unfold is_u16 in Hm. specialize (H ltac:(lia)).
  apply andb_prop in H as [H H3]. apply andb_prop in H as [H1 H2].
  apply Z.leb_le in H1, H2, H3. lia.
Qed.

Lemma countBits_contiguous (m : Z) :
  is_u16 m -> contiguous_mask m -> countBits m = popcount16 m.
Proof.
  intros Hm Hc.
  assert (Hall : all_from (Z.to_nat 65536) 0
                   (fun m => negb (Z.land m (m + 1) =? 0)
                             || (countBits m =? popcount16 m)) = true)
    by (vm_compute; reflexivity).
  pose proof (all_from_spec _ _ _ Hall m) as H. cbn beta in H.
  unfold is_u16 in Hm. specialize (H ltac:(lia)).
  unfold contiguous_mask in Hc. rewrite Hc in H. cbn in H.
  apply Z.eqb_eq. exact H.
Qed.

(** X30.  The two validators of pixel formats differ.  Among the formats
    that [ValidatePixelFormat] accepts, as the handshake requires,
    [NewPixelFormatConverter] (through [PixelFormat.Validate]) accepts
    every colour-mapped one, and a true-colour one exactly when the bit
    lengths of its three maxima add up to at most the depth; this is so
    whenever the maxima have no gaps, and it can fail when they have,
    because the handshake check counts set bits and the converter bit
    lengths. *)
Theorem NewPixelFormatConverter_after_handshake (pf : PixelFormat) :
  PixelFormat_wf pf ->
  InputValidator.ValidatePixelFormat (Some pf) = None ->
  (TrueColor pf = false -> NewPixelFormatConverter pf = Ok pf)
  /\ (TrueColor pf = true ->
      (NewPixelFormatConverter pf = Ok pf
       <-> countBits (RedMax pf) + countBits (GreenMax pf) + countBits (BlueMax pf)
           <= Depth pf)
      /\ (contiguous_mask (RedMax pf) -> contiguous_mask (GreenMax pf) ->
          contiguous_mask (BlueMax pf) -> NewPixelFormatConverter pf = Ok pf)).
Proof.
  intros Hwf Hval.
  assert (Hbasic : (BPP pf = 8 \/ BPP pf = 16 \/ BPP pf = 32)
                   /\ 1 <= Depth pf <= BPP pf).
  { unfold InputValidator.ValidatePixelFormat in Hval. cbn [existsb] in Hval.
    destruct (BPP pf =? 8) eqn:E8; [apply Z.eqb_eq in E8|];
      [|destruct (BPP pf =? 16) eqn:E16; [apply Z.eqb_eq in E16|];
        [|destruct (BPP pf =? 32) eqn:E32; [apply Z.eqb_eq in E32|discriminate]]];
      cbn [orb negb] in Hval;
      (destruct (Depth pf =? 0) eqn:Ed0; [discriminate|apply Z.eqb_neq in Ed0]);
      (destruct (Depth pf >? BPP pf) eqn:Ed1; [discriminate|]);
      rewrite Z.gtb_ltb in Ed1; apply Z.ltb_ge in Ed1;
      destruct Hwf as (_ & Hd & _); unfold is_u8 in Hd; (split; [auto|lia]). }
  destruct Hbasic as (Hbpp & Hdepth).
  assert (Hhead : forall tail : option error,
             (if BPP pf =? 0 then
                Some (PixelFormatValidationError "BPP" "BPP must be greater than 0")
              else if negb (BPP pf =? 8) && negb (BPP pf =? 16) && negb (BPP pf =? 32) then
                Some (PixelFormatValidationError "BPP" "BPP must be 8, 16, or 32")
              else if Depth pf =? 0 then
                Some (PixelFormatValidationError "Depth" "Depth must be greater than 0")
              else if Depth pf >? BPP pf then
                Some (PixelFormatValidationError "Depth" "Depth cannot exceed BPP")
              else tail) = tail).
  { intros tail.
    assert (E0 : (BPP pf =? 0) = false) by (apply Z.eqb_neq; lia).
    assert (Es : negb (BPP pf =? 8) && negb (BPP pf =? 16) && negb (BPP pf =? 32) = false)
      by (destruct Hbpp as [->|[->| ->]]; reflexivity).
    assert (Ed0 : (Depth pf =? 0) = false) by (apply Z.eqb_neq; lia).
    assert (Ed1 : (Depth pf >? BPP pf) = false)
      by (rewrite Z.gtb_ltb; apply Z.ltb_ge; lia).
    rewrite E0, Es, Ed0, Ed1. reflexivity. }
  split.
  - intros Htc. unfold NewPixelFormatConverter, Validate. rewrite Hhead, Htc. reflexivity.
  - intros Htc.
    pose proof (proj1 (ValidatePixelFormat_accepts_iff pf Hwf Htc) Hval) as Hrule.
    unfold true_color_rule_of_code in Hrule.
    repeat match type of Hrule with
           | _ && _ = true => apply andb_prop in Hrule as [Hrule ?]
           end.
    repeat match goal with
           | H : negb (_ =? _) = true |- _ => apply negb_true_iff, Z.eqb_neq in H
           | H : (_ <? _) = true |- _ => apply Z.ltb_lt in H
           | H : (_ <=? _) = true |- _ => apply Z.leb_le in H
           end.
    destruct Hwf as (Hb & Hd & Hr & Hg & Hbl & Hrs & Hgs & Hbs).
    destruct (countBits_bounds _ Hr) as [Hcr Hpr].
    destruct (countBits_bounds _ Hg) as [Hcg Hpg].
    destruct (countBits_bounds _ Hbl) as [Hcb Hpb].
    assert (Hconv : NewPixelFormatConverter pf = Ok pf
                    <-> countBits (RedMax pf) + countBits (GreenMax pf)
                        + countBits (BlueMax pf) <= Depth pf).
    { unfold NewPixelFormatConverter, Validate. rewrite Hhead, Htc.
      assert (Ez : (RedMax pf =? 0) && (GreenMax pf =? 0) && (BlueMax pf =? 0) = false).
      { assert (E : (RedMax pf =? 0) = false) by (apply Z.eqb_neq; assumption).
        rewrite E. reflexivity. }
      rewrite Ez.
      unfold is_u8 in Hb, Hrs, Hgs, Hbs.
      rewrite (u8_id (BPP pf - 1)) by (unfold is_u8; lia).
      assert (Es1 : (RedShift pf >? BPP pf - 1) = false)
        by (rewrite Z.gtb_ltb; apply Z.ltb_ge; lia).
      assert (Es2 : (GreenShift pf >? BPP pf - 1) = false)
        by (rewrite Z.gtb_ltb; apply Z.ltb_ge; lia).
      assert (Es3 : (BlueShift pf >? BPP pf - 1) = false)
        by (rewrite Z.gtb_ltb; apply Z.ltb_ge; lia).
      rewrite Es1, Es2, Es3.
      rewrite u8_id by (unfold is_u8; lia). rewrite Z.gtb_ltb.
      destruct (Depth pf <? countBits (RedMax pf) + countBits (GreenMax pf)
                            + countBits (BlueMax pf)) eqn:E;
        [apply Z.ltb_lt in E|apply Z.ltb_ge in E].
      - split; [discriminate|lia].
      - split; [intros _; exact E|reflexivity]. }
    split; [exact Hconv|].
    intros Cr Cg Cb. apply Hconv.
    rewrite (countBits_contiguous _ Hr Cr), (countBits_contiguous _ Hg Cg),
      (countBits_contiguous _ Hbl Cb).
    assumption.
Qed.

Lemma NewPixelFormatConverter_after_handshake_witness :
  NewPixelFormatConverter pf_rgb565 = Ok pf_rgb565.
Proof.
  destruct (NewPixelFormatConverter_after_handshake pf_rgb565) as [_ H].
  - unfold PixelFormat_wf, is_u8, is_u16. cbn. lia.
  - reflexivity.
  - destruct (H eq_refl) as [_ Hc]. apply Hc; reflexivity.
Defined.
